(** * tui_checklist: a shallow embedding of [tui_checklist.py]

    The development follows the source file top to bottom: the two
    platform key decoders ([_InputHandler]), the terminal control surface
    ([_Term], kept as a trace of calls), the item model
    ([ChecklistItem], [_make_checklist_item]), the range record
    ([_ItemRange]) and the session ([tui_checklist]) with its nested
    closures.  The session is written in a small state-and-exception
    monad over the session variables, the pending raw input and the trace
    of terminal calls. *)

From Stdlib Require Import ZArith List String Ascii Bool Lia Floats.
From Stdlib Require Import DecimalString Sorted.
Import ListNotations.

Set Warnings "-register-all".

Local Open Scope string_scope.
Local Open Scope list_scope.
Local Open Scope Z_scope.

(** ** Python preliminaries *)

(** The exceptions the source can raise. *)
Inductive PyExc : Type :=
| KeyboardInterrupt
| TypeError
| ValueError
| IndexError
| AttributeError
| ZeroDivisionError
| OverflowError.

(** [l[i]]: negative indices count from the end, anything outside raises
    IndexError (here [None]). *)
Definition py_getitem {A : Type} (l : list A) (i : Z) : option A :=
  let n := Z.of_nat (List.length l) in
  let j := if i <? 0 then i + n else i in
  if (0 <=? j) && (j <? n) then nth_error l (Z.to_nat j) else None.

(** [range(lo, hi)]. *)
Definition py_range (lo hi : Z) : list Z :=
  map (fun k => lo + Z.of_nat k) (seq 0 (Z.to_nat (hi - lo))).

(** [range(start, -1, -1)]. *)
Definition py_range_down (start : Z) : list Z :=
  map (fun k => start - Z.of_nat k) (seq 0 (Z.to_nat (start + 1))).

(** [max(xs)] of a sequence of integers: ValueError on the empty one. *)
Definition py_max (xs : list Z) : option Z :=
  match xs with
  | [] => None
  | x :: rest => Some (fold_left Z.max rest x)
  end.

(** [len(s)] of a string. *)
Definition py_strlen (s : string) : Z := Z.of_nat (String.length s).

(** [s[:k]]: a negative bound counts from the end. *)
Definition py_slice_to (s : string) (k : Z) : string :=
  let n := py_strlen s in
  let stop := if k <? 0 then Z.max 0 (n + k) else Z.min k n in
  substring 0 (Z.to_nat stop) s.

(** [s.split('\n')]. *)
Fixpoint split_from (cur : string) (s : string) : list string :=
  match s with
  | EmptyString => [cur]
  | String c rest =>
      if Ascii.eqb c "010"%char then cur :: split_from "" rest
      else split_from (String.append cur (String c "")) rest
  end.

Definition py_split_lines (s : string) : list string := split_from "" s.

(** [str(n)] of an integer, as an f-string prints it. *)
Definition py_str_of_int (n : Z) : string := NilZero.string_of_int (Z.to_int n).

(** A dict with string keys, in insertion order. *)
Definition dict (V : Type) : Type := list (string * V).

Fixpoint dict_get {V : Type} (d : dict V) (k : string) : option V :=
  match d with
  | [] => None
  | (k', v) :: rest => if String.eqb k k' then Some v else dict_get rest k
  end.

(** [d.get(k, default)]. *)
Definition dict_get_default {V : Type} (d : dict V) (k : string) (default : V) : V :=
  match dict_get d k with
  | Some v => v
  | None => default
  end.

(** [a | b]: the entries of [b] win. *)
Definition dict_union {V : Type} (a b : dict V) : dict V :=
  filter (fun kv => match dict_get b (fst kv) with Some _ => false | None => true end) a ++ b.

(** Binary64 arithmetic for [selection_ratio]: conversion of an integer,
    true division of two integers, product of a float and an integer, and
    [int(x)] (truncation toward zero).  The conversion is the correctly
    rounded one, as Python's for the integers a list index can take. *)
Definition float_of_Z (z : Z) : float :=
  SF2Prim (binary_normalize prec emax z 0 false).

Definition py_truediv (a b : Z) : PyExc + float :=
  if b =? 0 then inl ZeroDivisionError
  else inr (PrimFloat.div (float_of_Z a) (float_of_Z b)).

Definition py_float_mul_int (x : float) (n : Z) : float :=
  PrimFloat.mul x (float_of_Z n).

Definition py_int_of_float (x : float) : PyExc + Z :=
  match Prim2SF x with
  | S754_zero _ => inr 0
  | S754_finite s m e =>
      let a := match e with
               | Z0 => Zpos m
               | Zpos p => Z.shiftl (Zpos m) (Zpos p)
               | Zneg p => Z.shiftr (Zpos m) (Zpos p)
               end in
      inr (if s then - a else a)
  | S754_infinity _ => inl OverflowError
  | S754_nan => inl ValueError
  end.

(** ** _InputHandler: the two key decoders *)

(** [Key = Optional[Union[str, bytes]]]. *)
Inductive Key : Type :=
| KNone
| KStr (s : string)
| KBytes (b : string).

(** What one call of [get_key] does: return a key or raise
    KeyboardInterrupt. *)
Inductive Decoded : Type :=
| Pressed (k : Key)
| Interrupt.

Definition ASCII_ETX : ascii := "003"%char.
Definition ASCII_ESC : ascii := "027"%char.
Definition CR : ascii := "013"%char.

Definition str1 (c : ascii) : string := String c "".

(** *** Windows *)

Definition WIN_CTRL_C : ascii := ASCII_ETX.
Definition WIN_ESC_PREFIXES : list ascii := ["000"%char; "224"%char].

Definition WIN_ESCAPED_MAPPING : dict string :=
  [ ("H", "UP"); ("P", "DOWN"); ("I", "PGUP"); ("Q", "PGDN");
    ("G", "HOME"); ("O", "END") ].

Definition WIN_NORMAL_MAPPING : dict string :=
  [ (" ", "SPACE"); (str1 CR, "ENTER"); (str1 ASCII_ESC, "ESCAPE") ].

(** [msvcrt.getch()] blocks until a byte is there: [None] when the
    pending input is used up. *)
Definition win_get_key (input : list ascii) : option (Decoded * list ascii) :=
  match input with
  | [] => None
  | key_code :: rest =>
      if Ascii.eqb key_code WIN_CTRL_C then Some (Interrupt, rest)
      else if existsb (Ascii.eqb key_code) WIN_ESC_PREFIXES then
        match rest with
        | [] => None
        | key_code2 :: rest2 =>
            let escape := key_code in
            Some (Pressed
                    match dict_get WIN_ESCAPED_MAPPING (str1 key_code2) with
                    | Some name => KStr name
                    | None => KBytes (String escape (str1 key_code2))
                    end, rest2)
        end
      else
        Some (Pressed
                match dict_get WIN_NORMAL_MAPPING (str1 key_code) with
                | Some name => KStr name
                | None => KBytes (str1 key_code)
                end, rest)
  end.

(** *** Unix *)

Definition UNIX_CTRL_C : ascii := ASCII_ETX.
Definition UNIX_ANSI_ESC : ascii := ASCII_ESC.
Definition UNIX_CSI_PREFIX : ascii := "["%char.
Definition UNIX_SS3_PREFIX : ascii := "O"%char.

Definition UNIX_VT_MAPPING : dict (option string) :=
  [ ("1~", Some "HOME"); ("2~", Some "INSERT"); ("3~", Some "DELETE");
    ("4~", Some "END"); ("5~", Some "PAGE_UP"); ("6~", Some "PAGE_DOWN");
    ("7~", Some "HOME"); ("8~", Some "END"); ("9~", None);
    ("10~", Some "F0"); ("11~", Some "F1"); ("12~", Some "F2");
    ("13~", Some "F3"); ("14~", Some "F4"); ("15~", Some "F5");
    ("16~", None); ("17~", Some "F6"); ("18~", Some "F7");
    ("19~", Some "F8"); ("20~", Some "F9"); ("21~", Some "F10");
    ("22~", None); ("23~", Some "F11"); ("24~", Some "F12");
    ("25~", Some "F13"); ("26~", Some "F14"); ("27~", None);
    ("28~", Some "F15"); ("29~", Some "F16"); ("30~", None);
    ("31~", Some "F17"); ("32~", Some "F18"); ("33~", Some "F19");
    ("34~", Some "F20"); ("35~", None) ].

Definition UNIX_XTERM_MAPPING : dict (option string) :=
  [ ("A", Some "UP"); ("B", Some "DOWN"); ("C", Some "RIGHT");
    ("D", Some "LEFT"); ("E", None); ("F", Some "END");
    ("G", Some "KEYPAD5"); ("H", Some "HOME"); ("I", None); ("J", None);
    ("K", None); ("L", None); ("M", None); ("N", None); ("O", None);
    ("1P", Some "F1"); ("1Q", Some "F2"); ("1R", Some "F3");
    ("1S", Some "F4"); ("T", None); ("U", None); ("V", None); ("W", None);
    ("X", None); ("Y", None); ("Z", None) ].

Definition UNIX_TERM_MAPPING : dict (option string) :=
  dict_union UNIX_VT_MAPPING UNIX_XTERM_MAPPING.

Definition UNIX_NORMAL_MAPPING : dict string :=
  [ (" ", "SPACE"); (str1 CR, "ENTER"); (str1 ASCII_ESC, "ESCAPE") ].

(** The [for i in range(3)] loop of the escape branch: read one more
    character, look the sequence so far up with default [''], return on
    the first hit (the hit may be [None]). *)
Fixpoint unix_read_sequence (n : nat) (sequence : string) (input : list ascii)
  : option (Decoded * list ascii) :=
  match n with
  | O => Some (Pressed KNone, input)
  | S n' =>
      match input with
      | [] => None
      | c :: rest =>
          let sequence' := String.append sequence (str1 c) in
          match dict_get_default UNIX_TERM_MAPPING sequence' (Some "") with
          | Some "" => unix_read_sequence n' sequence' rest
          | Some name => Some (Pressed (KStr name), rest)
          | None => Some (Pressed KNone, rest)
          end
      end
  end.

(** [sys.stdin.read(1)] on the raw terminal blocks until a character is
    there: [None] when the pending input is used up.  Saving and
    restoring the terminal attributes around the read is left to the
    platform. *)
Definition unix_get_key (input : list ascii) : option (Decoded * list ascii) :=
  match input with
  | [] => None
  | char :: rest =>
      if Ascii.eqb char UNIX_CTRL_C then Some (Interrupt, rest)
      else if Ascii.eqb char UNIX_ANSI_ESC then
        match rest with
        | [] => None
        | prefix :: rest2 =>
            if Ascii.eqb prefix UNIX_CSI_PREFIX || Ascii.eqb prefix UNIX_SS3_PREFIX
            then unix_read_sequence 3 "" rest2
            else Some (Pressed KNone, rest2)
        end
      else
        Some (Pressed (KStr (dict_get_default UNIX_NORMAL_MAPPING (str1 char) (str1 char))), rest)
  end.

(** The platform is chosen once, by [sys.platform]. *)
Inductive Platform : Type := Win32 | Unix.

Definition get_key (p : Platform) : list ascii -> option (Decoded * list ascii) :=
  match p with
  | Win32 => win_get_key
  | Unix => unix_get_key
  end.


(** ** _Term: the terminal control surface

    The calls made on [_Term], in order; the bytes each call writes are
    the output sink's business. *)

Inductive Color : Type :=
| DEFAULT | BLACK | RED | GREEN | YELLOW | BLUE | PURPLE | CYAN | WHITE.

Inductive TermCall : Type :=
| enter_app_mode
| exit_app_mode
| move_home
| move_to (row column : Z)
| write (text : string) (bold : bool) (color : Color)
| write_line (text : string) (bold : bool) (color : Color)
| overwrite_line (text : string) (newline bold : bool) (color : Color)
| clear_lines_after (row : option Z)
| flush.

(** ** ChecklistItem and _make_checklist_item *)

(** The values a caller can put in the [items] list. *)
Inductive PyVal : Type :=
| PyNone
| PyBool (b : bool)
| PyInt (z : Z)
| PyStr (s : string)
| PyTuple (elems : list PyVal)
| PyChecklistItem (label : string) (checked : bool) (tag : PyVal)
| PyObject (id : nat).

Record ChecklistItem : Type := mkChecklistItem {
  label : string;
  checked : bool;
  tag : PyVal;
  label_lines : list string
}.

(** The constructor with its [__post_init__]. *)
Definition new_ChecklistItem (label : string) (checked : bool) (tag : PyVal) : ChecklistItem :=
  mkChecklistItem label checked tag (py_split_lines label).

(** The [height] property and [__len__]. *)
Definition height (item : ChecklistItem) : Z := Z.of_nat (List.length (label_lines item)).
Definition item_len (item : ChecklistItem) : Z := Z.of_nat (List.length (label_lines item)).

Definition toggle (item : ChecklistItem) (value : option bool) : ChecklistItem :=
  let value :=
    match value with
    | None => negb (checked item)
    | Some v => v
    end in
  mkChecklistItem (label item) value (tag item) (label_lines item).

Definition _make_checklist_item (obj : PyVal) : PyExc + ChecklistItem :=
  match obj with
  | PyChecklistItem l c t => inr (new_ChecklistItem l c t)
  | PyTuple elems =>
      match elems with
      | PyStr l :: second :: rest =>
          match rest with
          | [third] =>
              match second with
              | PyBool c => inr (new_ChecklistItem l c third)
              | _ => inl TypeError
              end
          | [] =>
              match second with
              | PyBool c => inr (new_ChecklistItem l c PyNone)
              | _ => inr (new_ChecklistItem l false second)
              end
          | _ => inl TypeError
          end
      | _ => inl TypeError
      end
  | PyStr l => inr (new_ChecklistItem l false PyNone)
  | _ => inl TypeError
  end.

(** [[_make_checklist_item(item) for item in items]]: the first failure
    ends the comprehension. *)
Fixpoint make_all (objs : list PyVal) : PyExc + list ChecklistItem :=
  match objs with
  | [] => inr []
  | obj :: rest =>
      match _make_checklist_item obj with
      | inl e => inl e
      | inr item =>
          match make_all rest with
          | inl e => inl e
          | inr items => inr (item :: items)
          end
      end
  end.

(** The second comprehension: a tag that is None becomes the index. *)
Fixpoint default_tags (i : Z) (items : list ChecklistItem) : list ChecklistItem :=
  match items with
  | [] => []
  | item :: rest =>
      new_ChecklistItem (label item) (checked item)
        match tag item with
        | PyNone => PyInt i
        | t => t
        end
      :: default_tags (i + 1) rest
  end.

(** ** _ItemRange *)

Record _ItemRange : Type := mkItemRange {
  first : Z;
  last : Z;
  range_height : Z
}.

(** [__len__]. *)
Definition range_len (r : _ItemRange) : Z := last r - first r + 1.

(** [len(r)]: Python refuses a negative [__len__]. *)
Definition py_len (r : _ItemRange) : PyExc + Z :=
  if range_len r <? 0 then inl ValueError else inr (range_len r).

(** Truth value of an [Optional[_ItemRange]]: None is false, a range is
    true when its [__len__] is not zero. *)
Definition truthy (r : option _ItemRange) : PyExc + bool :=
  match r with
  | None => inr false
  | Some r =>
      match py_len r with
      | inl e => inl e
      | inr n => inr (negb (n =? 0))
      end
  end.

(** ** The session

    The variables [tui_checklist] declares before its loop, the list of
    items (whose [checked] flags the loop updates in place), the raw
    input still to be read and the terminal calls made so far. *)

Record Session : Type := mkSession {
  terminal_width : Z;
  terminal_height : Z;
  usable_height : Z;
  visible_range : option _ItemRange;
  scroll_max : Z;
  current_position : Z;
  items : list ChecklistItem;
  stdin : list ascii;
  stdout : list TermCall
}.

Definition set_terminal_size (w h : Z) (s : Session) : Session :=
  mkSession w h (usable_height s) (visible_range s) (scroll_max s)
    (current_position s) (items s) (stdin s) (stdout s).

Definition set_usable_height (u : Z) (s : Session) : Session :=
  mkSession (terminal_width s) (terminal_height s) u (visible_range s) (scroll_max s)
    (current_position s) (items s) (stdin s) (stdout s).

Definition set_visible_range (r : option _ItemRange) (s : Session) : Session :=
  mkSession (terminal_width s) (terminal_height s) (usable_height s) r (scroll_max s)
    (current_position s) (items s) (stdin s) (stdout s).

Definition set_scroll_max (n : Z) (s : Session) : Session :=
  mkSession (terminal_width s) (terminal_height s) (usable_height s) (visible_range s) n
    (current_position s) (items s) (stdin s) (stdout s).

Definition set_current_position (n : Z) (s : Session) : Session :=
  mkSession (terminal_width s) (terminal_height s) (usable_height s) (visible_range s)
    (scroll_max s) n (items s) (stdin s) (stdout s).

Definition set_items (l : list ChecklistItem) (s : Session) : Session :=
  mkSession (terminal_width s) (terminal_height s) (usable_height s) (visible_range s)
    (scroll_max s) (current_position s) l (stdin s) (stdout s).

Definition set_stdin (i : list ascii) (s : Session) : Session :=
  mkSession (terminal_width s) (terminal_height s) (usable_height s) (visible_range s)
    (scroll_max s) (current_position s) (items s) i (stdout s).

Definition add_stdout (c : TermCall) (s : Session) : Session :=
  mkSession (terminal_width s) (terminal_height s) (usable_height s) (visible_range s)
    (scroll_max s) (current_position s) (items s) (stdin s) (stdout s ++ [c]).

(** A step of the session returns a value, raises, or waits for input
    that is not there yet. *)
Inductive Res (A : Type) : Type :=
| Ok (a : A) (s : Session)
| Raise (e : PyExc) (s : Session)
| Wait (s : Session).

Arguments Ok {A} a s.
Arguments Raise {A} e s.
Arguments Wait {A} s.

Definition M (A : Type) : Type := Session -> Res A.

Definition ret {A : Type} (a : A) : M A := fun s => Ok a s.

Definition bind {A B : Type} (c : M A) (k : A -> M B) : M B :=
  fun s =>
    match c s with
    | Ok a s' => k a s'
    | Raise e s' => Raise e s'
    | Wait s' => Wait s'
    end.

Definition raise {A : Type} (e : PyExc) : M A := fun s => Raise e s.

Definition gets {A : Type} (f : Session -> A) : M A := fun s => Ok (f s) s.

Definition modify (f : Session -> Session) : M unit := fun s => Ok tt (f s).

(** A pure computation that can raise. *)
Definition lift {A : Type} (r : PyExc + A) : M A :=
  match r with
  | inl e => raise e
  | inr a => ret a
  end.

(** [l[i]] inside the session. *)
Definition getitem {A : Type} (l : list A) (i : Z) : M A :=
  match py_getitem l i with
  | Some a => ret a
  | None => raise IndexError
  end.

Definition term (c : TermCall) : M unit := modify (add_stdout c).

Declare Scope session_scope.
Delimit Scope session_scope with session.
Notation "x <- c ;; k" := (bind c (fun x => k))
  (at level 61, c at next level, right associativity) : session_scope.
Notation "' pat <- c ;; k" := (bind c (fun x => match x with pat => k end))
  (at level 61, pat pattern, c at next level, right associativity) : session_scope.
Notation "c ;; k" := (bind c (fun _ => k))
  (at level 61, right associativity) : session_scope.
Local Open Scope session_scope.

(** [for x in xs: body(x)]. *)
Fixpoint for_each {A : Type} (xs : list A) (body : A -> M unit) : M unit :=
  match xs with
  | [] => ret tt
  | x :: rest => body x ;; for_each rest body
  end.

(** [key == name] for a string literal [name]. *)
Definition key_is (key : Key) (name : string) : bool :=
  match key with
  | KStr s => String.eqb s name
  | _ => false
  end.

(** [l[lo:hi]]. *)
Definition py_slice {A : Type} (l : list A) (lo hi : Z) : list A :=
  let n := Z.of_nat (List.length l) in
  let norm := fun i => Z.max 0 (Z.min n (if i <? 0 then i + n else i)) in
  firstn (Z.to_nat (norm hi - norm lo)) (skipn (Z.to_nat (norm lo)) l).

(** [l[i] = x] for an index that is there. *)
Fixpoint replace_nth {A : Type} (n : nat) (x : A) (l : list A) : list A :=
  match l, n with
  | [], _ => []
  | _ :: rest, O => x :: rest
  | y :: rest, S n' => y :: replace_nth n' x rest
  end.

(** What one pass of the [while True] body ends with. *)
Inductive Ctl : Type := Continue | Break.

Definition LF : string := str1 "010"%char.

Definition instructions : string :=
  "(Arrows: Move, Space: Toggle, PgUp/Dn: Scroll, Home/End: Jump, Enter: Save, Esc/Ctrl+C: Cancel)".

Definition viewport_too_small_message : string :=
  String.append "The viewport is too small to render the list"
    (String.append LF "Resize the terminal before continuing").

(** The loop shared by [get_visible_range] and the second half of
    [scroll_down]: take the items of [check_range] one by one while the
    height stays within [usable]. *)
Fixpoint fit_loop (its : list ChecklistItem) (item_margin usable : Z)
  (check_range : list Z) (visible_last visible_height : Z) : PyExc + (Z * Z) :=
  match check_range with
  | [] => inr (visible_last, visible_height)
  | i :: rest =>
      match py_getitem its i with
      | None => inl IndexError
      | Some item =>
          let next_height := visible_height + item_margin + height item in
          if next_height >? usable then inr (visible_last, visible_height)
          else fit_loop its item_margin usable rest i next_height
      end
  end.

(** [get_visible_range] as a function of what it reads. *)
Definition visible_range_of (its : list ChecklistItem) (item_margin usable : Z)
  (position : Z) (to : bool) : PyExc + option _ItemRange :=
  let check_range :=
    if negb to then py_range position (Z.of_nat (List.length its))
    else py_range_down position in
  match fit_loop its item_margin usable check_range (-1) (- item_margin) with
  | inl e => inl e
  | inr (visible_last, visible_height) =>
      if negb (visible_last =? -1) then
        if negb to then inr (Some (mkItemRange position visible_last visible_height))
        else inr (Some (mkItemRange visible_last position visible_height))
      else inr None
  end.

(** The [while] loop of [scroll_up]: drop items from the far end.  Each
    pass lowers [visible_last] by one, so [visible_last - visible_first + 1]
    passes are enough; [fuel] counts them. *)
Fixpoint trim_last (its : list ChecklistItem) (item_margin usable : Z) (fuel : nat)
  (visible_first visible_last visible_height : Z) : PyExc + (Z * Z) :=
  if (visible_first <=? visible_last) && (visible_height >? usable) then
    match fuel with
    | O => inr (visible_last, visible_height)
    | S fuel' =>
        match py_getitem its visible_last with
        | None => inl IndexError
        | Some item =>
            trim_last its item_margin usable fuel' visible_first (visible_last - 1)
              (visible_height - (item_margin + height item))
        end
    end
  else inr (visible_last, visible_height).

(** The [while] loop of [scroll_down]: drop items from the near end. *)
Fixpoint trim_first (its : list ChecklistItem) (item_margin usable : Z) (fuel : nat)
  (visible_first visible_last visible_height : Z) : PyExc + (Z * Z) :=
  if (visible_first <=? visible_last) && (visible_height >? usable) then
    match fuel with
    | O => inr (visible_first, visible_height)
    | S fuel' =>
        match py_getitem its visible_first with
        | None => inl IndexError
        | Some item =>
            trim_first its item_margin usable fuel' (visible_first + 1) visible_last
              (visible_height - (item_margin + height item))
        end
    end
  else inr (visible_first, visible_height).

Section Closures.

(** What the closures capture besides the session variables. *)
Variable platform : Platform.
Variable item_margin : Z.
Variable truncate_lines : bool.
Variable header_lines : list string.

(** [_InputHandler.get_key()]. *)
Definition read_key : M Key :=
  fun s =>
    match get_key platform (stdin s) with
    | None => Wait s
    | Some (Interrupt, rest) => Raise KeyboardInterrupt (set_stdin rest s)
    | Some (Pressed key, rest) => Ok key (set_stdin rest s)
    end.

Definition truncate (line : string) (offset : Z) : M string :=
  width <- gets terminal_width ;;
  ret (if truncate_lines && (offset + py_strlen line >? width)
       then String.append (py_slice_to line (width - offset - 3)) "..."
       else line).

Definition render_error (message : string) : M unit :=
  term move_home ;;
  term (overwrite_line message true true RED) ;;
  term (overwrite_line "Press any key to continue" true false YELLOW) ;;
  term (overwrite_line "" true false DEFAULT) ;;
  key <- read_key ;;
  if key_is key "ESCAPE" then raise KeyboardInterrupt else ret tt.

Definition render_viewport_too_small_error : M unit :=
  render_error viewport_too_small_message.

Definition get_visible_range (position : Z) (to : bool) : M (option _ItemRange) :=
  its <- gets items ;;
  usable <- gets usable_height ;;
  lift (visible_range_of its item_margin usable position to).

(** [if not r: render_viewport_too_small_error()]. *)
Definition error_unless (r : option _ItemRange) : M unit :=
  t <- lift (truthy r) ;;
  if negb t then render_viewport_too_small_error else ret tt.

Definition scroll_to (new_position : Z) : M unit :=
  smax <- gets scroll_max ;;
  if (new_position <? 0) || (smax <? new_position) then raise ValueError
  else
    r <- get_visible_range new_position false ;;
    modify (set_visible_range r) ;;
    error_unless r.

(** [r.first] and the like: None has no attributes. *)
Definition the_value (r : option _ItemRange) : M _ItemRange :=
  match r with
  | None => raise AttributeError
  | Some r => ret r
  end.

Definition the_visible_range : M _ItemRange :=
  r <- gets visible_range ;;
  the_value r.

Definition scroll_up : M unit :=
  r <- the_visible_range ;;
  if first r =? 0 then
    smax <- gets scroll_max ;;
    scroll_to smax
  else
    its <- gets items ;;
    usable <- gets usable_height ;;
    item <- getitem its (first r - 1) ;;
    let visible_height := range_height r + item_margin + height item in
    let visible_first := first r - 1 in
    let visible_last := last r in
    '(visible_last, visible_height) <-
      lift (trim_last its item_margin usable
              (Z.to_nat (visible_last - visible_first + 1))
              visible_first visible_last visible_height) ;;
    (if visible_height >? usable then
       modify (set_visible_range None) ;;
       render_viewport_too_small_error
     else ret tt) ;;
    let r' := mkItemRange visible_first visible_last visible_height in
    modify (set_visible_range (Some r')) ;;
    error_unless (Some r').

Definition scroll_down : M unit :=
  r <- the_visible_range ;;
  smax <- gets scroll_max ;;
  if first r =? smax then scroll_to 0
  else
    its <- gets items ;;
    usable <- gets usable_height ;;
    item <- getitem its (last r + 1) ;;
    let visible_height := range_height r + item_margin + height item in
    let visible_first := first r in
    let visible_last := last r + 1 in
    '(visible_first, visible_height) <-
      lift (trim_first its item_margin usable
              (Z.to_nat (visible_last - visible_first + 1))
              visible_first visible_last visible_height) ;;
    (if visible_height >? usable then
       modify (set_visible_range None) ;;
       render_viewport_too_small_error
     else ret tt) ;;
    '(visible_last, visible_height) <-
      lift (fit_loop its item_margin usable
              (py_range (visible_last + 1) (Z.of_nat (List.length its)))
              visible_last visible_height) ;;
    let r' := mkItemRange visible_first visible_last visible_height in
    modify (set_visible_range (Some r')) ;;
    error_unless (Some r').

Definition SELECTION_MARKER : string := ">".
Definition NO_MARKER : string := " ".
Definition SELECTION_MARKER_SEPARATOR : string := " ".
Definition UNCHECKED_CHECKBOX : string := "[ ]".
Definition CHECKED_CHECKBOX : string := "[X]".
Definition CHECKBOX_SEPARATOR : string := " ".
Definition OTHER_LINES_INDENTATION : string := "      ".

Definition render_item (item_position : Z) (max_lines : option Z) : M unit :=
  if match max_lines with Some n => n <? 1 | None => false end
  then raise ValueError
  else
    its <- gets items ;;
    item <- getitem its item_position ;;
    cur <- gets current_position ;;
    let marker :=
      if item_position =? cur
      then String.append SELECTION_MARKER SELECTION_MARKER_SEPARATOR
      else String.append NO_MARKER SELECTION_MARKER_SEPARATOR in
    term (overwrite_line marker false false DEFAULT) ;;
    (if checked item
     then term (write (String.append CHECKED_CHECKBOX CHECKBOX_SEPARATOR) false GREEN)
     else term (write (String.append UNCHECKED_CHECKBOX CHECKBOX_SEPARATOR) false DEFAULT)) ;;
    line0 <- getitem (label_lines item) 0 ;;
    text <- truncate line0 (py_strlen OTHER_LINES_INDENTATION) ;;
    term (write_line text false DEFAULT) ;;
    let stop :=
      match max_lines with
      | None => item_len item
      | Some n => n - 1
      end in
    for_each (py_slice (label_lines item) 1 stop)
      (fun line =>
         text <- truncate (String.append OTHER_LINES_INDENTATION line) 0 ;;
         term (overwrite_line text true false DEFAULT)).

Definition render_item_margin : M unit :=
  for_each (py_range 0 item_margin)
    (fun _ => term (overwrite_line "" true false DEFAULT)).

(** The first block of the loop body: on a change of the terminal size,
    check the width, redraw the header, recompute [usable_height],
    [scroll_max] and the visible range.  [true] stands for
    [continue]. *)
Definition measure (size : Z * Z) : M bool :=
  let '(_terminal_width, _terminal_height) := size in
  width <- gets terminal_width ;;
  rows <- gets terminal_height ;;
  if negb (width =? _terminal_width) || negb (rows =? _terminal_height) then
    its <- gets items ;;
    too_narrow <-
      (if negb truncate_lines then
         match py_max (map py_strlen header_lines) with
         | None => raise ValueError
         | Some widest_header =>
             match py_max (map item_len its) with
             | None => raise ValueError
             | Some longest_item =>
                 ret (_terminal_width <? Z.max widest_header longest_item)
             end
         end
       else ret false) ;;
    if (too_narrow : bool) then
      render_viewport_too_small_error ;;
      ret true
    else
      modify (set_terminal_size _terminal_width _terminal_height) ;;
      term move_home ;;
      for_each header_lines
        (fun line =>
           text <- truncate line 0 ;;
           term (overwrite_line text true true CYAN)) ;;
      term (overwrite_line "" true false DEFAULT) ;;
      modify (set_usable_height
                (_terminal_height - Z.of_nat (List.length header_lines) - 3)) ;;
      scroll_max_vr <- get_visible_range (Z.of_nat (List.length its) - 1) true ;;
      t <- lift (truthy scroll_max_vr) ;;
      if (t : bool) then
        r <- the_value scroll_max_vr ;;
        modify (set_scroll_max (first r)) ;;
        old <- gets visible_range ;;
        cur <- gets current_position ;;
        r' <- get_visible_range
                match old with
                | Some o => first o
                | None => cur
                end false ;;
        modify (set_visible_range r') ;;
        ret false
      else
        render_viewport_too_small_error ;;
        modify (set_terminal_size 0 0) ;;
        ret true
  else ret false.

(** The paging branch of the key dispatch. *)
Definition page (key : Key) : M Ctl :=
  r0 <- gets visible_range ;;
  t <- lift (truthy r0) ;;
  if negb t then ret Continue
  else
    r <- the_value r0 ;;
    smax <- gets scroll_max ;;
    its <- gets items ;;
    cur <- gets current_position ;;
    (** [None] stands for the [continue] of a branch. *)
    new_scroll <-
      (if key_is key "PGDN" then
         if first r =? smax then
           modify (set_current_position (Z.of_nat (List.length its) - 1)) ;;
           ret None
         else ret (Some (Z.min smax (last r + 1)))
       else
         if first r =? 0 then
           modify (set_current_position 0) ;;
           ret None
         else
           new_vr <- get_visible_range (first r - 1) true ;;
           t' <- lift (truthy new_vr) ;;
           if negb t' then
             render_viewport_too_small_error ;;
             ret None
           else
             nr <- the_value new_vr ;;
             ret (Some (first nr))) ;;
    match new_scroll with
    | None => ret Continue
    | Some new_scroll =>
        n <- lift (py_len r) ;;
        selection_ratio <-
          (if n >? 1 then lift (py_truediv (cur - first r) (last r - first r))
           else ret PrimFloat.zero) ;;
        scroll_to new_scroll ;;
        r1 <- gets visible_range ;;
        t1 <- lift (truthy r1) ;;
        if negb t1 then
          render_viewport_too_small_error ;;
          modify (set_current_position new_scroll) ;;
          ret Continue
        else
          r2 <- the_value r1 ;;
          n2 <- lift (py_len r2) ;;
          offset <- lift (py_int_of_float (py_float_mul_int selection_ratio (n2 - 1))) ;;
          modify (set_current_position (first r2 + offset)) ;;
          ret Continue
    end.

(** [a % b]. *)
Definition py_mod (a b : Z) : M Z :=
  if b =? 0 then raise ZeroDivisionError else ret (a mod b).

(** The [if key == ...] chain at the end of the loop body. *)
Definition apply_key (key : Key) : M Ctl :=
  if key_is key "UP" then
    cur <- gets current_position ;;
    r <- the_visible_range ;;
    (if cur =? first r then scroll_up else ret tt) ;;
    cur <- gets current_position ;;
    its <- gets items ;;
    cur' <- py_mod (cur - 1) (Z.of_nat (List.length its)) ;;
    modify (set_current_position cur') ;;
    ret Continue
  else if key_is key "DOWN" then
    cur <- gets current_position ;;
    r <- the_visible_range ;;
    (if cur =? last r then scroll_down else ret tt) ;;
    cur <- gets current_position ;;
    its <- gets items ;;
    cur' <- py_mod (cur + 1) (Z.of_nat (List.length its)) ;;
    modify (set_current_position cur') ;;
    ret Continue
  else if key_is key "HOME" then
    scroll_to 0 ;;
    modify (set_current_position 0) ;;
    ret Continue
  else if key_is key "END" then
    smax <- gets scroll_max ;;
    scroll_to smax ;;
    its <- gets items ;;
    modify (set_current_position (Z.of_nat (List.length its) - 1)) ;;
    ret Continue
  else if key_is key "PGUP" || key_is key "PGDN" then page key
  else if key_is key "SPACE" then
    its <- gets items ;;
    cur <- gets current_position ;;
    item <- getitem its cur ;;
    let n := Z.of_nat (List.length its) in
    let i := if cur <? 0 then cur + n else cur in
    modify (set_items (replace_nth (Z.to_nat i) (toggle item None) its)) ;;
    ret Continue
  else if key_is key "ENTER" then ret Break
  else if key_is key "ESCAPE" then raise KeyboardInterrupt
  else ret Continue.

(** The part of the loop body that draws the list and the footer. *)
Definition render : M unit :=
  r <- the_visible_range ;;
  usable <- gets usable_height ;;
  its <- gets items ;;
  rows <- gets terminal_height ;;
  cur <- gets current_position ;;
  term (move_to (Z.of_nat (List.length header_lines) + 1) 0) ;;
  render_item (first r) None ;;
  for_each (py_range (first r + 1) (last r + 1))
    (fun i => render_item_margin ;; render_item i None) ;;
  let remaining_height := usable - range_height r in
  (if (remaining_height >? item_margin) && (last r + 1 <? Z.of_nat (List.length its))
   then render_item_margin ;; render_item (last r + 1) (Some (remaining_height - item_margin))
   else ret tt) ;;
  term (clear_lines_after None) ;;
  term (move_to (rows - 1) 0) ;;
  text <- truncate
            (String.concat ""
               [ ">"; py_str_of_int (cur + 1); " ";
                 py_str_of_int (first r + 1); "-"; py_str_of_int (last r + 1);
                 "/"; py_str_of_int (Z.of_nat (List.length its)) ]) 0 ;;
  term (overwrite_line text false true CYAN) ;;
  term flush.

(** One pass of the [while True] body, given what
    [os.get_terminal_size()] answers. *)
Definition loop_body (size : Z * Z) : M Ctl :=
  again <- measure size ;;
  if (again : bool) then ret Continue
  else
    r <- gets visible_range ;;
    cur <- gets current_position ;;
    t <- lift (truthy r) ;;
    outside <-
      (if negb t then ret true
       else r <- the_value r ;; ret ((cur <? first r) || (last r <? cur))) ;;
    (if (outside : bool) then scroll_to cur else ret tt) ;;
    r <- gets visible_range ;;
    t <- lift (truthy r) ;;
    if negb t then
      render_viewport_too_small_error ;;
      ret Continue
    else
      render ;;
      key <- read_key ;;
      apply_key key.

(** The [while True] loop, over the answers of
    [os.get_terminal_size()], one per pass; it waits when they are used
    up. *)
Fixpoint main_loop (sizes : list (Z * Z)) : M unit :=
  match sizes with
  | [] => fun s => Wait s
  | size :: rest =>
      c <- loop_body size ;;
      match c with
      | Continue => main_loop rest
      | Break => ret tt
      end
  end.

End Closures.

(** The session before the loop starts. *)
Definition initial_session (its : list ChecklistItem) (input : list ascii) : Session :=
  mkSession 0 0 0 None 0 0 its input [].

(** What a call of [tui_checklist] comes to: it returns (the tags, or
    None on cancel), it raises, or it is still running when the inputs
    given are used up. *)
Inductive Outcome : Type :=
| Returned (result : option (list PyVal))
| Raised (e : PyExc)
| Running.

(** [[item.tag for item in items if item.checked]]. *)
Definition checked_tags (its : list ChecklistItem) : list PyVal :=
  map tag (filter checked its).

(** The [try] / [except KeyboardInterrupt] / [finally] around the loop and
    the [return] after it. *)
Definition finish (r : Res unit) : Outcome * list TermCall :=
  match r with
  | Ok _ s => (Returned (Some (checked_tags (items s))), stdout s ++ [exit_app_mode])
  | Raise KeyboardInterrupt s => (Returned None, stdout s ++ [exit_app_mode])
  | Raise e s => (Raised e, stdout s ++ [exit_app_mode])
  | Wait s => (Running, stdout s)
  end.

(** [tui_checklist(items, header, item_margin, truncate_lines)] run on a
    platform against the terminal sizes and the raw input it will see;
    the second component is the trace of terminal calls. *)
Definition tui_checklist (platform : Platform) (raw_items : list PyVal)
  (header : option string) (item_margin : Z) (truncate_lines : bool)
  (sizes : list (Z * Z)) (input : list ascii) : Outcome * list TermCall :=
  match make_all raw_items with
  | inl e => (Raised e, [])
  | inr its =>
      let its := default_tags 0 its in
      let s0 := add_stdout enter_app_mode (initial_session its input) in
      finish
        match header with
        | None => Raise AttributeError s0
        | Some header =>
            main_loop platform item_margin truncate_lines
              (py_split_lines header ++ [instructions]) sizes s0
        end
  end.

(** ** Vocabulary of the statements *)

(** The rows a window [first..last] takes: the heights of its members
    and one margin per member after the first. *)
Definition sum_heights (its : list ChecklistItem) : Z :=
  fold_right Z.add 0 (map height its).

Definition members (its : list ChecklistItem) (first last : Z) : list ChecklistItem :=
  firstn (Z.to_nat (last - first + 1)) (skipn (Z.to_nat first) its).

Definition occupied_rows (its : list ChecklistItem) (item_margin first last : Z) : Z :=
  sum_heights (members its first last) + item_margin * (last - first).

(** The shapes [normalize] recognizes, with the triple each stands for. *)
Inductive recognized : PyVal -> string -> bool -> PyVal -> Prop :=
| recognized_item l c t :
    recognized (PyChecklistItem l c t) l c t
| recognized_label l :
    recognized (PyStr l) l false PyNone
| recognized_label_checked l c :
    recognized (PyTuple [PyStr l; PyBool c]) l c PyNone
| recognized_label_tag l t :
    (forall b, t <> PyBool b) ->
    recognized (PyTuple [PyStr l; t]) l false t
| recognized_label_checked_tag l c t :
    recognized (PyTuple [PyStr l; PyBool c; t]) l c t.

(** The session variables after the loop body has run once for each of
    [sizes] and asked to go on each time. *)
Fixpoint after_passes (platform : Platform) (item_margin : Z) (truncate_lines : bool)
  (header_lines : list string) (sizes : list (Z * Z)) (s : Session) : option Session :=
  match sizes with
  | [] => Some s
  | size :: rest =>
      match loop_body platform item_margin truncate_lines header_lines size s with
      | Ok Continue s' => after_passes platform item_margin truncate_lines header_lines rest s'
      | _ => None
      end
  end.

(** Raw input of the keys used in the examples. *)
Definition ESC_BYTE : list ascii := [ASCII_ESC].
Definition ENTER_BYTE : list ascii := [CR].
Definition SPACE_BYTE : list ascii := [" "%char].

Definition raw_DOWN (p : Platform) : list ascii :=
  match p with
  | Win32 => ["224"%char; "P"%char]
  | Unix => [ASCII_ESC; "["%char; "B"%char]
  end.

Definition raw_PAGE_DOWN (p : Platform) : list ascii :=
  match p with
  | Win32 => ["224"%char; "Q"%char]
  | Unix => [ASCII_ESC; "["%char; "6"%char; "~"%char]
  end.

Definition raw_PAGE_UP (p : Platform) : list ascii :=
  match p with
  | Win32 => ["224"%char; "I"%char]
  | Unix => [ASCII_ESC; "["%char; "5"%char; "~"%char]
  end.

Definition raw_END (p : Platform) : list ascii :=
  match p with
  | Win32 => ["224"%char; "O"%char]
  | Unix => [ASCII_ESC; "["%char; "F"%char]
  end.

(** [n] items of one line each. *)
Definition one_line_items (n : nat) : list PyVal := repeat (PyStr "item") n.

(** What the examples hand to the loop: the items as the two
    comprehensions at the top of [tui_checklist] leave them. *)
Definition prepared (raw : list PyVal) : list ChecklistItem :=
  match make_all raw with
  | inr its => default_tags 0 its
  | inl _ => []
  end.

(** The header lines of a call with header ["h"]. *)
Definition short_header : list string := py_split_lines "h" ++ [instructions].

(** The session variables, without the input and the terminal trace. *)
Definition vars (s : Session)
  : Z * Z * Z * option _ItemRange * Z * Z * list ChecklistItem :=
  (terminal_width s, terminal_height s, usable_height s, visible_range s,
   scroll_max s, current_position s, items s).

(** A session on ten one-line items with three usable rows, as the loop
    leaves it after measuring a terminal of 120 by 8 under a one-line
    header. *)
Definition ten_items_session : Session :=
  mkSession 120 8 3 (Some (mkItemRange 0 2 3)) 7 0 (prepared (one_line_items 10)) [] [].

(** Every item has at least one line. *)
Definition heights_ok (its : list ChecklistItem) : Prop :=
  Forall (fun item => 1 <= height item) its.

(** What holds of a stored range: it lies in the list, it is at worst
    empty ([last = first - 1]), its height is the rows its members
    occupy, and, while the cached terminal size stands, it is no taller
    than the usable height. *)
Definition range_ok (m : Z) (s : Session) (r : _ItemRange) : Prop :=
  0 <= first r /\
  first r <= last r + 1 /\
  last r < Z.of_nat (List.length (items s)) /\
  range_height r = occupied_rows (items s) m (first r) (last r) /\
  Z.of_nat (List.length (members (items s) (first r) (last r))) = range_len r /\
  ((terminal_width s, terminal_height s) <> (0, 0) ->
   range_height r <= usable_height s).

(** The part of the invariant on the window. *)
Definition window_ok (m : Z) (s : Session) : Prop :=
  heights_ok (items s) /\
  forall r, visible_range s = Some r -> range_ok m s r.

(** The invariant of the loop head: the window is in order and, while no
    range is stored, the cursor is not negative. *)
Definition session_ok (m : Z) (s : Session) : Prop :=
  window_ok m s /\
  (visible_range s = None -> 0 <= current_position s).

(** What [scroll_up] and [scroll_down] leave in [visible_range]: a range
    that lies in the list, with its exact height, within the usable
    height unless it is empty. *)
Definition stepped (m : Z) (s : Session) (r : _ItemRange) : Prop :=
  0 <= first r /\ first r <= last r + 1 /\
  last r < Z.of_nat (List.length (items s)) /\
  range_height r = occupied_rows (items s) m (first r) (last r) /\
  (last r = first r - 1 \/ range_height r <= usable_height s).

(** A range that is there and not empty, as [if visible_range:] tests
    it. *)
Definition shown (s : Session) : Prop :=
  exists r, visible_range s = Some r /\ first r <= last r.

(** Four items, the two in the middle five lines long. *)
Definition five_lines : string :=
  String.concat LF ["1"; "2"; "3"; "4"; "5"].

Definition tall_items : list PyVal :=
  [PyStr "a"; PyStr five_lines; PyStr five_lines; PyStr "d"].

(** What the loop keeps when the list of items is empty. *)
Definition empty_session (s : Session) : Prop :=
  items s = [] /\ visible_range s = None /\
  current_position s = 0 /\ scroll_max s = 0.

(** The three items of the end-to-end scenario, and the geometry in
    which they all show: at least three usable rows under the header,
    and, when long lines are not truncated, no header line wider than
    the terminal. *)
Definition abc : list PyVal := [PyStr "A"; PyStr "B"; PyStr "C"].

Definition header_lines_of (header : string) : list string :=
  py_split_lines header ++ [instructions].

Definition roomy (header : string) (truncate_lines : bool) (w h : Z) : Prop :=
  Z.of_nat (List.length (header_lines_of header)) + 6 <= h /\
  (truncate_lines = false ->
   1 <= w /\ Forall (fun line => py_strlen line <= w) (header_lines_of header)).

(** A session of the scenario between two passes: not yet measured, or
    measured with the whole list in the window. *)
Definition ready (w h u cp : Z) (its : list ChecklistItem) (s : Session) : Prop :=
  (vars s = (0, 0, 0, None, 0, 0, its) /\ cp = 0) \/
  vars s = (w, h, u, Some (mkItemRange 0 2 3), 0, cp, its).

(** The items of the scenario after SPACE on "C". *)
Definition abc_C_checked : list ChecklistItem :=
  replace_nth 2 (toggle (new_ChecklistItem "C" false (PyInt 2)) None) (prepared abc).

(** The raw input of the first [k] keys of DOWN, DOWN, SPACE. *)
Definition keys_before (p : Platform) (k : nat) : list ascii :=
  List.concat (firstn k [raw_DOWN p; raw_DOWN p; SPACE_BYTE]).

(** The session [tui_checklist] enters its loop with in the scenario. *)
Definition scenario_start (input : list ascii) : Session :=
  add_stdout enter_app_mode (initial_session (prepared abc) input).

(** The window and the cursor of a session. *)
Definition window (s : Session) : option _ItemRange * Z :=
  (visible_range s, current_position s).

(** ** Vocabulary of the further properties *)

(** The names the key dispatch tests for that the Unix decoder never
    returns. *)
Definition unbound_on_unix (name : string) : bool :=
  String.eqb name "PGUP" || String.eqb name "PGDN" || String.eqb name "ESCAPE".

(** The key a value of the Unix tables stands for. *)
Definition table_key (v : option string) : Key :=
  match v with
  | Some name => KStr name
  | None => KNone
  end.

(** The number of line feeds in a string. *)
Fixpoint line_feeds (s : string) : Z :=
  match s with
  | EmptyString => 0
  | String c rest => (if Ascii.eqb c "010"%char then 1 else 0) + line_feeds rest
  end.

(** The tag the second comprehension of [tui_checklist] gives the item
    at index [k]. *)
Definition tag_at (k : nat) (t : PyVal) : PyVal :=
  match t with
  | PyNone => PyInt (Z.of_nat k)
  | _ => t
  end.

(** ** The bytes [_Term] writes

    The constants of [_Term] and, for each of its methods, the text the
    call hands to [sys.stdout.write]. *)

Definition CSI (parameters : string) : string :=
  String ASCII_ESC (String.append "[" parameters).

Definition ALT_SCREEN_ON : string := CSI "?1049h".
Definition ALT_SCREEN_OFF : string := CSI "?1049l".
Definition CLEAR_SCREEN : string := CSI "2J".
Definition CLEAR_FROM_CURSOR : string := CSI "J".
Definition CLEAR_LINE : string := CSI "2K".
Definition HOME_CURSOR : string := CSI "H".
Definition HIDE_CURSOR : string := CSI "?25l".
Definition SHOW_CURSOR : string := CSI "?25h".
Definition RESET : string := CSI "0m".
Definition BOLD : string := CSI "1m".

(** The value of a member of [Color]. *)
Definition Color_value (color : Color) : string :=
  match color with
  | DEFAULT => ""
  | BLACK => CSI "30m"
  | RED => CSI "31m"
  | GREEN => CSI "32m"
  | YELLOW => CSI "33m"
  | BLUE => CSI "34m"
  | PURPLE => CSI "35m"
  | CYAN => CSI "36m"
  | WHITE => CSI "37m"
  end.

Definition is_DEFAULT (color : Color) : bool :=
  match color with
  | DEFAULT => true
  | _ => false
  end.

Definition move_to_bytes (row column : Z) : string :=
  CSI (String.concat "" [py_str_of_int (row + 1); ";"; py_str_of_int (column + 1); "H"]).

Definition write_bytes (text : string) (bold : bool) (color : Color) : string :=
  if negb bold && is_DEFAULT color then text
  else String.concat "" [if bold then BOLD else ""; Color_value color; text; RESET].

Definition bytes_of_call (c : TermCall) : string :=
  match c with
  | enter_app_mode => String.concat "" [ALT_SCREEN_ON; HIDE_CURSOR; HOME_CURSOR]
  | exit_app_mode => String.append SHOW_CURSOR ALT_SCREEN_OFF
  | move_home => HOME_CURSOR
  | move_to row column => move_to_bytes row column
  | write text bold color => write_bytes text bold color
  | write_line text bold color => write_bytes (String.append text LF) bold color
  | overwrite_line text newline bold color =>
      String.concat ""
        [CLEAR_LINE; write_bytes text bold color; if newline then LF else ""]
  | clear_lines_after row =>
      String.append
        match row with
        | Some r => move_to_bytes (r + 1) 0
        | None => ""
        end
        (write_bytes CLEAR_FROM_CURSOR false DEFAULT)
  | flush => ""
  end.

(** Everything a trace of calls has written. *)
Definition screen_bytes (trace : list TermCall) : string :=
  String.concat "" (map bytes_of_call trace).

(** ** What a step of the session can do *)

(** The session a step ends in, however it ends. *)
Definition final_state {A : Type} (r : Res A) : Session :=
  match r with
  | Ok _ s => s
  | Raise _ s => s
  | Wait s => s
  end.

(** A terminal call other than the two that switch the screen mode. *)
Definition keeps_mode (c : TermCall) : Prop :=
  c <> enter_app_mode /\ c <> exit_app_mode.

(** Two items that differ at most in their [checked] flag. *)
Definition same_item (a b : ChecklistItem) : Prop :=
  label a = label b /\ tag a = tag b /\ label_lines a = label_lines b.

(** [s'] comes after [s]: terminal calls that keep the screen mode have
    been appended, input has been consumed from the front, and the items
    are the same up to their [checked] flags. *)
Definition evolves (s s' : Session) : Prop :=
  (exists out, stdout s' = stdout s ++ out /\ Forall keeps_mode out) /\
  (exists used, stdin s = used ++ stdin s') /\
  Forall2 same_item (items s) (items s').

(** The cached geometry of [s'] is that of [s], and the items have the
    heights they had. *)
Definition same_geometry (s s' : Session) : Prop :=
  terminal_width s' = terminal_width s /\
  terminal_height s' = terminal_height s /\
  usable_height s' = usable_height s /\
  scroll_max s' = scroll_max s /\
  map height (items s') = map height (items s).

(** A computation relates every session to the one it ends in. *)
Definition steps (R : Session -> Session -> Prop) {A : Type} (c : M A) : Prop :=
  forall s, R s (final_state (c s)).

(** The part of the loop body after the measurement. *)
Definition after_measure (platform : Platform) (item_margin : Z)
  (truncate_lines : bool) (header_lines : list string) : M Ctl :=
  r <- gets visible_range ;;
  cur <- gets current_position ;;
  t <- lift (truthy r) ;;
  outside <-
    (if negb t then ret true
     else r <- the_value r ;; ret ((cur <? first r) || (last r <? cur))) ;;
  (if (outside : bool) then scroll_to platform item_margin cur else ret tt) ;;
  r <- gets visible_range ;;
  t <- lift (truthy r) ;;
  if negb t then
    render_viewport_too_small_error platform ;;
    ret Continue
  else
    render item_margin truncate_lines header_lines ;;
    key <- read_key platform ;;
    apply_key platform item_margin key.

(** [xs] with some of its elements left out. *)
Inductive subsequence {A : Type} : list A -> list A -> Prop :=
| subsequence_nil : subsequence [] []
| subsequence_skip x xs ys : subsequence xs ys -> subsequence xs (x :: ys)
| subsequence_take x xs ys : subsequence xs ys -> subsequence (x :: xs) (x :: ys).

(** The raw items that carry no tag of their own. *)
Definition untagged (obj : PyVal) : Prop :=
  exists l c, recognized obj l c PyNone.

(** A terminal in which a call can draw its first screen: there are
    items, each of them fits under the header, and, with truncation off,
    the width check of the measurement passes (it compares the width
    with the length of the header lines and with the [len] of the
    items). *)
Definition first_screen_fits (its : list ChecklistItem) (hl : list string)
  (tr : bool) (w h : Z) : Prop :=
  its <> [] /\
  Forall (fun item => height item <= h - Z.of_nat (List.length hl) - 3) its /\
  (tr = false ->
   Forall (fun line => py_strlen line <= w) hl /\
   Forall (fun item => item_len item <= w) its).

(** While the cached terminal size stands, the usable height is what the
    measurement made of it and [scroll_max] is where the backward scan
    from the last item ends. *)
Definition measured (m : Z) (hl : list string) (s : Session) : Prop :=
  (terminal_width s, terminal_height s) <> (0, 0) ->
  usable_height s = terminal_height s - Z.of_nat (List.length hl) - 3 /\
  exists rmax,
    visible_range_of (items s) m (usable_height s)
      (Z.of_nat (List.length (items s)) - 1) true = inr (Some rmax) /\
    scroll_max s = first rmax.

(** The line feeds written to the terminal so far. *)
Definition fed (s : Session) : Z := line_feeds (screen_bytes (stdout s)).

(** No line of an item holds a line feed, as [label.split] leaves
    them. *)
Definition lines_ok (its : list ChecklistItem) : Prop :=
  Forall (fun item => Forall (fun line => line_feeds line = 0) (label_lines item)) its.

(** The rows [render_item] draws of an item of [h] lines. *)
Definition rows_drawn (h : Z) (max_lines : option Z) : Z :=
  match max_lines with
  | None => h
  | Some n => Z.max 1 (Z.min h (n - 1))
  end.

(** A name one of the decoders can return. *)
Definition decodable (decoder : list ascii -> option (Decoded * list ascii))
  (name : string) : Prop :=
  exists input rest, decoder input = Some (Pressed (KStr name), rest).

(** Where the measurement anchors the window: at the first item of the
    window there was, or at the cursor. *)
Definition anchor (s : Session) : Z :=
  match visible_range s with
  | Some o => first o
  | None => current_position s
  end.

(** A range that the item after its last one cannot join: there is none,
    or it would not fit. *)
Definition full_range (m : Z) (s : Session) (r : _ItemRange) : Prop :=
  last r = Z.of_nat (List.length (items s)) - 1 \/
  usable_height s < occupied_rows (items s) m (first r) (last r + 1).

(** [vr] is full if it is a range, empty or not, as long as the cached
    terminal size of [s] stands. *)
Definition full_or_reset (m : Z) (s : Session) (vr : option _ItemRange) : Prop :=
  (terminal_width s, terminal_height s) <> (0, 0) ->
  forall r, vr = Some r -> full_range m s r.

(** The stored window is full. *)
Definition window_full (m : Z) (s : Session) : Prop :=
  full_or_reset m s (visible_range s).

(** The item [j] is fully visible in a window that starts at [first]:
    the items [first..j], with their margins, fit the usable height. *)
Definition fully_visible (its : list ChecklistItem) (m usable first j : Z) : bool :=
  occupied_rows its m first j <=? usable.

(** The number of items of the list, from [first] on, that are fully
    visible. *)
Definition fully_visible_count (its : list ChecklistItem) (m usable first : Z) : Z :=
  Z.of_nat (List.length (filter (fully_visible its m usable first)
                           (py_range first (Z.of_nat (List.length its))))).

(** * Properties *)

(** ** The key decoders *)

(** C1. The Unix decoder names the page keys PAGE_UP and PAGE_DOWN, the
    key dispatch only knows PGUP and PGDN: decoded on Unix, a page key
    leaves every session unchanged, and with ten one-line items and
    three usable rows the window stays at 0..2, where the same key
    pressed on Windows moves it to 3..5. *)
Theorem unix_page_keys_do_nothing :
  unix_get_key (raw_PAGE_UP Unix) = Some (Pressed (KStr "PAGE_UP"), []) /\
  unix_get_key (raw_PAGE_DOWN Unix) = Some (Pressed (KStr "PAGE_DOWN"), []) /\
  (forall m s,
      apply_key Unix m (KStr "PAGE_UP") s = Ok Continue s /\
      apply_key Unix m (KStr "PAGE_DOWN") s = Ok Continue s) /\
  option_map window
    (after_passes Unix 0 false short_header [(120, 8)]
       (initial_session (prepared (one_line_items 10)) (raw_PAGE_DOWN Unix)))
  = Some (Some (mkItemRange 0 2 3), 0) /\
  option_map window
    (after_passes Win32 0 false short_header [(120, 8)]
       (initial_session (prepared (one_line_items 10)) (raw_PAGE_DOWN Win32)))
  = Some (Some (mkItemRange 3 5 3), 3).
Proof.
  repeat split; vm_compute; reflexivity.
Qed.

(** C3. On Unix the escape character never decodes to ESCAPE: the
    decoder waits for a second character, and when that one is neither
    [[] nor [O] it returns None, both characters consumed.  With three
    items on screen, Escape then [x] leaves the Unix session running;
    the Escape byte alone ends the Windows session with the cancellation
    signal. *)
Theorem unix_lone_escape_is_unknown :
  (forall rest, unix_get_key (ASCII_ESC :: "x"%char :: rest) = Some (Pressed KNone, rest)) /\
  unix_get_key [ASCII_ESC] = None /\
  (forall rest, win_get_key (ASCII_ESC :: rest) = Some (Pressed (KStr "ESCAPE"), rest)) /\
  fst (tui_checklist Unix [PyStr "A"; PyStr "B"; PyStr "C"] (Some "h") 0 false
         [(120, 24); (120, 24)] (ESC_BYTE ++ ["x"%char]))
  = Running /\
  fst (tui_checklist Win32 [PyStr "A"; PyStr "B"; PyStr "C"] (Some "h") 0 false
         [(120, 24); (120, 24)] ESC_BYTE)
  = Returned None.
Proof.
  repeat split; try (intros; reflexivity); vm_compute; reflexivity.
Qed.

(** ** The item model *)

Lemma recognized_makes obj l c t :
  recognized obj l c t -> _make_checklist_item obj = inr (new_ChecklistItem l c t).
Proof.
  intros H; inversion H; subst; try reflexivity.
  destruct t; try reflexivity.
  exfalso; eapply H0; reflexivity.
Qed.

Lemma makes_recognized obj item :
  _make_checklist_item obj = inr item ->
  exists l c t, recognized obj l c t.
Proof.
  destruct obj as [ | | | l | elems | l c t | ]; simpl; try discriminate.
  - intros _; exists l, false, PyNone; constructor.
  - destruct elems as [ | a [ | b [ | c [ | d rest ] ] ] ]; try discriminate;
      destruct a; try discriminate.
    + destruct b; intros _;
        try (eexists _, _, _; apply recognized_label_tag; intros; discriminate).
      eexists _, _, _; apply recognized_label_checked.
    + destruct b; try discriminate.
      intros _; eexists _, _, _; apply recognized_label_checked_tag.
  - intros _; exists l, c, t; constructor.
Qed.

Lemma make_fails_with_TypeError obj e :
  _make_checklist_item obj = inl e -> e = TypeError.
Proof.
  destruct obj as [ | | | l | elems | l c t | ]; simpl; try congruence.
  destruct elems as [ | a [ | b [ | c [ | d rest ] ] ] ]; try congruence;
    destruct a; try congruence; destruct b; congruence.
Qed.

Lemma make_all_fails raw obj :
  In obj raw ->
  (forall item, _make_checklist_item obj <> inr item) ->
  make_all raw = inl TypeError.
Proof.
  induction raw as [ | o raw IH ]; simpl; [ tauto | ].
  intros [ -> | Hin ] Hbad.
  - destruct (_make_checklist_item obj) eqn:E.
    + apply make_fails_with_TypeError in E; congruence.
    + exfalso; eapply Hbad; reflexivity.
  - destruct (_make_checklist_item o) eqn:E.
    + apply make_fails_with_TypeError in E; congruence.
    + rewrite (IH Hin Hbad); reflexivity.
Qed.

(** C7. [_make_checklist_item] returns the triple of each recognized
    shape, raises TypeError (the conversion error) exactly on the
    objects of no recognized shape, and one such object anywhere in the
    list makes [tui_checklist] raise it with no terminal call made. *)
Theorem normalize_recognizes_exactly (obj : PyVal) :
  (forall l c t, recognized obj l c t ->
     _make_checklist_item obj = inr (new_ChecklistItem l c t)) /\
  (_make_checklist_item obj = inl TypeError <->
     ~ exists l c t, recognized obj l c t) /\
  (forall e, _make_checklist_item obj = inl e -> e = TypeError) /\
  ((~ exists l c t, recognized obj l c t) ->
   forall platform raw header m tr sizes input,
     In obj raw ->
     tui_checklist platform raw header m tr sizes input = (Raised TypeError, [])).
Proof.
  split; [ | split; [ | split ] ].
  - intros l c t; apply recognized_makes.
  - split.
    + intros E (l & c & t & H). apply recognized_makes in H. congruence.
    + intros Hnone. destruct (_make_checklist_item obj) eqn:E.
      * apply make_fails_with_TypeError in E; congruence.
      * exfalso; apply Hnone; eapply makes_recognized; eassumption.
  - apply make_fails_with_TypeError.
  - intros Hnone platform raw header m tr sizes input Hin.
    unfold tui_checklist.
    rewrite (make_all_fails raw obj Hin); [ reflexivity | ].
    intros item E; apply Hnone; eapply makes_recognized; eassumption.
Qed.

Lemma normalize_recognizes_exactly_witness :
  _make_checklist_item (PyTuple [PyStr "Buy milk"; PyStr "sku-1"])
  = inr (new_ChecklistItem "Buy milk" false (PyStr "sku-1")) /\
  tui_checklist Unix [PyStr "A"; PyInt 7] (Some "h") 0 false [(120, 24)] []
  = (Raised TypeError, []).
Proof.
  split.
  - apply (proj1 (normalize_recognizes_exactly (PyTuple [PyStr "Buy milk"; PyStr "sku-1"]))).
    apply recognized_label_tag. intros b; discriminate.
  - apply (proj2 (proj2 (proj2 (normalize_recognizes_exactly (PyInt 7))))).
    + intros (l & c & t & H); inversion H.
    + simpl; auto.
Defined.

(** ** The header *)

(** C4. With the header left out the loop is never entered: whatever the
    platform, the margin, the flag, the terminal and the input,
    [header.split] raises AttributeError on None, after the terminal has
    been put in application mode and before anything is drawn. *)
Theorem omitted_header_raises :
  forall platform m tr sizes input,
    tui_checklist platform [PyStr "A"; PyStr "B"; PyStr "C"] None m tr sizes input
    = (Raised AttributeError, [enter_app_mode; exit_app_mode]).
Proof.
  intros; reflexivity.
Qed.

(** ** Windows over the item list *)

Lemma py_range_nil lo hi : hi <= lo -> py_range lo hi = [].
Proof.
  intros H; unfold py_range.
  replace (Z.to_nat (hi - lo)) with O by lia; reflexivity.
Qed.

Lemma py_range_cons lo hi : lo < hi -> py_range lo hi = lo :: py_range (lo + 1) hi.
Proof.
  intros H; unfold py_range.
  replace (Z.to_nat (hi - lo)) with (S (Z.to_nat (hi - (lo + 1)))) by lia.
  simpl; f_equal; [ lia | ].
  rewrite <- seq_shift, map_map.
  apply map_ext; intros k; lia.
Qed.

Lemma py_range_down_nil start : start < 0 -> py_range_down start = [].
Proof.
  intros H; unfold py_range_down.
  replace (Z.to_nat (start + 1)) with O by lia; reflexivity.
Qed.

Lemma py_range_down_cons start :
  0 <= start -> py_range_down start = start :: py_range_down (start - 1).
Proof.
  intros H; unfold py_range_down.
  replace (Z.to_nat (start + 1)) with (S (Z.to_nat (start - 1 + 1))) by lia.
  simpl; f_equal; [ lia | ].
  rewrite <- seq_shift, map_map.
  apply map_ext; intros k; lia.
Qed.

Lemma py_getitem_nth_error {A : Type} (l : list A) (i : Z) :
  0 <= i -> py_getitem l i = nth_error l (Z.to_nat i).
Proof.
  intros H; unfold py_getitem.
  destruct (i <? 0) eqn:E; [ lia | ].
  destruct (0 <=? i) eqn:E0; [ | lia ].
  destruct (i <? Z.of_nat (List.length l)) eqn:E1; simpl; [ reflexivity | ].
  symmetry; apply nth_error_None; lia.
Qed.

Lemma py_getitem_Some {A : Type} (l : list A) (i : Z) :
  0 <= i < Z.of_nat (List.length l) -> exists a, py_getitem l i = Some a.
Proof.
  intros H; rewrite py_getitem_nth_error by lia.
  destruct (nth_error l (Z.to_nat i)) eqn:E; [ eauto | ].
  apply nth_error_None in E; lia.
Qed.

Lemma py_getitem_bound {A : Type} (l : list A) (i : Z) (a : A) :
  0 <= i -> py_getitem l i = Some a -> i < Z.of_nat (List.length l).
Proof.
  intros H E; rewrite py_getitem_nth_error in E by lia.
  assert (Z.to_nat i < List.length l)%nat by (apply nth_error_Some; congruence).
  lia.
Qed.

Lemma sum_heights_app xs ys : sum_heights (xs ++ ys) = sum_heights xs + sum_heights ys.
Proof.
  unfold sum_heights; induction xs as [ | x xs IH ]; simpl; [ reflexivity | ].
  rewrite IH; lia.
Qed.

Lemma firstn_snoc {A : Type} (xs : list A) (k : nat) (x : A) :
  nth_error xs k = Some x -> firstn (S k) xs = firstn k xs ++ [x].
Proof.
  revert xs; induction k as [ | k IH ]; intros [ | y xs ]; simpl; try discriminate.
  - intros [= ->]; reflexivity.
  - intros E; f_equal; apply IH; exact E.
Qed.

Lemma nth_error_skip {A : Type} (xs : list A) (f k : nat) :
  nth_error (skipn f xs) k = nth_error xs (f + k).
Proof.
  revert xs; induction f as [ | f IH ]; intros xs; [ reflexivity | ].
  destruct xs as [ | y xs ]; simpl; [ destruct k; reflexivity | apply IH ].
Qed.

Lemma skipn_cons_nth {A : Type} (xs : list A) (f : nat) (x : A) :
  nth_error xs f = Some x -> skipn f xs = x :: skipn (S f) xs.
Proof.
  revert xs; induction f as [ | f IH ]; intros [ | y xs ]; simpl; try discriminate.
  - intros [= ->]; reflexivity.
  - apply IH.
Qed.

Section Windows.

Variable its : list ChecklistItem.
Variable m : Z.

Let n := Z.of_nat (List.length its).

Lemma occupied_rows_empty f : occupied_rows its m f (f - 1) = - m.
Proof.
  unfold occupied_rows, members.
  replace (Z.to_nat (f - 1 - f + 1)) with O by lia.
  simpl; unfold sum_heights; simpl; lia.
Qed.

Lemma occupied_rows_snoc f l item :
  0 <= f <= l + 1 -> py_getitem its (l + 1) = Some item ->
  occupied_rows its m f (l + 1) = occupied_rows its m f l + m + height item.
Proof.
  intros Hf E; unfold occupied_rows, members.
  rewrite py_getitem_nth_error in E by lia.
  replace (Z.to_nat (l + 1 - f + 1)) with (S (Z.to_nat (l - f + 1))) by lia.
  rewrite (firstn_snoc _ _ item).
  - rewrite sum_heights_app; unfold sum_heights at 2; simpl; lia.
  - rewrite nth_error_skip, <- E; f_equal; lia.
Qed.

Lemma occupied_rows_cons f l item :
  1 <= f <= l + 1 -> py_getitem its (f - 1) = Some item ->
  occupied_rows its m (f - 1) l = occupied_rows its m f l + m + height item.
Proof.
  intros Hf E; unfold occupied_rows, members.
  rewrite py_getitem_nth_error in E by lia.
  rewrite (skipn_cons_nth _ _ item E).
  replace (Z.to_nat (l - (f - 1) + 1)) with (S (Z.to_nat (l - f + 1))) by lia.
  replace (S (Z.to_nat (f - 1))) with (Z.to_nat f) by lia.
  simpl; unfold sum_heights; simpl; lia.
Qed.

Lemma occupied_rows_single p item :
  0 <= p -> py_getitem its p = Some item -> occupied_rows its m p p = height item.
Proof.
  intros Hp E.
  pose proof (occupied_rows_snoc p (p - 1) item) as Hs.
  replace (p - 1 + 1) with p in Hs by lia.
  rewrite Hs; [ rewrite occupied_rows_empty; lia | lia | exact E ].
Qed.

Variable usable : Z.

(** The forward loop from [i] on, entered with the height of [f..i-1]:
    it stops at some [j], the last index taken ([i - 1] when none is). *)
Lemma fit_loop_forward f :
  forall (k : nat) (i vl : Z),
    0 <= f <= i -> i + Z.of_nat k = n ->
    exists j,
      i - 1 <= j < n /\
      fit_loop its m usable (py_range i n) vl (occupied_rows its m f (i - 1))
      = inr (if j =? i - 1 then vl else j, occupied_rows its m f j) /\
      (j = n - 1 \/ usable < occupied_rows its m f (j + 1)) /\
      (forall j', i <= j' <= j -> occupied_rows its m f j' <= usable).
Proof.
  induction k as [ | k IH ]; intros i vl Hf Hk.
  - exists (i - 1). rewrite py_range_nil by lia. rewrite Z.eqb_refl.
    repeat split; lia.
  - rewrite py_range_cons by lia.
    destruct (py_getitem_Some its i) as [item E]; [ fold n; lia | ].
    simpl. rewrite E.
    assert (Hrows : occupied_rows its m f (i - 1) + m + height item
                    = occupied_rows its m f i).
    { pose proof (occupied_rows_snoc f (i - 1) item) as Hs.
      replace (i - 1 + 1) with i in Hs by lia.
      rewrite Hs; [ reflexivity | lia | exact E ]. }
    rewrite Hrows.
    destruct (occupied_rows its m f i >? usable) eqn:Hgt.
    + exists (i - 1). rewrite Z.eqb_refl. repeat split; try lia.
      right. replace (i - 1 + 1) with i by lia. lia.
    + destruct (IH (i + 1) i) as (j & Hj & Hrun & Hstop & Hfit); try lia.
      replace (i + 1 - 1) with i in * by lia.
      exists j. rewrite Hrun.
      destruct (j =? i) eqn:Eji; destruct (j =? i - 1) eqn:Eji'; try lia.
      * assert (j = i) by lia; subst j. repeat split; try lia.
        intros j' Hj'; replace j' with i by lia; lia.
      * repeat split; try lia.
        intros j' Hj'; destruct (Z.eq_dec j' i) as [-> | Hne];
          [ lia | apply Hfit; lia ].
Qed.

(** The backward loop from [i] down, entered with the height of
    [i+1..l]. *)
Lemma fit_loop_backward l :
  forall (k : nat) (i vl : Z),
    i < n -> i <= l -> i + 1 = Z.of_nat k ->
    exists j,
      0 <= j <= i + 1 /\
      fit_loop its m usable (py_range_down i) vl (occupied_rows its m (i + 1) l)
      = inr (if j =? i + 1 then vl else j, occupied_rows its m j l) /\
      (j = 0 \/ usable < occupied_rows its m (j - 1) l) /\
      (forall j', j <= j' <= i -> occupied_rows its m j' l <= usable).
Proof.
  induction k as [ | k IH ]; intros i vl Hn Hl Hk.
  - exists (i + 1). rewrite py_range_down_nil by lia. rewrite Z.eqb_refl.
    repeat split; lia.
  - rewrite py_range_down_cons by lia.
    destruct (py_getitem_Some its i) as [item E]; [ fold n; lia | ].
    simpl. rewrite E.
    assert (Hrows : occupied_rows its m (i + 1) l + m + height item
                    = occupied_rows its m i l).
    { pose proof (occupied_rows_cons (i + 1) l item) as Hs.
      replace (i + 1 - 1) with i in Hs by lia.
      rewrite Hs; [ reflexivity | lia | exact E ]. }
    rewrite Hrows.
    destruct (occupied_rows its m i l >? usable) eqn:Hgt.
    + exists (i + 1). rewrite Z.eqb_refl. repeat split; try lia.
      right. replace (i + 1 - 1) with i by lia. lia.
    + destruct (IH (i - 1) i) as (j & Hj & Hrun & Hstop & Hfit); try lia.
      replace (i - 1 + 1) with i in * by lia.
      exists j. rewrite Hrun.
      destruct (j =? i) eqn:Eji; destruct (j =? i + 1) eqn:Eji'; try lia.
      * assert (j = i) by lia; subst j. repeat split; try lia.
        intros j' Hj'; replace j' with i by lia; lia.
      * repeat split; try lia.
        intros j' Hj'; destruct (Z.eq_dec j' i) as [-> | Hne];
          [ lia | apply Hfit; lia ].
Qed.

End Windows.

Lemma visible_range_of_forward its m usable p item :
  0 <= p -> py_getitem its p = Some item ->
  exists j,
    p - 1 <= j < Z.of_nat (List.length its) /\
    visible_range_of its m usable p false
    = inr (if j =? p - 1 then None
           else Some (mkItemRange p j (occupied_rows its m p j))) /\
    (j = Z.of_nat (List.length its) - 1 \/ usable < occupied_rows its m p (j + 1)) /\
    (forall j', p <= j' <= j -> occupied_rows its m p j' <= usable).
Proof.
  intros Hp E.
  pose proof (py_getitem_bound its p item Hp E) as Hn.
  destruct (fit_loop_forward its m usable p
              (Z.to_nat (Z.of_nat (List.length its) - p)) p (-1))
    as (j & Hj & Hrun & Hstop & Hfit); try lia.
  exists j; repeat split; try lia; try assumption.
  unfold visible_range_of; simpl.
  rewrite (occupied_rows_empty its m p) in Hrun; rewrite Hrun.
  destruct (j =? p - 1) eqn:Ej; [ reflexivity | ].
  destruct (j =? -1) eqn:Ej'; [ lia | reflexivity ].
Qed.

Lemma visible_range_of_backward its m usable p item :
  0 <= p -> py_getitem its p = Some item ->
  exists j,
    0 <= j <= p + 1 /\
    visible_range_of its m usable p true
    = inr (if j =? p + 1 then None
           else Some (mkItemRange j p (occupied_rows its m j p))) /\
    (j = 0 \/ usable < occupied_rows its m (j - 1) p) /\
    (forall j', j <= j' <= p -> occupied_rows its m j' p <= usable).
Proof.
  intros Hp E.
  pose proof (py_getitem_bound its p item Hp E) as Hn.
  destruct (fit_loop_backward its m usable p (Z.to_nat (p + 1)) p (-1))
    as (j & Hj & Hrun & Hstop & Hfit); try lia.
  exists j; repeat split; try lia; try assumption.
  unfold visible_range_of; simpl.
  pose proof (occupied_rows_empty its m (p + 1)) as He.
  replace (p + 1 - 1) with p in He by lia.
  rewrite He in Hrun; rewrite Hrun.
  destruct (j =? p + 1) eqn:Ej; [ reflexivity | ].
  destruct (j =? -1) eqn:Ej'; [ lia | reflexivity ].
Qed.

Lemma visible_range_of_beyond its m usable p :
  Z.of_nat (List.length its) <= p -> visible_range_of its m usable p false = inr None.
Proof.
  intros H; unfold visible_range_of; simpl.
  rewrite py_range_nil by lia; reflexivity.
Qed.

(** ** Stepping through the session monad *)

Lemma bind_Ok {A B : Type} (c : M A) (k : A -> M B) s b s' :
  bind c k s = Ok b s' -> exists a s1, c s = Ok a s1 /\ k a s1 = Ok b s'.
Proof.
  unfold bind; destruct (c s) as [ a s1 | | ]; try discriminate; eauto.
Qed.

Lemma lift_Ok {A : Type} (r : PyExc + A) s a s' :
  lift r s = Ok a s' -> r = inr a /\ s' = s.
Proof.
  destruct r; simpl; unfold raise, ret; intros [=]; subst; auto.
Qed.

Ltac bind_inv H :=
  let a := fresh "a" in
  let s1 := fresh "s" in
  let E := fresh "E" in
  apply bind_Ok in H; destruct H as (a & s1 & E & H).

Ltac inv_Ok H := injection H as ? ?; subst.

Lemma read_key_vars platform s key s' :
  read_key platform s = Ok key s' -> vars s' = vars s.
Proof.
  unfold read_key.
  destruct (get_key platform (stdin s)) as [ [ [ k | ] rest ] | ]; try discriminate.
  intros [= _ <-]; reflexivity.
Qed.

Lemma render_error_vars platform message s u s' :
  render_error platform message s = Ok u s' -> vars s' = vars s.
Proof.
  unfold render_error, term, modify, bind; simpl.
  destruct (read_key platform _) as [ key s1 | | ] eqn:E; try discriminate.
  apply read_key_vars in E.
  destruct (key_is key "ESCAPE"); [ discriminate | ].
  intros [= _ <-]. rewrite E; reflexivity.
Qed.

Lemma error_unless_vars platform r s u s' :
  error_unless platform r s = Ok u s' -> vars s' = vars s.
Proof.
  unfold error_unless; intros H.
  bind_inv H. apply lift_Ok in E as [_ ->].
  destruct (negb a).
  - eapply render_error_vars; exact H.
  - inv_Ok H; reflexivity.
Qed.

Lemma scroll_to_Ok platform m p s u s' :
  scroll_to platform m p s = Ok u s' ->
  0 <= p <= scroll_max s /\
  exists r,
    visible_range_of (items s) m (usable_height s) p false = inr r /\
    vars s' = vars (set_visible_range r s).
Proof.
  unfold scroll_to, get_visible_range, gets, modify, bind; simpl.
  destruct ((p <? 0) || (scroll_max s <? p)) eqn:Hguard; [ discriminate | ].
  apply orb_false_elim in Hguard as [H0 H1].
  destruct (visible_range_of (items s) m (usable_height s) p false) as [ e | r ];
    simpl; [ discriminate | ].
  intros H. apply error_unless_vars in H.
  split; [ lia | ].
  exists r; split; [ reflexivity | exact H ].
Qed.

Lemma visible_range_of_spec (its : list ChecklistItem) (m usable : Z) :
  forall p to item,
    0 <= p -> py_getitem its p = Some item ->
    (usable < height item -> visible_range_of its m usable p to = inr None) /\
    (height item <= usable ->
     exists r,
       visible_range_of its m usable p to = inr (Some r) /\
       (if to : bool then last r = p else first r = p) /\
       0 <= first r /\ first r <= p <= last r /\
       last r < Z.of_nat (List.length its) /\
       range_height r = occupied_rows its m (first r) (last r) /\
       range_height r <= usable /\
       (if to
        then first r = 0 \/ usable < occupied_rows its m (first r - 1) (last r)
        else last r = Z.of_nat (List.length its) - 1
             \/ usable < occupied_rows its m (first r) (last r + 1))).
Proof.
  intros p to item Hp E.
  pose proof (py_getitem_bound its p item Hp E) as Hn.
  pose proof (occupied_rows_single its m p item Hp E) as Hone.
  destruct to.
  - destruct (visible_range_of_backward its m usable p item Hp E)
      as (j & Hj & Hrun & Hstop & Hfit).
    rewrite Hrun. destruct (j =? p + 1) eqn:Ej.
    + assert (j = p + 1) by lia; subst j.
      replace (p + 1 - 1) with p in Hstop by lia.
      split; [ reflexivity | intros; lia ].
    + pose proof (Hfit p ltac:(lia)) as Hfp.
      pose proof (Hfit j ltac:(lia)) as Hfj.
      split; [ intros; lia | ].
      intros _. eexists; split; [ reflexivity | ]. simpl.
      repeat split; try lia; exact Hstop.
  - destruct (visible_range_of_forward its m usable p item Hp E)
      as (j & Hj & Hrun & Hstop & Hfit).
    rewrite Hrun. destruct (j =? p - 1) eqn:Ej.
    + assert (j = p - 1) by lia; subst j.
      replace (p - 1 + 1) with p in Hstop by lia.
      split; [ reflexivity | intros; lia ].
    + pose proof (Hfit p ltac:(lia)) as Hfp.
      pose proof (Hfit j ltac:(lia)) as Hfj.
      split; [ intros; lia | ].
      intros _. eexists; split; [ reflexivity | ]. simpl.
      repeat split; try lia; exact Hstop.
Qed.

(** C6. The scan from an item [p] of the list returns none exactly when
    that item alone is taller than the usable height; otherwise it
    returns the window anchored at [p] (first = p forward, last = p
    backward) whose height is the rows its members occupy, one margin
    per member after the first, within the usable height, and which no
    further item in the direction of the scan can join.  Hence a
    [scroll_to p] that leaves a range set leaves one holding [p] and no
    taller than the usable height. *)
Theorem scan_returns_the_anchored_window :
  forall (its : list ChecklistItem) (m usable : Z),
    (forall p to item,
        0 <= p -> py_getitem its p = Some item ->
        (visible_range_of its m usable p to = inr None <-> usable < height item) /\
        (height item <= usable ->
         exists r,
           visible_range_of its m usable p to = inr (Some r) /\
           (if to : bool then last r = p else first r = p) /\
           0 <= first r /\ first r <= p <= last r /\
           last r < Z.of_nat (List.length its) /\
           range_height r = occupied_rows its m (first r) (last r) /\
           range_height r <= usable /\
           (if to
            then first r = 0 \/ usable < occupied_rows its m (first r - 1) (last r)
            else last r = Z.of_nat (List.length its) - 1
                 \/ usable < occupied_rows its m (first r) (last r + 1)))) /\
    (forall platform p s s' r,
        items s = its -> usable_height s = usable ->
        scroll_to platform m p s = Ok tt s' ->
        visible_range s' = Some r ->
        first r <= p <= last r /\ range_height r <= usable_height s').
Proof.
  intros its m usable.
  pose proof (visible_range_of_spec its m usable) as Hscan.
  split.
  - intros p to item Hp E.
    destruct (Hscan p to item Hp E) as [Hnone Hsome].
    split; [ | exact Hsome ].
    split; [ | exact Hnone ].
    intros Hres. destruct (Z_lt_le_dec usable (height item)) as [ | Hle ]; [ assumption | ].
    destruct (Hsome Hle) as (r & Hr & _). congruence.
  - intros platform p s s' r <- <- Hrun Hset.
    apply scroll_to_Ok in Hrun as (Hp & r0 & Hscanp & Hvars).
    assert (Hr0 : visible_range s' = r0) by (injection Hvars; auto).
    assert (Hu : usable_height s' = usable_height s) by (injection Hvars; auto).
    rewrite Hset in Hr0; subst r0. rewrite Hu.
    destruct (Z_lt_le_dec p (Z.of_nat (List.length (items s)))) as [Hlt | Hge].
    + destruct (py_getitem_Some (items s) p) as [item E]; [ lia | ].
      destruct (Hscan p false item ltac:(lia) E) as [Hnone Hsome].
      destruct (Z_lt_le_dec (usable_height s) (height item)) as [Htall | Hle].
      * rewrite (Hnone Htall) in Hscanp; discriminate.
      * destruct (Hsome Hle) as (r' & Hr' & Hanchor & H0 & Hin & _ & _ & Hh & _).
        rewrite Hr' in Hscanp. injection Hscanp as <-. lia.
    + rewrite visible_range_of_beyond in Hscanp by lia. discriminate.
Qed.

Lemma scan_returns_the_anchored_window_witness :
  (exists r,
      visible_range_of (prepared (one_line_items 10)) 0 3 7 true = inr (Some r) /\
      last r = 7 /\ range_height r <= 3) /\
  (first (mkItemRange 7 9 3) <= 7 <= last (mkItemRange 7 9 3) /\
   range_height (mkItemRange 7 9 3) <= 3).
Proof.
  split.
  - destruct (proj1 (scan_returns_the_anchored_window (prepared (one_line_items 10)) 0 3)
                7 true (new_ChecklistItem "item" false (PyInt 7)))
      as [_ Hsome]; [ lia | reflexivity | ].
    destruct Hsome as (r & Hr & Hlast & _ & _ & _ & _ & Hh & _);
      [ vm_compute; discriminate | ].
    exists r; auto.
  - apply (proj2 (scan_returns_the_anchored_window (prepared (one_line_items 10)) 0 3)
             Win32 7 ten_items_session
             (set_visible_range (Some (mkItemRange 7 9 3)) ten_items_session));
      reflexivity.
Defined.

(** ** The trimming loops *)

Lemma trim_last_spec its m usable :
  forall (fuel : nat) (vf vl : Z),
    0 <= vf <= vl + 1 -> vl < Z.of_nat (List.length its) ->
    vl - vf + 1 <= Z.of_nat fuel ->
    exists vl',
      trim_last its m usable fuel vf vl (occupied_rows its m vf vl)
      = inr (vl', occupied_rows its m vf vl') /\
      vf - 1 <= vl' <= vl /\
      (occupied_rows its m vf vl' <= usable \/ vl' = vf - 1).
Proof.
  induction fuel as [ | fuel IH ]; intros vf vl Hvf Hvl Hfuel.
  - exists vl. assert (vl = vf - 1) by lia; subst vl.
    simpl. destruct ((vf <=? vf - 1) && _); repeat split; lia.
  - simpl.
    destruct ((vf <=? vl) && (occupied_rows its m vf vl >? usable)) eqn:Hc.
    + apply andb_prop in Hc as [Hle Hgt].
      destruct (py_getitem_Some its vl) as [item E]; [ lia | ].
      rewrite E.
      pose proof (occupied_rows_snoc its m vf (vl - 1) item) as Hs.
      replace (vl - 1 + 1) with vl in Hs by lia.
      rewrite Hs by (try lia; exact E).
      replace (occupied_rows its m vf (vl - 1) + m + height item - (m + height item))
        with (occupied_rows its m vf (vl - 1)) by lia.
      destruct (IH vf (vl - 1)) as (vl' & Hrun & Hb & Hfit); try lia.
      exists vl'; repeat split; try lia; assumption.
    + exists vl. apply andb_false_iff in Hc.
      repeat split; lia.
Qed.

Lemma trim_first_spec its m usable :
  forall (fuel : nat) (vf vl : Z),
    0 <= vf <= vl + 1 -> vl < Z.of_nat (List.length its) ->
    vl - vf + 1 <= Z.of_nat fuel ->
    exists vf',
      trim_first its m usable fuel vf vl (occupied_rows its m vf vl)
      = inr (vf', occupied_rows its m vf' vl) /\
      vf <= vf' <= vl + 1 /\
      (occupied_rows its m vf' vl <= usable \/ vf' = vl + 1).
Proof.
  induction fuel as [ | fuel IH ]; intros vf vl Hvf Hvl Hfuel.
  - exists vf. assert (vl = vf - 1) by lia; subst vl.
    simpl. destruct ((vf <=? vf - 1) && _); repeat split; lia.
  - simpl.
    destruct ((vf <=? vl) && (occupied_rows its m vf vl >? usable)) eqn:Hc.
    + apply andb_prop in Hc as [Hle Hgt].
      destruct (py_getitem_Some its vf) as [item E]; [ lia | ].
      rewrite E.
      pose proof (occupied_rows_cons its m (vf + 1) vl item) as Hs.
      replace (vf + 1 - 1) with vf in Hs by lia.
      rewrite Hs by (try lia; exact E).
      replace (occupied_rows its m (vf + 1) vl + m + height item - (m + height item))
        with (occupied_rows its m (vf + 1) vl) by lia.
      destruct (IH (vf + 1) vl) as (vf' & Hrun & Hb & Hfit); try lia.
      exists vf'; repeat split; try lia; assumption.
    + exists vf. apply andb_false_iff in Hc.
      repeat split; lia.
Qed.

Lemma height_at_least_one its i item :
  heights_ok its -> py_getitem its i = Some item -> 1 <= height item.
Proof.
  intros Hok E. unfold py_getitem in E.
  destruct (_ && _) in E; [ | discriminate ].
  apply nth_error_In in E.
  unfold heights_ok in Hok; rewrite Forall_forall in Hok; auto.
Qed.

Lemma occupied_rows_positive its m :
  heights_ok its -> 0 <= m ->
  forall (k : nat) (f : Z),
    0 <= f -> f + Z.of_nat k < Z.of_nat (List.length its) ->
    1 <= occupied_rows its m f (f + Z.of_nat k).
Proof.
  intros Hok Hm; induction k as [ | k IH ]; intros f Hf Hn.
  - replace (f + Z.of_nat 0) with f by lia.
    destruct (py_getitem_Some its f) as [item E]; [ lia | ].
    rewrite (occupied_rows_single its m f item Hf E).
    eapply height_at_least_one; eassumption.
  - destruct (py_getitem_Some its (f + Z.of_nat (S k))) as [item E]; [ lia | ].
    pose proof (occupied_rows_snoc its m f (f + Z.of_nat k) item) as Hs.
    replace (f + Z.of_nat k + 1) with (f + Z.of_nat (S k)) in Hs by lia.
    rewrite Hs by (try lia; exact E).
    pose proof (height_at_least_one its _ item Hok E).
    specialize (IH f Hf ltac:(lia)). lia.
Qed.

Lemma occupied_rows_at_least_one its m f l :
  heights_ok its -> 0 <= m -> 0 <= f <= l -> l < Z.of_nat (List.length its) ->
  1 <= occupied_rows its m f l.
Proof.
  intros Hok Hm Hf Hl.
  replace l with (f + Z.of_nat (Z.to_nat (l - f))) by lia.
  apply occupied_rows_positive; auto; lia.
Qed.

Lemma members_length its f l :
  0 <= f -> f <= l + 1 -> l < Z.of_nat (List.length its) ->
  Z.of_nat (List.length (members its f l)) = l - f + 1.
Proof.
  intros Hf Hl Hn; unfold members.
  rewrite length_firstn, length_skipn. lia.
Qed.

Lemma occupied_rows_ext its its' m f l :
  map height its = map height its' ->
  occupied_rows its m f l = occupied_rows its' m f l.
Proof.
  intros E; unfold occupied_rows, members, sum_heights.
  rewrite <- !firstn_map, <- !skipn_map, E; reflexivity.
Qed.

Lemma replace_nth_map {A B : Type} (f : A -> B) (l : list A) k x y :
  nth_error l k = Some y -> f x = f y ->
  map f (replace_nth k x l) = map f l.
Proof.
  revert k; induction l as [ | z l IH ]; intros [ | k ]; simpl; try discriminate.
  - intros [= ->] ->; reflexivity.
  - intros E Hf; f_equal; apply IH; assumption.
Qed.

(** ** The closures keep the invariant *)

Lemma truthy_true r :
  truthy r = inr true -> exists r0, r = Some r0 /\ first r0 <= last r0.
Proof.
  destruct r as [ r0 | ]; simpl; [ | discriminate ].
  unfold py_len, range_len. destruct (_ <? 0) eqn:E; [ discriminate | ].
  destruct (_ =? 0) eqn:E0; [ discriminate | ].
  intros _; exists r0; split; [ reflexivity | lia ].
Qed.

(** Rewrite the session variables of one session into those of another
    that has the same. *)
Ltac vars_rw H :=
  let E1 := fresh "Etw" in
  let E2 := fresh "Eth" in
  let E3 := fresh "Eu" in
  let E4 := fresh "Evr" in
  let E5 := fresh "Esm" in
  let E6 := fresh "Ecp" in
  let E7 := fresh "Eit" in
  unfold vars in H; simpl in H; injection H as E1 E2 E3 E4 E5 E6 E7;
  try rewrite E1 in *; try rewrite E2 in *; try rewrite E3 in *;
  try rewrite E4 in *; try rewrite E5 in *; try rewrite E6 in *;
  try rewrite E7 in *.

Lemma window_ok_vars m s s' : vars s' = vars s -> window_ok m s -> window_ok m s'.
Proof.
  unfold window_ok, range_ok. intros H; vars_rw H; auto.
Qed.

Lemma session_ok_vars m s s' : vars s' = vars s -> session_ok m s -> session_ok m s'.
Proof.
  unfold session_ok, window_ok, range_ok. intros H; vars_rw H; auto.
Qed.

Lemma shown_vars s s' : vars s' = vars s -> shown s -> shown s'.
Proof.
  unfold shown. intros H; vars_rw H; auto.
Qed.

Lemma vars_set_visible_range r s s' :
  vars s' = vars s -> vars (set_visible_range r s') = vars (set_visible_range r s).
Proof.
  intros H; vars_rw H. unfold vars; simpl. congruence.
Qed.

Lemma scroll_to_ok platform m p s u s' :
  scroll_to platform m p s = Ok u s' ->
  0 <= p <= scroll_max s /\
  exists r,
    vars s' = vars (set_visible_range r s) /\
    match r with
    | Some r =>
        first r = p /\ first r <= last r /\
        last r < Z.of_nat (List.length (items s)) /\
        range_height r = occupied_rows (items s) m (first r) (last r) /\
        range_height r <= usable_height s
    | None => True
    end.
Proof.
  intros H. apply scroll_to_Ok in H as (Hp & r & Hscan & Hvars).
  split; [ exact Hp | ]. exists r; split; [ exact Hvars | ].
  destruct r as [ r | ]; [ | exact I ].
  destruct (Z_lt_le_dec p (Z.of_nat (List.length (items s)))) as [Hlt | Hge].
  - destruct (py_getitem_Some (items s) p) as [item E]; [ lia | ].
    destruct (visible_range_of_spec (items s) m (usable_height s)
                p false item ltac:(lia) E) as [Hnone Hsome].
    destruct (Z_lt_le_dec (usable_height s) (height item)) as [Htall | Hle].
    + apply Hnone in Htall. congruence.
    + destruct (Hsome Hle) as (r' & Hr' & Hanchor & H0 & Hin & Hl & Hh & Hu & _).
      rewrite Hr' in Hscan. injection Hscan as <-. repeat split; auto; lia.
  - rewrite visible_range_of_beyond in Hscan by lia. discriminate.
Qed.

Ltac mred H :=
  cbv beta delta [bind gets modify ret lift getitem raise term the_visible_range
                    the_value get_visible_range py_mod] in H;
  cbn [terminal_width terminal_height usable_height visible_range scroll_max
       current_position items stdin stdout set_terminal_size set_usable_height
       set_visible_range set_scroll_max set_current_position set_items set_stdin
       add_stdout negb] in H.

Lemma too_small_vars platform s u s' :
  render_viewport_too_small_error platform s = Ok u s' -> vars s' = vars s.
Proof. apply render_error_vars. Qed.

Lemma scroll_up_ok platform m s u s' :
  window_ok m s -> shown s ->
  scroll_up platform m s = Ok u s' ->
  exists r', vars s' = vars (set_visible_range r' s) /\
             match r' with Some r => stepped m s r | None => True end.
Proof.
  intros [Hh Hr] (r & Hvr & Hne) H.
  destruct (Hr r Hvr) as (H0 & _ & Hn & Hexact & _ & Hfit).
  unfold scroll_up in H. mred H. rewrite Hvr in H.
  destruct (first r =? 0) eqn:Ef.
  - apply scroll_to_ok in H as (Hp & r' & Hvars & Hr').
    exists r'; split; [ exact Hvars | ].
    destruct r' as [ r' | ]; [ | exact I ].
    destruct Hr' as (Hf & Hl & Hlen & Hex & Hu).
    unfold stepped; repeat split; try lia; auto.
  - destruct (py_getitem (items s) (first r - 1)) as [ item | ] eqn:E; [ | discriminate ].
    destruct (trim_last_spec (items s) m (usable_height s)
                (Z.to_nat (last r - (first r - 1) + 1)) (first r - 1) (last r))
      as (vl' & Hrun & Hb & Hfit'); try lia.
    pose proof (occupied_rows_cons (items s) m (first r) (last r) item) as Hc.
    rewrite Hc in Hrun by (try lia; assumption).
    rewrite <- Hexact in Hrun.
    rewrite Hrun in H. mred H.
    set (r' := mkItemRange (first r - 1) vl' (occupied_rows (items s) m (first r - 1) vl')) in *.
    assert (Hstep : stepped m s r').
    { unfold stepped; subst r'; simpl. repeat split; try lia. }
    exists (Some r'); split; [ | exact Hstep ].
    destruct (occupied_rows (items s) m (first r - 1) vl' >? usable_height s).
    + destruct (render_viewport_too_small_error platform (set_visible_range None s))
        as [ [] s1 | | ] eqn:E1; try discriminate.
      apply too_small_vars in E1.
      apply error_unless_vars in H. rewrite H.
      rewrite (vars_set_visible_range _ _ _ E1). reflexivity.
    + apply error_unless_vars in H. exact H.
Qed.

Lemma scroll_down_ok platform m s u s' :
  window_ok m s -> shown s ->
  scroll_down platform m s = Ok u s' ->
  exists r', vars s' = vars (set_visible_range r' s) /\
             match r' with Some r => stepped m s r | None => True end.
Proof.
  intros [Hh Hr] (r & Hvr & Hne) H.
  destruct (Hr r Hvr) as (H0 & _ & Hn & Hexact & _ & Hfit).
  unfold scroll_down in H. mred H. rewrite Hvr in H.
  destruct (first r =? scroll_max s) eqn:Ef.
  - apply scroll_to_ok in H as (Hp & r' & Hvars & Hr').
    exists r'; split; [ exact Hvars | ].
    destruct r' as [ r' | ]; [ | exact I ].
    destruct Hr' as (Hf & Hl & Hlen & Hex & Hu).
    unfold stepped; repeat split; try lia; auto.
  - destruct (py_getitem (items s) (last r + 1)) as [ item | ] eqn:E; [ | discriminate ].
    pose proof (py_getitem_bound (items s) (last r + 1) item ltac:(lia) E) as Hlast.
    destruct (trim_first_spec (items s) m (usable_height s)
                (Z.to_nat (last r + 1 - first r + 1)) (first r) (last r + 1))
      as (vf' & Hrun & Hb & Hfit'); try lia.
    pose proof (occupied_rows_snoc (items s) m (first r) (last r) item) as Hc.
    rewrite Hc in Hrun by (try lia; assumption).
    rewrite <- Hexact in Hrun.
    rewrite Hrun in H. mred H.
    destruct (fit_loop_forward (items s) m (usable_height s) vf'
                (Z.to_nat (Z.of_nat (List.length (items s)) - (last r + 1 + 1)))
                (last r + 1 + 1) (last r + 1))
      as (j & Hj & Hext & Hstop & Hall); try lia.
    replace (last r + 1 + 1 - 1) with (last r + 1) in Hext by lia.
    assert (Hj' : (if j =? last r + 1 then last r + 1 else j) = j).
    { destruct (j =? last r + 1) eqn:Ej; lia. }
    rewrite Hj' in Hext.
    set (r' := mkItemRange vf' j (occupied_rows (items s) m vf' j)) in *.
    assert (Hstep : stepped m s r').
    { unfold stepped; subst r'; simpl. repeat split; try lia.
      destruct (Z.eq_dec j (last r + 1)) as [-> | Hne'].
      - destruct Hfit' as [Hle | ->]; [ right; exact Hle | left; lia ].
      - right. apply Hall. lia. }
    exists (Some r'); split; [ | exact Hstep ].
    destruct (occupied_rows (items s) m vf' (last r + 1) >? usable_height s).
    + destruct (render_viewport_too_small_error platform (set_visible_range None s))
        as [ [] s1 | | ] eqn:E1; try discriminate.
      pose proof (too_small_vars _ _ _ _ E1) as Hv1.
      rewrite Hext in H. mred H.
      apply error_unless_vars in H. rewrite H.
      rewrite (vars_set_visible_range _ _ _ Hv1). reflexivity.
    + rewrite Hext in H. mred H.
      apply error_unless_vars in H. exact H.
Qed.

Lemma visible_range_of_forward_ok its m usable p r :
  0 <= p -> visible_range_of its m usable p false = inr (Some r) ->
  first r = p /\ first r <= last r /\
  last r < Z.of_nat (List.length its) /\
  range_height r = occupied_rows its m (first r) (last r) /\
  range_height r <= usable.
Proof.
  intros Hp Hscan.
  destruct (Z_lt_le_dec p (Z.of_nat (List.length its))) as [Hlt | Hge].
  - destruct (py_getitem_Some its p) as [item E]; [ lia | ].
    destruct (visible_range_of_spec its m usable p false item ltac:(lia) E)
      as [Hnone Hsome].
    destruct (Z_lt_le_dec usable (height item)) as [Htall | Hle].
    + apply Hnone in Htall. congruence.
    + destruct (Hsome Hle) as (r' & Hr' & Hanchor & H0 & Hin & Hl & Hh & Hu & _).
      rewrite Hr' in Hscan. injection Hscan as <-. repeat split; auto; lia.
  - rewrite visible_range_of_beyond in Hscan by lia. discriminate.
Qed.

Lemma forward_range_ok m s p r :
  0 <= p ->
  visible_range_of (items s) m (usable_height s) p false = inr (Some r) ->
  range_ok m s r.
Proof.
  intros Hp Hscan.
  destruct (visible_range_of_forward_ok _ _ _ _ _ Hp Hscan) as (Hf & Hl & Hn & He & Hu).
  unfold range_ok; repeat split; try lia; auto.
  rewrite members_length by lia. reflexivity.
Qed.

Lemma stepped_range_ok m s r :
  0 <= m -> window_ok m s -> shown s -> stepped m s r -> range_ok m s r.
Proof.
  intros Hm [Hh Hr] (r0 & Hvr & Hne) (H0 & Hl & Hn & He & Hfit).
  destruct (Hr r0 Hvr) as (H00 & _ & Hn0 & He0 & _ & Hu0).
  unfold range_ok; repeat split; try lia; auto.
  - rewrite members_length by lia. reflexivity.
  - intros Hsize. specialize (Hu0 Hsize).
    destruct Hfit as [Hempty | Hle]; [ | exact Hle ].
    pose proof (occupied_rows_at_least_one (items s) m (first r0) (last r0)
                  Hh Hm ltac:(lia) Hn0).
    rewrite Hempty in He. rewrite occupied_rows_empty in He. lia.
Qed.

Lemma for_each_vars {A : Type} (body : A -> M unit) :
  (forall x s u s', body x s = Ok u s' -> vars s' = vars s) ->
  forall xs s u s', for_each xs body s = Ok u s' -> vars s' = vars s.
Proof.
  intros Hbody; induction xs as [ | x xs IH ]; intros s u s' H; simpl in H.
  - injection H as _ <-; reflexivity.
  - apply bind_Ok in H as (u1 & s1 & E & H).
    apply IH in H. apply Hbody in E. congruence.
Qed.

Ltac mcase H E :=
  match type of H with
  | match ?c with Ok _ _ => _ | Raise _ _ => _ | Wait _ => _ end = _ =>
      destruct c as [ ? ? | ? ? | ? ] eqn:E; [ | discriminate H | discriminate H ]
  end.

Lemma measure_ok platform m tr hl size s again s' :
  0 <= m -> session_ok m s ->
  measure platform m tr hl size s = Ok again s' ->
  window_ok m s' /\ (again = true -> session_ok m s').
Proof.
  intros Hm Hok H. destruct size as [w h].
  unfold measure in H. mred H.
  destruct (negb (terminal_width s =? w) || negb (terminal_height s =? h)).
  2:{ injection H as <- <-. split; [ apply Hok | intros; exact Hok ]. }
  mcase H E0.
  assert (s0 = s); [ | subst s0 ].
  { destruct (negb tr); [ | congruence ].
    destruct (py_max (map py_strlen hl)); [ | discriminate ].
    destruct (py_max (map item_len (items s))); [ | discriminate ].
    congruence. }
  clear E0. destruct a.
  - mcase H E1. injection H as <- <-. apply too_small_vars in E1.
    split; [ apply (window_ok_vars _ _ _ E1), Hok | ].
    intros _; apply (session_ok_vars _ _ _ E1), Hok.
  - mcase H E1.
    assert (Hv1 : vars s0 = vars (set_terminal_size w h s)).
    { eapply for_each_vars in E1; [ exact E1 | ].
      intros line s1 u1 s2. unfold truncate, bind, gets, ret.
      intros [= _ <-]; reflexivity. }
    clear E1. destruct Hok as [[Hh Hr] Hcur].
    assert (Eit : items s0 = items s) by (vars_rw Hv1; reflexivity).
    assert (Ecp : current_position s0 = current_position s) by (vars_rw Hv1; reflexivity).
    assert (Evr : visible_range s0 = visible_range s) by (vars_rw Hv1; reflexivity).
    rewrite Eit in H.
    set (u' := h - Z.of_nat (Datatypes.length hl) - 3) in *.
    destruct (visible_range_of (items s) m u' (Z.of_nat (Datatypes.length (items s)) - 1) true)
      as [ e | smax_vr ]; [ discriminate | ].
    destruct (truthy smax_vr) as [ e | [ | ] ] eqn:Et; [ discriminate | | ].
    + destruct smax_vr as [ smax_r | ]; [ | discriminate ].
      mred H. rewrite Evr, Ecp, ?Eit in H.
      set (p := match visible_range s with
                | Some o => first o
                | None => current_position s
                end) in *.
      assert (Hp : 0 <= p).
      { subst p. destruct (visible_range s) as [ o | ] eqn:Eo.
        - apply (Hr o eq_refl).
        - apply Hcur; reflexivity. }
      destruct (visible_range_of (items s) m u' p false) as [ e | r' ] eqn:Escan;
        [ discriminate | ].
      injection H as <- <-.
      split; [ | discriminate ].
      split; cbn; [ rewrite Eit; exact Hh | ].
      intros r [= ->]. 
      pose proof (forward_range_ok m
                    (set_usable_height u' (set_terminal_size w h s)) p r Hp Escan) as Hro.
      unfold range_ok in *; cbn in *. rewrite Eit. 
      vars_rw Hv1. exact Hro.
    + mred H. mcase H E2. injection H as <- <-. apply too_small_vars in E2.
      assert (Hv2 : vars (set_terminal_size 0 0 s1)
                    = vars (set_terminal_size 0 0 (set_usable_height u' s))).
      { unfold vars in *; cbn in *; congruence. }
      assert (Hgoal : session_ok m (set_terminal_size 0 0 (set_usable_height u' s))).
      { split; [ split | ]; cbn; auto.
        intros r Hvr. destruct (Hr r Hvr) as (A & B & C & D & E & F).
        unfold range_ok; cbn. repeat split; auto. intros X; congruence. }
      split; [ | intros _ ]; [ apply (window_ok_vars _ _ _ Hv2), Hgoal
                             | apply (session_ok_vars _ _ _ Hv2), Hgoal ].
Qed.

Lemma scroll_to_range platform m p s u s' :
  scroll_to platform m p s = Ok u s' ->
  0 <= p <= scroll_max s /\
  exists vr,
    vars s' = vars (set_visible_range vr s) /\
    forall r, vr = Some r -> range_ok m s r.
Proof.
  intros H. apply scroll_to_Ok in H as (Hp & vr & Hscan & Hvars).
  split; [ exact Hp | ]. exists vr; split; [ exact Hvars | ].
  intros r ->. eapply forward_range_ok; [ | exact Hscan ]. lia.
Qed.

Lemma truthy_shown r : first r <= last r -> truthy (Some r) = inr true.
Proof.
  intros H; unfold truthy, py_len, range_len.
  destruct (_ <? 0) eqn:E; [ lia | ].
  destruct (_ =? 0) eqn:E0; [ lia | reflexivity ].
Qed.

(** The invariant from the pieces an operation leaves. *)
Lemma session_ok_intro m s s' vr cp :
  window_ok m s ->
  vars s' = vars (set_current_position cp (set_visible_range vr s)) ->
  match vr with
  | Some r => range_ok m s r
  | None => 0 <= cp
  end ->
  session_ok m s'.
Proof.
  intros [Hh _] Hv Hvr.
  apply (session_ok_vars _ _ _ Hv).
  split; [ split | ]; cbn; auto.
  - intros r ->. exact Hvr.
  - intros ->. exact Hvr.
Qed.

Lemma shown_nonempty m s :
  window_ok m s -> shown s -> 1 <= Z.of_nat (List.length (items s)).
Proof.
  intros [_ Hr] (r & Hvr & Hne).
  destruct (Hr r Hvr) as (H0 & _ & Hn & _). lia.
Qed.

Lemma shown_session_ok m s : window_ok m s -> shown s -> session_ok m s.
Proof.
  intros Hw (r & Hvr & _). split; [ exact Hw | congruence ].
Qed.

Lemma heights_ok_map its its' :
  map height its' = map height its -> heights_ok its -> heights_ok its'.
Proof.
  unfold heights_ok; intros E H.
  apply (proj1 (Forall_map height (fun z => 1 <= z) its')).
  rewrite E.
  apply (proj2 (Forall_map height (fun z => 1 <= z) its)). exact H.
Qed.

Lemma window_ok_set_items m s its' :
  map height its' = map height (items s) ->
  window_ok m s -> window_ok m (set_items its' s).
Proof.
  intros E [Hh Hr].
  assert (Hlen : List.length its' = List.length (items s)).
  { rewrite <- (length_map height its'), E, length_map; reflexivity. }
  split; cbn; [ eapply heights_ok_map; eassumption | ].
  intros r Hvr. destruct (Hr r Hvr) as (A & B & C & D & F & G).
  unfold range_ok; cbn. rewrite Hlen.
  repeat split; auto.
  - rewrite D. apply occupied_rows_ext. symmetry; exact E.
  - rewrite members_length by lia. reflexivity.
Qed.

Lemma page_ok platform m key s c s' :
  0 <= m -> window_ok m s -> shown s ->
  page platform m key s = Ok c s' ->
  session_ok m s'.
Proof.
  intros Hm Hw Hs H.
  pose proof (shown_nonempty m s Hw Hs) as Hn.
  pose proof (shown_session_ok m s Hw Hs) as Hok.
  destruct Hs as (r & Hvr & Hne).
  pose proof (proj2 Hw r Hvr) as Hr.
  unfold page in H. mred H. rewrite Hvr in H.
  rewrite (truthy_shown r Hne) in H. mred H.
  (* the branch that picks [new_scroll] *)
  mcase H E0.
  assert (Hpick :
            (a = None /\ session_ok m s0) \/
            (exists new_scroll, a = Some new_scroll /\ s0 = s)).
  { destruct (key_is key "PGDN").
    - destruct (first r =? scroll_max s); injection E0 as <- <-.
      + left; split; [ reflexivity | ].
        eapply (session_ok_intro m s _ (Some r)); [ exact Hw | | exact Hr ].
        unfold vars; cbn; rewrite Hvr; reflexivity.
      + right; eauto.
    - destruct (first r =? 0).
      + injection E0 as <- <-.
        left; split; [ reflexivity | ].
        eapply (session_ok_intro m s _ (Some r)); [ exact Hw | | exact Hr ].
        unfold vars; cbn; rewrite Hvr; reflexivity.
      + destruct (visible_range_of (items s) m (usable_height s) (first r - 1) true)
          as [ e | new_vr ]; [ discriminate | ].
        mred E0.
        destruct (truthy new_vr) as [ e | [ | ] ]; [ discriminate | | ]; mred E0.
        * destruct new_vr as [ nr | ]; [ | discriminate ].
          injection E0 as <- <-. right; eauto.
        * mcase E0 E1. injection E0 as <- <-. apply too_small_vars in E1.
          left; split; [ reflexivity | ].
          apply (session_ok_vars _ _ _ E1), Hok. }
  clear E0. destruct Hpick as [[-> Hs0] | (new_scroll & -> & ->)].
  { injection H as <- <-. exact Hs0. }
  assert (Hlen : py_len r = inr (range_len r)).
  { unfold py_len, range_len. destruct (_ <? 0) eqn:E; [ lia | reflexivity ]. }
  rewrite Hlen in H. mred H.
  mcase H E1.
  assert (s0 = s); [ | subst s0 ].
  { destruct (range_len r >? 1); [ | congruence ].
    destruct (py_truediv _ _); [ discriminate | congruence ]. }
  clear E1. mcase H E2.
  apply scroll_to_range in E2 as (Hp & vr & Hv & Hvr').
  assert (Evr : visible_range s0 = vr) by (vars_rw Hv; reflexivity).
  rewrite Evr in H.
  destruct (truthy vr) as [ e | [ | ] ] eqn:Et; [ discriminate | | ]; mred H.
  - destruct vr as [ r2 | ]; [ | discriminate ].
    destruct (py_len r2) as [ e | n2 ]; [ discriminate | ].
    destruct (py_int_of_float _) as [ e | offset ]; [ discriminate | ].
    injection H as <- <-.
    eapply (session_ok_intro m s _ (Some r2) (first r2 + offset));
      [ exact Hw | | apply Hvr'; reflexivity ].
    unfold vars in *; cbn in *; congruence.
  - mcase H E3. injection H as <- <-. apply too_small_vars in E3.
    eapply (session_ok_intro m s _ vr new_scroll); [ exact Hw | | ].
    + unfold vars in *; cbn in *; congruence.
    + destruct vr as [ r2 | ]; [ apply Hvr'; reflexivity | lia ].
Qed.

Lemma apply_key_ok platform m key s c s' :
  0 <= m -> window_ok m s -> shown s ->
  apply_key platform m key s = Ok c s' ->
  session_ok m s'.
Proof.
  intros Hm Hw Hs H.
  pose proof (shown_nonempty m s Hw Hs) as Hn.
  pose proof (shown_session_ok m s Hw Hs) as Hok.
  pose proof Hs as (r & Hvr & Hne).
  pose proof (proj2 Hw r Hvr) as Hr.
  unfold apply_key in H.
  destruct (key_is key "UP").
  { mred H. rewrite Hvr in H. mcase H E0.
    assert (Hstep : exists vr, vars s0 = vars (set_visible_range vr s) /\
                               forall r', vr = Some r' -> range_ok m s r').
    { destruct (current_position s =? first r).
      - apply scroll_up_ok in E0 as (vr & Hv & Hst); auto.
        exists vr; split; [ exact Hv | ].
        intros r' ->. apply stepped_range_ok; auto.
      - injection E0 as _ <-. exists (Some r); split.
        + unfold vars; cbn; rewrite Hvr; reflexivity.
        + intros r' [= <-]; exact Hr. }
    clear E0. destruct Hstep as (vr & Hv & Hvr').
    assert (Eit : items s0 = items s) by (vars_rw Hv; reflexivity).
    rewrite Eit in H.
    destruct (Z.of_nat (Datatypes.length (items s)) =? 0) eqn:E0; [ discriminate | ].
    injection H as <- <-.
    eapply (session_ok_intro m s _ vr
              ((current_position s0 - 1) mod Z.of_nat (Datatypes.length (items s))));
      [ exact Hw | unfold vars in *; cbn in *; congruence | ].
    destruct vr as [ r' | ]; [ apply Hvr'; reflexivity | ].
    apply Z.mod_pos_bound; lia. }
  destruct (key_is key "DOWN").
  { mred H. rewrite Hvr in H. mcase H E0.
    assert (Hstep : exists vr, vars s0 = vars (set_visible_range vr s) /\
                               forall r', vr = Some r' -> range_ok m s r').
    { destruct (current_position s =? last r).
      - apply scroll_down_ok in E0 as (vr & Hv & Hst); auto.
        exists vr; split; [ exact Hv | ].
        intros r' ->. apply stepped_range_ok; auto.
      - injection E0 as _ <-. exists (Some r); split.
        + unfold vars; cbn; rewrite Hvr; reflexivity.
        + intros r' [= <-]; exact Hr. }
    clear E0. destruct Hstep as (vr & Hv & Hvr').
    assert (Eit : items s0 = items s) by (vars_rw Hv; reflexivity).
    rewrite Eit in H.
    destruct (Z.of_nat (Datatypes.length (items s)) =? 0) eqn:E0; [ discriminate | ].
    injection H as <- <-.
    eapply (session_ok_intro m s _ vr
              ((current_position s0 + 1) mod Z.of_nat (Datatypes.length (items s))));
      [ exact Hw | unfold vars in *; cbn in *; congruence | ].
    destruct vr as [ r' | ]; [ apply Hvr'; reflexivity | ].
    apply Z.mod_pos_bound; lia. }
  destruct (key_is key "HOME").
  { mred H. mcase H E0. injection H as <- <-.
    apply scroll_to_range in E0 as (_ & vr & Hv & Hvr').
    eapply (session_ok_intro m s _ vr 0);
      [ exact Hw | unfold vars in *; cbn in *; congruence | ].
    destruct vr as [ r' | ]; [ apply Hvr'; reflexivity | lia ]. }
  destruct (key_is key "END").
  { mred H. mcase H E0. injection H as <- <-.
    apply scroll_to_range in E0 as (_ & vr & Hv & Hvr').
    assert (Eit : items s0 = items s) by (vars_rw Hv; reflexivity).
    eapply (session_ok_intro m s _ vr (Z.of_nat (Datatypes.length (items s)) - 1));
      [ exact Hw | unfold vars in *; cbn in *; congruence | ].
    destruct vr as [ r' | ]; [ apply Hvr'; reflexivity | lia ]. }
  destruct (key_is key "PGUP" || key_is key "PGDN").
  { eapply page_ok; eassumption. }
  destruct (key_is key "SPACE").
  { mred H.
    destruct (py_getitem (items s) (current_position s)) as [ item | ] eqn:E;
      [ | discriminate ].
    injection H as <- <-.
    apply shown_session_ok.
    - apply window_ok_set_items; [ | exact Hw ].
      unfold py_getitem in E.
      destruct (current_position s <? 0) eqn:Eneg.
      + destruct (_ && _) eqn:Eb in E; [ | discriminate ].
        apply andb_prop in Eb as [E1 E2].
        eapply replace_nth_map; [ exact E | reflexivity ].
      + destruct (_ && _) eqn:Eb in E; [ | discriminate ].
        eapply replace_nth_map; [ exact E | reflexivity ].
    - exists r; split; [ exact Hvr | exact Hne ]. }
  destruct (key_is key "ENTER").
  { injection H as <- <-. exact Hok. }
  destruct (key_is key "ESCAPE"); [ discriminate | ].
  injection H as <- <-. exact Hok.
Qed.

Lemma render_item_vars tr i max_lines s u s' :
  render_item tr i max_lines s = Ok u s' -> vars s' = vars s.
Proof.
  intros H. unfold render_item in H.
  destruct (match max_lines with Some n => n <? 1 | None => false end);
    [ discriminate | ].
  mred H.
  destruct (py_getitem (items s) i) as [ item | ]; [ | discriminate ].
  destruct (checked item); mred H.
  - destruct (py_getitem (label_lines item) 0); [ | discriminate ].
    unfold truncate in H; mred H.
    eapply for_each_vars in H; [ rewrite H; reflexivity | ].
    intros line s1 u1 s2. unfold truncate, bind, gets, ret, term, modify.
    intros [= _ <-]; reflexivity.
  - destruct (py_getitem (label_lines item) 0); [ | discriminate ].
    unfold truncate in H; mred H.
    eapply for_each_vars in H; [ rewrite H; reflexivity | ].
    intros line s1 u1 s2. unfold truncate, bind, gets, ret, term, modify.
    intros [= _ <-]; reflexivity.
Qed.

Lemma render_item_margin_vars m s u s' :
  render_item_margin m s = Ok u s' -> vars s' = vars s.
Proof.
  unfold render_item_margin. apply for_each_vars.
  intros x s1 u1 s2. unfold term, modify. intros [= _ <-]; reflexivity.
Qed.

Lemma render_vars m tr hl s u s' :
  render m tr hl s = Ok u s' -> vars s' = vars s.
Proof.
  intros H. unfold render in H. mred H.
  destruct (visible_range s) as [ r | ]; [ | discriminate ].
  mcase H E0. apply render_item_vars in E0. cbn in E0.
  mcase H E1.
  eapply for_each_vars in E1.
  2:{ intros i s2 u2 s3 Hb. apply bind_Ok in Hb as (u4 & s4 & Ha & Hb).
      apply render_item_margin_vars in Ha. apply render_item_vars in Hb. congruence. }
  mcase H E2.
  assert (Hv2 : vars s2 = vars s1).
  { destruct (_ && _); [ | injection E2 as _ <-; reflexivity ].
    mcase E2 E3. apply render_item_margin_vars in E3.
    apply render_item_vars in E2. congruence. }
  unfold truncate in H. mred H. injection H as _ <-.
  unfold vars in *; cbn in *; congruence.
Qed.

Lemma loop_body_ok platform m tr hl size s s' :
  0 <= m -> session_ok m s ->
  loop_body platform m tr hl size s = Ok Continue s' ->
  session_ok m s'.
Proof.
  intros Hm Hok H. unfold loop_body in H.
  apply bind_Ok in H as (again & s1 & E0 & H).
  apply (measure_ok _ _ _ _ _ _ _ _ Hm Hok) in E0 as [Hw1 Hagain].
  destruct again.
  { injection H as <-. auto. }
  mred H.
  destruct (truthy (visible_range s1)) as [ e | t ] eqn:Et; [ discriminate | ].
  mred H. mcase H E1. mcase H E2.
  (* after the scroll that brings the cursor into view *)
  assert (Hmid : window_ok m s2 /\
                 (visible_range s2 = None -> 0 <= current_position s2)).
  { assert (Hs0 : s0 = s1 /\ (a = false -> exists r, visible_range s1 = Some r
                                           /\ first r <= last r)).
    { destruct t; cbn in E1.
      - apply truthy_true in Et as (r0 & Hr0 & Hne0). rewrite Hr0 in E1.
        injection E1 as <- <-. split; [ reflexivity | ]. intros _; eauto.
      - injection E1 as <- <-. split; [ reflexivity | discriminate ]. }
    destruct Hs0 as [-> Ha]. destruct a.
    - apply scroll_to_range in E2 as (Hp & vr & Hv & Hvr').
      split.
      + apply (window_ok_vars _ _ _ Hv). destruct Hw1 as [Hh Hr].
        split; cbn; auto; intros r ->; apply Hvr'; reflexivity.
      + intros Hnone. vars_rw Hv. lia.
    - injection E2 as _ <-. split; [ exact Hw1 | ].
      destruct (Ha eq_refl) as (r & Hr & _). congruence. }
  clear E1 E2. destruct Hmid as [Hw2 Hcur2].
  destruct (truthy (visible_range s2)) as [ e | t2 ] eqn:Et2; [ discriminate | ].
  mred H. destruct t2; cbn in H.
  - mcase H E3. apply render_vars in E3.
    mcase H E4. apply read_key_vars in E4.
    apply truthy_true in Et2 as (r & Hr & Hne).
    eapply apply_key_ok; [ exact Hm | | | exact H ].
    + apply (window_ok_vars m s2); [ congruence | exact Hw2 ].
    + apply (shown_vars s2); [ congruence | ]. exists r; auto.
  - mcase H E3. injection H as <-. apply too_small_vars in E3.
    apply (session_ok_vars _ _ _ E3). split; assumption.
Qed.

Lemma after_passes_ok platform m tr hl :
  0 <= m ->
  forall sizes s s',
    session_ok m s ->
    after_passes platform m tr hl sizes s = Some s' ->
    session_ok m s'.
Proof.
  intros Hm; induction sizes as [ | size sizes IH ]; intros s s' Hok H; simpl in H.
  - injection H as <-; exact Hok.
  - destruct (loop_body platform m tr hl size s) as [ [ | ] s1 | | ] eqn:E;
      try discriminate.
    eapply IH; [ | exact H ].
    eapply loop_body_ok; eassumption.
Qed.

(** ** The stored range *)

Lemma split_from_not_nil cur s : split_from cur s <> [].
Proof.
  revert cur; induction s as [ | c s IH ]; intros cur; simpl; [ discriminate | ].
  destruct (Ascii.eqb c "010"); [ discriminate | apply IH ].
Qed.

Lemma new_ChecklistItem_height l c t : 1 <= height (new_ChecklistItem l c t).
Proof.
  unfold height, new_ChecklistItem, py_split_lines; simpl.
  pose proof (split_from_not_nil "" l).
  destruct (split_from "" l); [ congruence | simpl; lia ].
Qed.

Lemma default_tags_heights_ok its : forall i, heights_ok (default_tags i its).
Proof.
  induction its as [ | item its IH ]; intros i; simpl; constructor.
  - apply new_ChecklistItem_height.
  - apply IH.
Qed.

Lemma prepared_heights_ok raw : heights_ok (prepared raw).
Proof.
  unfold prepared. destruct (make_all raw); [ constructor | ].
  apply default_tags_heights_ok.
Qed.

Lemma initial_session_ok m its input :
  heights_ok its -> session_ok m (initial_session its input).
Proof.
  intros H; split; [ split | ]; cbn; [ exact H | discriminate | lia ].
Qed.

(** ** Wrapping and paging *)

(** C8. Ten one-line items, three usable rows: END puts the window at
    7..9 with [scroll_max = 7]; the terminal then grows to five usable
    rows, [scroll_max] drops to 5 and the window stays at 7..9; DOWN on
    the last item finds [first <> scroll_max], takes the branch that
    reads [items[last + 1]] and raises IndexError, on either platform.
    With the terminal left alone the same keys wrap to the window 0..2
    and the cursor to the first item. *)
Theorem down_on_last_item_after_growth :
  (forall platform,
      option_map (fun s => (window s, scroll_max s))
        (after_passes platform 0 false short_header [(120, 8)]
           (initial_session (prepared (one_line_items 10)) (raw_END platform)))
      = Some ((Some (mkItemRange 7 9 3), 9), 7)) /\
  (forall platform,
      fst (tui_checklist platform (one_line_items 10) (Some "h") 0 false
             [(120, 8); (120, 10)] (raw_END platform ++ raw_DOWN platform))
      = Raised IndexError) /\
  (forall platform,
      option_map window
        (after_passes platform 0 false short_header [(120, 8); (120, 8)]
           (initial_session (prepared (one_line_items 10))
              (raw_END platform ++ raw_DOWN platform)))
      = Some (Some (mkItemRange 0 2 3), 0)).
Proof.
  repeat split; intros []; vm_compute; reflexivity.
Qed.

(** C9. Sixty one-line items, 23 usable rows, the cursor brought to
    offset 15 of the window 0..22: PGDN moves the window to 23..45 and
    the cursor to 37, offset 14, because the quotient 15/22 times 22 is
    just below 15 in binary64 and [int] cuts it to 14; the exact ratio
    gives offset 15.  In the example of five usable rows and offset 2
    the cursor does land at offset 2 of the new window. *)
Theorem page_down_loses_a_row :
  option_map window
    (after_passes Win32 0 false short_header (repeat (120, 28) 16)
       (initial_session (prepared (one_line_items 60))
          (List.concat (repeat (raw_DOWN Win32) 15) ++ raw_PAGE_DOWN Win32)))
  = Some (Some (mkItemRange 23 45 23), 23 + 14) /\
  match py_truediv 15 22 with
  | inr ratio => py_int_of_float (py_float_mul_int ratio 22)
  | inl e => inl e
  end = inr 14 /\
  15 * 22 / 22 = 15 /\
  option_map window
    (after_passes Win32 0 false short_header (repeat (120, 10) 3)
       (initial_session (prepared (one_line_items 60))
          (List.concat (repeat (raw_DOWN Win32) 2) ++ raw_PAGE_DOWN Win32)))
  = Some (Some (mkItemRange 5 9 5), 5 + 2).
Proof.
  repeat split; vm_compute; reflexivity.
Qed.

(** ** The empty list *)

Lemma empty_session_vars s s' :
  vars s' = vars s -> empty_session s -> empty_session s'.
Proof.
  unfold empty_session. intros H; vars_rw H; auto.
Qed.

Lemma measure_empty platform m tr hl size s again s' :
  empty_session s ->
  measure platform m tr hl size s = Ok again s' ->
  empty_session s'.
Proof.
  intros Hinv H. destruct size as [w h].
  pose proof Hinv as (Hit & Hvr & Hcp & Hsm).
  unfold measure in H. mred H.
  destruct (negb (terminal_width s =? w) || negb (terminal_height s =? h)).
  2:{ injection H as _ <-. exact Hinv. }
  rewrite Hit in H. cbn [map py_max List.length] in H.
  mcase H E0.
  assert (a = false /\ s0 = s) as [-> ->].
  { destruct (negb tr); [ | injection E0 as <- <-; auto ].
    destruct (py_max (map py_strlen hl)); discriminate. }
  clear E0. mcase H E1.
  assert (Hv1 : vars s0 = vars (set_terminal_size w h s)).
  { eapply for_each_vars in E1; [ exact E1 | ].
    intros line s1 u1 s2. unfold truncate, bind, gets, ret.
    intros [= _ <-]; reflexivity. }
  clear E1. mred H.
  assert (Eit : items s0 = []) by (vars_rw Hv1; assumption).
  rewrite Eit in H.
  change (visible_range_of [] m (h - Z.of_nat (Datatypes.length hl) - 3)
            (Z.of_nat 0 - 1) true)
    with (@inr PyExc _ (@None _ItemRange)) in H.
  cbn [truthy] in H. mred H.
  mcase H E2. injection H as _ <-. apply too_small_vars in E2.
  assert (Hv : vars (set_terminal_size 0 0 s1) = vars (set_terminal_size 0 0
                 (set_usable_height (h - Z.of_nat (Datatypes.length hl) - 3) s))).
  { unfold vars in *; cbn in *; congruence. }
  apply (empty_session_vars _ _ Hv). exact Hinv.
Qed.

Lemma loop_body_empty platform m tr hl size s c s' :
  empty_session s ->
  loop_body platform m tr hl size s = Ok c s' ->
  c = Continue /\ empty_session s'.
Proof.
  intros Hinv H. unfold loop_body in H.
  apply bind_Ok in H as (again & s1 & E0 & H).
  apply (measure_empty _ _ _ _ _ _ _ _ Hinv) in E0.
  destruct again; [ injection H as <- <-; auto | ].
  pose proof E0 as (Hit & Hvr & Hcp & Hsm).
  mred H. rewrite Hvr in H. cbn [truthy] in H. mred H.
  mcase H E1.
  assert (Hv : vars s0 = vars s1).
  { unfold scroll_to in E1. mred E1. rewrite Hcp, Hsm in E1.
    change ((0 <? 0) || (0 <? 0)) with false in E1. cbv beta iota in E1.
    rewrite Hit in E1.
    change (visible_range_of [] m (usable_height s1) 0 false)
      with (@inr PyExc _ (@None _ItemRange)) in E1.
    cbv beta iota in E1.
    apply error_unless_vars in E1. rewrite E1.
    unfold vars; cbn. congruence. }
  clear E1. pose proof (empty_session_vars _ _ Hv E0) as (Hit0 & Hvr0 & _).
  rewrite Hvr0 in H. cbn [truthy] in H. mred H.
  mcase H E2. injection H as <- <-. apply too_small_vars in E2.
  split; [ reflexivity | ].
  apply (empty_session_vars _ _ E2), (empty_session_vars _ _ Hv), E0.
Qed.

Lemma main_loop_empty platform m tr hl :
  forall sizes s u s',
    empty_session s -> main_loop platform m tr hl sizes s <> Ok u s'.
Proof.
  induction sizes as [ | size sizes IH ]; intros s u s' Hinv H; simpl in H;
    [ discriminate | ].
  apply bind_Ok in H as (c & s1 & E & H).
  apply (loop_body_empty _ _ _ _ _ _ _ _ Hinv) in E as [-> Hinv1].
  exact (IH _ _ _ Hinv1 H).
Qed.

Lemma py_max_snoc xs x : py_max (xs ++ [x]) <> None.
Proof. destruct xs; discriminate. Qed.

(** C10. With no items [tui_checklist] never returns a list of tags,
    whatever the header, the margin, the flag, the terminal and the
    input.  With truncation off, the first measurement of a terminal
    raises ValueError from [max] over no items; with truncation on, the
    backward scan from index -1 that computes [scroll_max] finds
    nothing, for every usable height. *)
Theorem empty_list_returns_no_tags :
  forall platform header m tr sizes input,
    (forall tags,
        fst (tui_checklist platform [] header m tr sizes input) <> Returned (Some tags)) /\
    (forall h w rows,
        (w, rows) <> (0, 0) ->
        fst (tui_checklist platform [] (Some h) m false ((w, rows) :: sizes) input)
        = Raised ValueError) /\
    (forall usable,
        visible_range_of [] m usable (Z.of_nat (List.length (@nil ChecklistItem)) - 1) true
        = inr None).
Proof.
  intros platform header m tr sizes input. split; [ | split ].
  - intros tags. unfold tui_checklist; simpl.
    destruct header as [ h | ]; [ | discriminate ].
    set (s0 := add_stdout enter_app_mode (initial_session [] input)).
    assert (Hinv : empty_session s0) by (repeat split).
    destruct (main_loop platform m tr (py_split_lines h ++ [instructions]) sizes s0)
      as [ u s' | e s' | s' ] eqn:E.
    + exfalso. exact (main_loop_empty _ _ _ _ _ _ _ _ Hinv E).
    + destruct e; discriminate.
    + discriminate.
  - intros h w rows Hsize. unfold tui_checklist; simpl.
    unfold bind at 1, loop_body, bind at 1, measure.
    cbv beta delta [bind gets]. cbn [terminal_width terminal_height add_stdout
                                     initial_session items].
    assert (Hchg : negb (0 =? w) || negb (0 =? rows) = true).
    { destruct (0 =? w) eqn:Ew; destruct (0 =? rows) eqn:Er; try reflexivity.
      exfalso; apply Hsize; f_equal; lia. }
    rewrite Hchg. cbn [negb map].
    destruct (py_max (map py_strlen (py_split_lines h ++ [instructions]))) eqn:Eh.
    + reflexivity.
    + rewrite map_app in Eh. exfalso. exact (py_max_snoc _ _ Eh).
  - intros usable. reflexivity.
Qed.

Lemma empty_list_returns_no_tags_witness :
  fst (tui_checklist Unix [] (Some "h") 0 false [(120, 24)] []) = Raised ValueError.
Proof.
  apply (proj1 (proj2 (empty_list_returns_no_tags Unix (Some "h") 0 false [] []))
           "h" 120 24).
  discriminate.
Defined.

(** ** Passes of the loop that run to the key dispatch *)

Ltac mred_goal :=
  cbv beta delta [bind gets modify ret lift getitem raise term the_visible_range
                    the_value get_visible_range py_mod];
  cbn [terminal_width terminal_height usable_height visible_range scroll_max
       current_position items stdin stdout set_terminal_size set_usable_height
       set_visible_range set_scroll_max set_current_position set_items set_stdin
       add_stdout negb].

Lemma for_each_runs {A : Type} (body : A -> M unit) (s0 : Session) :
  forall xs,
    (forall x s1, In x xs -> vars s1 = vars s0 ->
                  exists s2, body x s1 = Ok tt s2 /\ vars s2 = vars s1 /\ stdin s2 = stdin s1) ->
    forall s1, vars s1 = vars s0 ->
               exists s2, for_each xs body s1 = Ok tt s2
                          /\ vars s2 = vars s1 /\ stdin s2 = stdin s1.
Proof.
  induction xs as [ | x xs IH ]; intros Hbody s1 Hv; simpl.
  - exists s1; auto.
  - destruct (Hbody x s1 (or_introl eq_refl) Hv) as (s2 & E & Hv2 & Hi2).
    destruct (IH (fun y s Hy => Hbody y s (or_intror Hy)) s2 ltac:(congruence))
      as (s3 & E3 & Hv3 & Hi3).
    exists s3. unfold bind. rewrite E, E3. repeat split; congruence.
Qed.

Lemma render_item_runs tr i max_lines s item :
  py_getitem (items s) i = Some item ->
  1 <= height item ->
  (forall n, max_lines = Some n -> 1 <= n) ->
  exists s', render_item tr i max_lines s = Ok tt s'
             /\ vars s' = vars s /\ stdin s' = stdin s.
Proof.
  intros E Hh Hmax. unfold render_item.
  assert (Hguard : match max_lines with Some n => n <? 1 | None => false end = false).
  { destruct max_lines as [ n | ]; [ | reflexivity ].
    specialize (Hmax n eq_refl). lia. }
  rewrite Hguard. mred_goal. rewrite E.
  assert (Hline : exists line0, py_getitem (label_lines item) 0 = Some line0).
  { apply py_getitem_Some. unfold height in Hh. lia. }
  destruct Hline as (line0 & E0).
  destruct (checked item); mred_goal; rewrite E0; unfold truncate at 1; mred_goal.
  - match goal with
    | |- context [for_each ?xs ?body ?st] =>
        assert (Hfe : exists s2, for_each xs body st = Ok tt s2
                                 /\ vars s2 = vars st /\ stdin s2 = stdin st)
          by (apply (for_each_runs body st xs); [ | reflexivity ];
              intros line s3 _ _; unfold truncate; mred_goal; eexists; repeat split)
    end.
    destruct Hfe as (s2 & E2 & Hv & Hi).
    exists s2; rewrite E2.
    repeat split; [ rewrite Hv | rewrite Hi ]; reflexivity.
  - match goal with
    | |- context [for_each ?xs ?body ?st] =>
        assert (Hfe : exists s2, for_each xs body st = Ok tt s2
                                 /\ vars s2 = vars st /\ stdin s2 = stdin st)
          by (apply (for_each_runs body st xs); [ | reflexivity ];
              intros line s3 _ _; unfold truncate; mred_goal; eexists; repeat split)
    end.
    destruct Hfe as (s2 & E2 & Hv & Hi).
    exists s2; rewrite E2.
    repeat split; [ rewrite Hv | rewrite Hi ]; reflexivity.
Qed.

Lemma render_item_margin_runs m s :
  exists s', render_item_margin m s = Ok tt s'
             /\ vars s' = vars s /\ stdin s' = stdin s.
Proof.
  unfold render_item_margin.
  apply (for_each_runs _ s); [ | reflexivity ].
  intros x s1 _ _. unfold term, modify. eexists; repeat split.
Qed.

Lemma in_py_range i lo hi : In i (py_range lo hi) -> lo <= i < hi.
Proof.
  unfold py_range; rewrite in_map_iff. intros (k & <- & Hk).
  apply in_seq in Hk. lia.
Qed.

Lemma render_runs m tr hl s r :
  heights_ok (items s) ->
  visible_range s = Some r ->
  0 <= first r -> first r <= last r -> last r < Z.of_nat (List.length (items s)) ->
  exists s', render m tr hl s = Ok tt s'
             /\ vars s' = vars s /\ stdin s' = stdin s.
Proof.
  intros Hh Hvr H0 Hne Hn.
  assert (Hitem : forall i s1, 0 <= i < Z.of_nat (List.length (items s)) ->
                               vars s1 = vars s ->
                               forall ml, (forall n, ml = Some n -> 1 <= n) ->
                               exists s2, render_item tr i ml s1 = Ok tt s2
                                          /\ vars s2 = vars s1 /\ stdin s2 = stdin s1).
  { intros i s1 Hi Hv ml Hml.
    assert (Eit : items s1 = items s) by (vars_rw Hv; reflexivity).
    destruct (py_getitem_Some (items s) i Hi) as (item & E).
    apply (render_item_runs tr i ml s1 item); [ rewrite Eit; exact E | | exact Hml ].
    eapply height_at_least_one; eassumption. }
  unfold render. mred_goal. rewrite Hvr.
  destruct (Hitem (first r) (add_stdout (move_to (Z.of_nat (Datatypes.length hl) + 1) 0) s)
              ltac:(lia) eq_refl None ltac:(discriminate)) as (s1 & E1 & Hv1 & Hi1).
  change (vars s1 = vars s) in Hv1. change (stdin s1 = stdin s) in Hi1.
  rewrite E1.
  match goal with
  | |- context [for_each ?xs ?body s1] =>
      assert (Hfe : exists s2, for_each xs body s1 = Ok tt s2
                               /\ vars s2 = vars s1 /\ stdin s2 = stdin s1)
  end.
  { apply (for_each_runs _ s); [ | exact Hv1 ].
    intros i s3 Hin Hv3. apply in_py_range in Hin.
    destruct (render_item_margin_runs m s3) as (s4 & E4 & Hv4 & Hi4).
    destruct (Hitem i s4 ltac:(lia) ltac:(congruence) None ltac:(discriminate))
      as (s5 & E5 & Hv5 & Hi5).
    exists s5. rewrite E4, E5. repeat split; congruence. }
  destruct Hfe as (s2 & E2 & Hv2 & Hi2).
  rewrite E2.
  match goal with
  | |- context [match ?part with Ok _ _ => _ | Raise _ _ => _ | Wait _ => _ end] =>
      assert (Hpart : exists s3, part = Ok tt s3
                                 /\ vars s3 = vars s2 /\ stdin s3 = stdin s2)
  end.
  { destruct (_ && _) eqn:Ec; [ | exists s2; auto ].
    apply andb_prop in Ec as [Ea Eb].
    destruct (render_item_margin_runs m s2) as (s4 & E4 & Hv4 & Hi4).
    destruct (Hitem (last r + 1) s4 ltac:(lia) ltac:(congruence)
                (Some (usable_height s - range_height r - m)))
      as (s5 & E5 & Hv5 & Hi5).
    { intros n [= <-]. lia. }
    exists s5. rewrite E4, E5. repeat split; congruence. }
  destruct Hpart as (s3 & E3 & Hv3 & Hi3).
  rewrite E3. unfold truncate. mred_goal.
  eexists; split; [ reflexivity | ].
  split; [ unfold vars in *; cbn in *; congruence | cbn; congruence ].
Qed.

Lemma measure_steady platform m tr hl s :
  measure platform m tr hl (terminal_width s, terminal_height s) s = Ok false s.
Proof.
  unfold measure. mred_goal. rewrite !Z.eqb_refl. reflexivity.
Qed.

Lemma py_max_bound xs mx w :
  py_max xs = Some mx -> Forall (fun x => x <= w) xs -> mx <= w.
Proof.
  destruct xs as [ | x xs ]; simpl; [ discriminate | ].
  intros [= <-] H. inversion H as [ | ? ? Hx Hxs ]; subst. clear H.
  revert x Hx. induction xs as [ | y ys IH ]; intros x Hx; simpl; [ exact Hx | ].
  inversion Hxs; subst. apply IH; [ assumption | lia ].
Qed.

(** The first measurement of a terminal that is wide enough and in which
    the last item fits. *)
Lemma measure_first platform m tr hl w h s rmax vr :
  (terminal_width s, terminal_height s) <> (w, h) ->
  (tr = false ->
   exists mh mi,
     py_max (map py_strlen hl) = Some mh /\
     py_max (map item_len (items s)) = Some mi /\
     Z.max mh mi <= w) ->
  visible_range_of (items s) m (h - Z.of_nat (List.length hl) - 3)
    (Z.of_nat (List.length (items s)) - 1) true = inr (Some rmax) ->
  first rmax <= last rmax ->
  visible_range_of (items s) m (h - Z.of_nat (List.length hl) - 3)
    match visible_range s with
    | Some o => first o
    | None => current_position s
    end false = inr vr ->
  exists sm,
    measure platform m tr hl (w, h) s = Ok false sm /\
    vars sm = (w, h, h - Z.of_nat (List.length hl) - 3, vr, first rmax,
               current_position s, items s) /\
    stdin sm = stdin s.
Proof.
  intros Hchg Hwide Hmax Hne Hscan.
  unfold measure. mred_goal.
  assert (Ec : negb (terminal_width s =? w) || negb (terminal_height s =? h) = true).
  { destruct (terminal_width s =? w) eqn:Ew; destruct (terminal_height s =? h) eqn:Eh;
      try reflexivity.
    exfalso; apply Hchg; f_equal; lia. }
  rewrite Ec.
  assert (Enarrow :
            (if negb tr
             then
               match py_max (map py_strlen hl) with
               | Some widest_header =>
                   match py_max (map item_len (items s)) with
                   | Some longest_item =>
                       fun s0 : Session =>
                         Ok (w <? Z.max widest_header longest_item) s0
                   | None => fun s0 : Session => Raise ValueError s0
                   end
               | None => fun s0 : Session => Raise ValueError s0
               end
             else fun s0 : Session => Ok false s0) s = Ok false s).
  { destruct tr; [ reflexivity | ]. cbn [negb].
    destruct (Hwide eq_refl) as (mh & mi & -> & -> & Hle).
    f_equal. lia. }
  match goal with
  | |- context [match ?c with Ok _ _ => _ | Raise _ _ => _ | Wait _ => _ end] =>
      change c with ((if negb tr
             then
               match py_max (map py_strlen hl) with
               | Some widest_header =>
                   match py_max (map item_len (items s)) with
                   | Some longest_item =>
                       fun s0 : Session =>
                         Ok (w <? Z.max widest_header longest_item) s0
                   | None => fun s0 : Session => Raise ValueError s0
                   end
               | None => fun s0 : Session => Raise ValueError s0
               end
             else fun s0 : Session => Ok false s0) s)
  end.
  rewrite Enarrow. 
  match goal with
  | |- context [for_each ?xs ?body ?st] =>
      assert (Hfe : exists s2, for_each xs body st = Ok tt s2
                               /\ vars s2 = vars st /\ stdin s2 = stdin st)
        by (apply (for_each_runs body st xs); [ | reflexivity ];
            intros line s3 _ _; unfold truncate; mred_goal; eexists; repeat split)
  end.
  destruct Hfe as (s1 & E1 & Hv1 & Hi1).
  change (vars s1 = vars (set_terminal_size w h s)) in Hv1.
  change (stdin s1 = stdin s) in Hi1.
  rewrite E1. mred_goal.
  assert (Eit : items s1 = items s) by (vars_rw Hv1; reflexivity).
  assert (Evr : visible_range s1 = visible_range s) by (vars_rw Hv1; reflexivity).
  assert (Ecp : current_position s1 = current_position s) by (vars_rw Hv1; reflexivity).
  rewrite Eit, Hmax. rewrite (truthy_shown rmax Hne).
  mred_goal. rewrite Evr, Ecp, Eit, Hscan.
  eexists; split; [ reflexivity | ].
  split; [ | exact Hi1 ].
  unfold vars in *; cbn in *. congruence.
Qed.

(** A pass whose measurement lets it through, with the cursor inside a
    range that lies in the list: it draws the window, reads one key and
    dispatches it. *)
Lemma pass_runs platform m tr hl size s sm r d rest :
  measure platform m tr hl size s = Ok false sm ->
  heights_ok (items sm) ->
  visible_range sm = Some r ->
  0 <= first r -> last r < Z.of_nat (List.length (items sm)) ->
  first r <= current_position sm <= last r ->
  get_key platform (stdin sm) = Some (d, rest) ->
  exists s1,
    vars s1 = vars sm /\ stdin s1 = rest /\
    loop_body platform m tr hl size s
    = match d with
      | Pressed key => apply_key platform m key s1
      | Interrupt => Raise KeyboardInterrupt s1
      end.
Proof.
  intros Hmeasure Hh Hvr H0 Hn Hin Hkey.
  destruct (render_runs m tr hl sm r Hh Hvr H0 ltac:(lia) Hn) as (s2 & E2 & Hv2 & Hi2).
  exists (set_stdin rest s2). split; [ exact Hv2 | ]. split; [ reflexivity | ].
  unfold loop_body. unfold bind at 1. rewrite Hmeasure.
  mred_goal. rewrite Hvr. rewrite (truthy_shown r ltac:(lia)). mred_goal.
  assert (Eout : (current_position sm <? first r) || (last r <? current_position sm) = false).
  { apply orb_false_iff; split; lia. }
  rewrite Eout. rewrite Hvr. rewrite (truthy_shown r ltac:(lia)). mred_goal.
  rewrite E2. unfold read_key. rewrite Hi2, Hkey.
  destruct d; reflexivity.
Qed.

Lemma apply_key_DOWN_inside platform m s r :
  visible_range s = Some r ->
  current_position s <> last r ->
  items s <> [] ->
  apply_key platform m (KStr "DOWN") s
  = Ok Continue
      (set_current_position
         ((current_position s + 1) mod Z.of_nat (List.length (items s))) s).
Proof.
  intros Hvr Hcp Hit. unfold apply_key. cbn [key_is String.eqb Ascii.eqb Bool.eqb].
  mred_goal. rewrite Hvr.
  destruct (current_position s =? last r) eqn:E; [ lia | ].
  destruct (Z.of_nat (Datatypes.length (items s)) =? 0) eqn:E0; [ | reflexivity ].
  destruct (items s); [ congruence | simpl in E0; lia ].
Qed.

Lemma apply_key_SPACE platform m s item :
  0 <= current_position s ->
  py_getitem (items s) (current_position s) = Some item ->
  apply_key platform m (KStr "SPACE") s
  = Ok Continue
      (set_items (replace_nth (Z.to_nat (current_position s)) (toggle item None) (items s)) s).
Proof.
  intros H0 E. unfold apply_key. cbn [key_is String.eqb Ascii.eqb Bool.eqb orb].
  mred_goal. rewrite E.
  destruct (current_position s <? 0) eqn:En; [ lia | reflexivity ].
Qed.

(** ** The end-to-end scenario *)

Lemma main_loop_cons platform m tr hl size sizes s :
  main_loop platform m tr hl (size :: sizes) s
  = match loop_body platform m tr hl size s with
    | Ok Continue s' => main_loop platform m tr hl sizes s'
    | Ok Break s' => Ok tt s'
    | Raise e s' => Raise e s'
    | Wait s' => Wait s'
    end.
Proof.
  simpl. unfold bind.
  destruct (loop_body platform m tr hl size s) as [ [ | ] s' | | ]; reflexivity.
Qed.

Lemma three_lines_backward its u :
  map height its = [1; 1; 1] -> 3 <= u ->
  visible_range_of its 0 u (Z.of_nat (List.length its) - 1) true
  = inr (Some (mkItemRange 0 2 3)).
Proof.
  intros Hh Hu.
  destruct its as [ | a [ | b [ | c [ | d rest ] ] ] ]; try discriminate.
  injection Hh as Ha Hb Hc.
  unfold visible_range_of. cbn [negb List.length].
  change (py_range_down (Z.of_nat 3 - 1)) with [2; 1; 0].
  cbn [fit_loop].
  change (py_getitem [a; b; c] 2) with (Some c). cbv beta iota. rewrite Hc.
  change (- 0 + 0 + 1) with 1.
  destruct (1 >? u) eqn:E1; [ lia | ]. cbn [fit_loop].
  change (py_getitem [a; b; c] 1) with (Some b). cbv beta iota. rewrite Hb.
  change (1 + 0 + 1) with 2.
  destruct (2 >? u) eqn:E2; [ lia | ]. cbn [fit_loop].
  change (py_getitem [a; b; c] 0) with (Some a). cbv beta iota. rewrite Ha.
  change (2 + 0 + 1) with 3.
  destruct (3 >? u) eqn:E3; [ lia | ]. reflexivity.
Qed.

Lemma three_lines_forward its u :
  map height its = [1; 1; 1] -> 3 <= u ->
  visible_range_of its 0 u 0 false = inr (Some (mkItemRange 0 2 3)).
Proof.
  intros Hh Hu.
  destruct its as [ | a [ | b [ | c [ | d rest ] ] ] ]; try discriminate.
  injection Hh as Ha Hb Hc.
  unfold visible_range_of. cbn [negb List.length].
  change (py_range 0 (Z.of_nat 3)) with [0; 1; 2].
  cbn [fit_loop].
  change (py_getitem [a; b; c] 0) with (Some a). cbv beta iota. rewrite Ha.
  change (- 0 + 0 + 1) with 1.
  destruct (1 >? u) eqn:E1; [ lia | ]. cbn [fit_loop].
  change (py_getitem [a; b; c] 1) with (Some b). cbv beta iota. rewrite Hb.
  change (1 + 0 + 1) with 2.
  destruct (2 >? u) eqn:E2; [ lia | ]. cbn [fit_loop].
  change (py_getitem [a; b; c] 2) with (Some c). cbv beta iota. rewrite Hc.
  change (2 + 0 + 1) with 3.
  destruct (3 >? u) eqn:E3; [ lia | ]. reflexivity.
Qed.

Lemma three_lines_heights_ok its : map height its = [1; 1; 1] -> heights_ok its.
Proof.
  intros Hh. unfold heights_ok.
  apply (proj1 (Forall_map height (fun z => 1 <= z) its)).
  rewrite Hh. repeat constructor; lia.
Qed.

Lemma three_lines_item_len its :
  map height its = [1; 1; 1] -> py_max (map item_len its) = Some 1.
Proof.
  intros Hh. change (map item_len its) with (map height its). rewrite Hh. reflexivity.
Qed.

(** One pass of the scenario, up to the key dispatch. *)
Lemma ready_pass platform hdr tr w h cp its s d rest :
  roomy hdr tr w h ->
  map height its = [1; 1; 1] ->
  0 <= cp <= 2 ->
  ready w h (h - Z.of_nat (List.length (header_lines_of hdr)) - 3) cp its s ->
  get_key platform (stdin s) = Some (d, rest) ->
  exists s1,
    vars s1 = (w, h, h - Z.of_nat (List.length (header_lines_of hdr)) - 3,
               Some (mkItemRange 0 2 3), 0, cp, its) /\
    stdin s1 = rest /\
    loop_body platform 0 tr (header_lines_of hdr) (w, h) s
    = match d with
      | Pressed key => apply_key platform 0 key s1
      | Interrupt => Raise KeyboardInterrupt s1
      end.
Proof.
  intros [Htall Hwide] Hh Hcp Hready Hkey.
  set (hl := header_lines_of hdr) in *.
  set (u := h - Z.of_nat (List.length hl) - 3) in *.
  assert (Hlen : Z.of_nat (List.length its) = 3).
  { rewrite <- (length_map height), Hh. reflexivity. }
  assert (Hmeasure : exists sm,
             measure platform 0 tr hl (w, h) s = Ok false sm /\
             vars sm = (w, h, u, Some (mkItemRange 0 2 3), 0, cp, its) /\
             stdin sm = stdin s).
  { destruct Hready as [[Hv ->] | Hv].
    - assert (Eit : items s = its) by (unfold vars in Hv; congruence).
      assert (Evr : visible_range s = None) by (unfold vars in Hv; congruence).
      assert (Ecp : current_position s = 0) by (unfold vars in Hv; congruence).
      destruct (measure_first platform 0 tr hl w h s (mkItemRange 0 2 3)
                  (Some (mkItemRange 0 2 3))) as (sm & Hm & Hvm & Him).
      + unfold vars in Hv. intros Hsize.
        assert (terminal_height s = 0) by congruence.
        assert (terminal_height s = h) by congruence. lia.
      + intros Htr. destruct (Hwide Htr) as [Hw Hall].
        destruct (py_max (map py_strlen hl)) as [ mh | ] eqn:Emh.
        * exists mh, 1. split; [ reflexivity | ]. rewrite Eit.
          split; [ apply three_lines_item_len; exact Hh | ].
          assert (mh <= w).
          { eapply py_max_bound; [ exact Emh | ].
            apply (proj2 (Forall_map py_strlen (fun z => z <= w) hl)). exact Hall. }
          lia.
        * exfalso. unfold hl, header_lines_of in Emh. rewrite map_app in Emh.
          exact (py_max_snoc _ _ Emh).
      + rewrite Eit. apply three_lines_backward; [ exact Hh | lia ].
      + simpl; lia.
      + rewrite Evr, Ecp, Eit. apply three_lines_forward; [ exact Hh | lia ].
      + exists sm. split; [ exact Hm | ]. split; [ | exact Him ].
        rewrite Hvm, Ecp, Eit. reflexivity.
    - exists s. split; [ | split; [ exact Hv | reflexivity ] ].
      assert (Etw : terminal_width s = w) by (unfold vars in Hv; congruence).
      assert (Eth : terminal_height s = h) by (unfold vars in Hv; congruence).
      rewrite <- Etw, <- Eth. apply measure_steady. }
  destruct Hmeasure as (sm & Hm & Hvm & Him).
  assert (Eit : items sm = its) by (unfold vars in Hvm; congruence).
  assert (Evr : visible_range sm = Some (mkItemRange 0 2 3))
    by (unfold vars in Hvm; congruence).
  assert (Ecp : current_position sm = cp) by (unfold vars in Hvm; congruence).
  destruct (pass_runs platform 0 tr hl (w, h) s sm (mkItemRange 0 2 3) d rest Hm)
    as (s1 & Hv1 & Hi1 & Hbody).
  - rewrite Eit. apply three_lines_heights_ok; exact Hh.
  - exact Evr.
  - simpl; lia.
  - rewrite Eit, Hlen. simpl; lia.
  - rewrite Ecp. simpl; lia.
  - rewrite Him. exact Hkey.
  - exists s1. split; [ congruence | ]. split; [ exact Hi1 | exact Hbody ].
Qed.

Lemma get_key_DOWN p rest :
  get_key p (raw_DOWN p ++ rest) = Some (Pressed (KStr "DOWN"), rest).
Proof. destruct p; reflexivity. Qed.

Lemma get_key_SPACE p rest :
  get_key p (SPACE_BYTE ++ rest) = Some (Pressed (KStr "SPACE"), rest).
Proof. destruct p; reflexivity. Qed.

Lemma get_key_ENTER p rest :
  get_key p (ENTER_BYTE ++ rest) = Some (Pressed (KStr "ENTER"), rest).
Proof. destruct p; reflexivity. Qed.

Lemma get_key_interrupt p rest :
  get_key p (ASCII_ETX :: rest) = Some (Interrupt, rest).
Proof. destruct p; reflexivity. Qed.

Ltac vars_fields H :=
  unfold vars in H |- *;
  cbn [terminal_width terminal_height usable_height visible_range scroll_max
       current_position items stdin stdout set_terminal_size set_usable_height
       set_visible_range set_scroll_max set_current_position set_items set_stdin
       add_stdout] in H |- *;
  let E1 := fresh "Etw" in
  let E2 := fresh "Eth" in
  let E3 := fresh "Eu" in
  let E4 := fresh "Evr" in
  let E5 := fresh "Esm" in
  let E6 := fresh "Ecp" in
  let E7 := fresh "Eit" in
  injection H as E1 E2 E3 E4 E5 E6 E7;
  rewrite ?E1, ?E2, ?E3, ?E4, ?E5, ?E6, ?E7.

Section Scenario.

Variable platform : Platform.
Variable hdr : string.
Variable tr : bool.
Variables w h : Z.
Hypothesis Hroomy : roomy hdr tr w h.

Let hl := header_lines_of hdr.
Let u := h - Z.of_nat (List.length hl) - 3.

Lemma scenario_down cp its s rest :
  map height its = [1; 1; 1] -> 0 <= cp < 2 ->
  ready w h u cp its s ->
  stdin s = raw_DOWN platform ++ rest ->
  exists s',
    loop_body platform 0 tr hl (w, h) s = Ok Continue s' /\
    ready w h u (cp + 1) its s' /\ stdin s' = rest.
Proof.
  intros Hh Hcp Hready Hin.
  destruct (ready_pass platform hdr tr w h cp its s (Pressed (KStr "DOWN")) rest
              Hroomy Hh ltac:(lia) Hready) as (s1 & Hv1 & Hi1 & Hbody).
  { rewrite Hin. apply get_key_DOWN. }
  assert (Evr : visible_range s1 = Some (mkItemRange 0 2 3))
    by (unfold vars in Hv1; congruence).
  assert (Ecp : current_position s1 = cp) by (unfold vars in Hv1; congruence).
  assert (Eit : items s1 = its) by (unfold vars in Hv1; congruence).
  unfold hl, u in *.
  rewrite (apply_key_DOWN_inside platform 0 s1 (mkItemRange 0 2 3) Evr) in Hbody.
  - eexists; split; [ exact Hbody | ]. split; [ | exact Hi1 ].
    right. rewrite Ecp, Eit.
    assert (Hlen : Z.of_nat (List.length its) = 3).
    { rewrite <- (length_map height), Hh. reflexivity. }
    rewrite Hlen, Z.mod_small by lia.
    clear Evr Ecp Eit. vars_fields Hv1. reflexivity.
  - rewrite Ecp. simpl. lia.
  - rewrite Eit. destruct its; [ discriminate | discriminate ].
Qed.

Lemma scenario_space s rest :
  ready w h u 2 (prepared abc) s ->
  stdin s = SPACE_BYTE ++ rest ->
  exists s',
    loop_body platform 0 tr hl (w, h) s = Ok Continue s' /\
    ready w h u 2 abc_C_checked s' /\ stdin s' = rest.
Proof.
  intros Hready Hin.
  destruct (ready_pass platform hdr tr w h 2 (prepared abc) s
              (Pressed (KStr "SPACE")) rest Hroomy eq_refl ltac:(lia) Hready)
    as (s1 & Hv1 & Hi1 & Hbody).
  { rewrite Hin. apply get_key_SPACE. }
  assert (Ecp : current_position s1 = 2) by (unfold vars in Hv1; congruence).
  assert (Eit : items s1 = prepared abc) by (unfold vars in Hv1; congruence).
  unfold hl, u in *.
  rewrite (apply_key_SPACE platform 0 s1 (new_ChecklistItem "C" false (PyInt 2)))
    in Hbody.
  - eexists; split; [ exact Hbody | ]. split; [ | exact Hi1 ].
    right. rewrite Ecp, Eit.
    clear Ecp Eit. unfold ready. vars_fields Hv1. reflexivity.
  - lia.
  - rewrite Ecp, Eit. reflexivity.
Qed.

Lemma scenario_enter cp its s rest :
  map height its = [1; 1; 1] -> 0 <= cp <= 2 ->
  ready w h u cp its s ->
  stdin s = ENTER_BYTE ++ rest ->
  exists s',
    loop_body platform 0 tr hl (w, h) s = Ok Break s' /\ items s' = its.
Proof.
  intros Hh Hcp Hready Hin.
  destruct (ready_pass platform hdr tr w h cp its s (Pressed (KStr "ENTER")) rest
              Hroomy Hh Hcp Hready) as (s1 & Hv1 & Hi1 & Hbody).
  { rewrite Hin. apply get_key_ENTER. }
  unfold hl, u in *.
  exists s1. split; [ rewrite Hbody; reflexivity | ].
  unfold vars in Hv1; congruence.
Qed.

Lemma scenario_cancel cp its s d rest :
  map height its = [1; 1; 1] -> 0 <= cp <= 2 ->
  ready w h u cp its s ->
  get_key platform (stdin s) = Some (d, rest) ->
  d = Interrupt \/ d = Pressed (KStr "ESCAPE") ->
  exists s', loop_body platform 0 tr hl (w, h) s = Raise KeyboardInterrupt s'.
Proof.
  intros Hh Hcp Hready Hkey Hd.
  destruct (ready_pass platform hdr tr w h cp its s d rest
              Hroomy Hh Hcp Hready Hkey) as (s1 & Hv1 & Hi1 & Hbody).
  unfold hl, u in *.
  exists s1. rewrite Hbody. destruct Hd as [-> | ->]; reflexivity.
Qed.

(** After the first [j] keys of DOWN, DOWN, SPACE the loop stands between
    two passes with the cursor [j] items down (at most 2) and, after the
    third, "C" checked. *)
Lemma scenario_prefix (j : nat) :
  (j <= 3)%nat ->
  forall rest sizes,
  exists s,
    main_loop platform 0 tr hl (repeat (w, h) j ++ sizes)
      (scenario_start (keys_before platform j ++ rest))
    = main_loop platform 0 tr hl sizes s /\
    ready w h u (Z.min (Z.of_nat j) 2)
      (if Nat.eqb j 3 then abc_C_checked else prepared abc) s /\
    stdin s = rest.
Proof.
  induction j as [ | j IH ]; intros Hj rest sizes.
  - exists (scenario_start rest). split; [ reflexivity | ].
    split; [ left; split; reflexivity | reflexivity ].
  - assert (Hkeys : exists key,
               keys_before platform (S j) = keys_before platform j ++ key /\
               (key = raw_DOWN platform /\ (j <= 1)%nat \/ key = SPACE_BYTE /\ j = 2%nat)).
    { destruct j as [ | [ | [ | j ] ] ]; [ | | | lia ].
      - exists (raw_DOWN platform). split; [ | left; split; [ reflexivity | lia ] ].
        unfold keys_before; simpl. rewrite app_nil_r. reflexivity.
      - exists (raw_DOWN platform). split; [ | left; split; [ reflexivity | lia ] ].
        unfold keys_before; simpl. rewrite !app_nil_r. reflexivity.
      - exists SPACE_BYTE. split; [ | right; split; reflexivity ].
        unfold keys_before; simpl. rewrite !app_nil_r, <- !app_assoc. reflexivity. }
    destruct Hkeys as (key & Hk & Hcase).
    destruct (IH ltac:(lia) (key ++ rest) ((w, h) :: sizes)) as (s & Hrun & Hready & Hin).
    replace (repeat (w, h) (S j) ++ sizes) with (repeat (w, h) j ++ (w, h) :: sizes).
    2:{ change ((w, h) :: sizes) with ([(w, h)] ++ sizes).
        rewrite app_assoc. f_equal. rewrite <- repeat_cons. reflexivity. }
    rewrite Hk, <- app_assoc, Hrun, main_loop_cons.
    destruct Hcase as [[-> Hj1] | [-> ->]].
    + assert (Hne : Nat.eqb j 3 = false) by (apply Nat.eqb_neq; lia).
      rewrite Hne in Hready.
      destruct (scenario_down (Z.min (Z.of_nat j) 2) (prepared abc) s rest
                  eq_refl ltac:(lia) Hready Hin) as (s' & Hbody & Hready' & Hin').
      rewrite Hbody. exists s'. split; [ reflexivity | ]. split; [ | exact Hin' ].
      assert (Hne' : Nat.eqb (S j) 3 = false) by (apply Nat.eqb_neq; lia).
      rewrite Hne'.
      replace (Z.min (Z.of_nat (S j)) 2) with (Z.min (Z.of_nat j) 2 + 1) by lia.
      exact Hready'.
    + simpl in Hready.
      destruct (scenario_space s rest Hready Hin) as (s' & Hbody & Hready' & Hin').
      rewrite Hbody. exists s'. split; [ reflexivity | ]. split; [ | exact Hin' ].
      exact Hready'.
Qed.

End Scenario.

Lemma render_error_cancels platform message s d rest :
  get_key platform (stdin s) = Some (d, rest) ->
  d = Interrupt \/ d = Pressed (KStr "ESCAPE") ->
  exists s', render_error platform message s = Raise KeyboardInterrupt s'.
Proof.
  intros Hkey Hd. unfold render_error, term, modify, bind, read_key.
  cbn [stdin add_stdout]. rewrite Hkey.
  destruct Hd as [-> | ->]; eexists; reflexivity.
Qed.

Lemma scenario_tui platform hdr tr sizes input :
  tui_checklist platform abc (Some hdr) 0 tr sizes input
  = finish (main_loop platform 0 tr (header_lines_of hdr) sizes (scenario_start input)).
Proof. reflexivity. Qed.

(** C5, as the code keeps it.  ENTER ends the loop and the call returns
    the tags of the items checked at that moment, in list order; ESCAPE
    at the key dispatch, ESCAPE at the notice of a too small viewport,
    and the interrupt byte at either read raise KeyboardInterrupt, which
    the call turns into None, whatever has been toggled.  In the
    scenario of the three items "A", "B", "C" with margin 0, on either
    platform, under any header that is given and in any terminal with
    three usable rows that passes the width check (with truncation off,
    as wide as every header line, the instruction line among them),
    DOWN, DOWN, SPACE, ENTER returns [2]; cut short after any number of
    those keys by the interrupt byte, or on Windows by the escape byte,
    the call returns None. *)
Theorem confirm_returns_checked_tags_cancel_returns_none :
  (forall platform m s, apply_key platform m (KStr "ENTER") s = Ok Break s) /\
  (forall platform m tr hl size sizes s s',
      loop_body platform m tr hl size s = Ok Break s' ->
      fst (finish (main_loop platform m tr hl (size :: sizes) s))
      = Returned (Some (map tag (filter checked (items s'))))) /\
  (forall platform m s,
      apply_key platform m (KStr "ESCAPE") s = Raise KeyboardInterrupt s) /\
  (forall platform message s d rest,
      get_key platform (stdin s) = Some (d, rest) ->
      d = Interrupt \/ d = Pressed (KStr "ESCAPE") ->
      exists s', render_error platform message s = Raise KeyboardInterrupt s') /\
  (forall platform s rest,
      get_key platform (stdin s) = Some (Interrupt, rest) ->
      read_key platform s = Raise KeyboardInterrupt (set_stdin rest s)) /\
  (forall platform m tr hl size sizes s s',
      loop_body platform m tr hl size s = Raise KeyboardInterrupt s' ->
      fst (finish (main_loop platform m tr hl (size :: sizes) s)) = Returned None) /\
  (forall platform hdr tr w h more,
      roomy hdr tr w h ->
      fst (tui_checklist platform abc (Some hdr) 0 tr (repeat (w, h) 4 ++ more)
             (raw_DOWN platform ++ raw_DOWN platform ++ SPACE_BYTE ++ ENTER_BYTE))
      = Returned (Some [PyInt 2])) /\
  (forall platform hdr tr w h more k,
      roomy hdr tr w h -> (k <= 3)%nat ->
      fst (tui_checklist platform abc (Some hdr) 0 tr (repeat (w, h) k ++ (w, h) :: more)
             (keys_before platform k ++ [ASCII_ETX]))
      = Returned None) /\
  (forall hdr tr w h more k,
      roomy hdr tr w h -> (k <= 3)%nat ->
      fst (tui_checklist Win32 abc (Some hdr) 0 tr (repeat (w, h) k ++ (w, h) :: more)
             (keys_before Win32 k ++ ESC_BYTE))
      = Returned None).
Proof.
  repeat apply conj.
  - reflexivity.
  - intros platform m tr hl size sizes s s' H.
    rewrite main_loop_cons, H. reflexivity.
  - reflexivity.
  - apply render_error_cancels.
  - intros platform s rest H. unfold read_key. rewrite H. reflexivity.
  - intros platform m tr hl size sizes s s' H.
    rewrite main_loop_cons, H. reflexivity.
  - intros platform hdr tr w h more Hroomy.
    rewrite scenario_tui.
    destruct (scenario_prefix platform hdr tr w h Hroomy 3 ltac:(lia)
                ENTER_BYTE ((w, h) :: more)) as (s & Hrun & Hready & Hin).
    change (repeat (w, h) 4 ++ more) with (repeat (w, h) 3 ++ (w, h) :: more).
    replace (raw_DOWN platform ++ raw_DOWN platform ++ SPACE_BYTE ++ ENTER_BYTE)
      with (keys_before platform 3 ++ ENTER_BYTE).
    2:{ unfold keys_before; cbn [firstn List.concat].
        rewrite app_nil_r, <- !app_assoc. reflexivity. }
    rewrite Hrun, main_loop_cons.
    destruct (scenario_enter platform hdr tr w h Hroomy 2 abc_C_checked s []
                eq_refl ltac:(lia) Hready)
      as (s' & Hbody & Hitems).
    { rewrite Hin. reflexivity. }
    rewrite Hbody. simpl. unfold checked_tags. rewrite Hitems. reflexivity.
  - intros platform hdr tr w h more k Hroomy Hk.
    rewrite scenario_tui.
    destruct (scenario_prefix platform hdr tr w h Hroomy k Hk
                [ASCII_ETX] ((w, h) :: more)) as (s & Hrun & Hready & Hin).
    rewrite Hrun, main_loop_cons.
    destruct (scenario_cancel platform hdr tr w h Hroomy (Z.min (Z.of_nat k) 2)
                (if Nat.eqb k 3 then abc_C_checked else prepared abc) s Interrupt [])
      as (s' & Hbody); auto; try lia.
    + destruct (Nat.eqb k 3); reflexivity.
    + rewrite Hin. apply get_key_interrupt.
    + rewrite Hbody. reflexivity.
  - intros hdr tr w h more k Hroomy Hk.
    rewrite scenario_tui.
    destruct (scenario_prefix Win32 hdr tr w h Hroomy k Hk
                ESC_BYTE ((w, h) :: more)) as (s & Hrun & Hready & Hin).
    rewrite Hrun, main_loop_cons.
    destruct (scenario_cancel Win32 hdr tr w h Hroomy (Z.min (Z.of_nat k) 2)
                (if Nat.eqb k 3 then abc_C_checked else prepared abc) s
                (Pressed (KStr "ESCAPE")) [])
      as (s' & Hbody); auto; try lia.
    + destruct (Nat.eqb k 3); reflexivity.
    + rewrite Hin. reflexivity.
    + rewrite Hbody. reflexivity.
Qed.

Lemma roomy_120_24 : roomy "h" false 120 24.
Proof.
  split; [ vm_compute; discriminate | ].
  intros _. split; [ lia | ].
  repeat constructor; vm_compute; discriminate.
Defined.

Lemma confirm_returns_checked_tags_cancel_returns_none_witness :
  fst (tui_checklist Unix abc (Some "h") 0 false (repeat (120, 24) 4 ++ [])
         (raw_DOWN Unix ++ raw_DOWN Unix ++ SPACE_BYTE ++ ENTER_BYTE))
  = Returned (Some [PyInt 2]) /\
  fst (tui_checklist Unix abc (Some "h") 0 false (repeat (120, 24) 3 ++ [(120, 24)])
         (keys_before Unix 3 ++ [ASCII_ETX]))
  = Returned None.
Proof.
  pose proof confirm_returns_checked_tags_cancel_returns_none
    as (_ & _ & _ & _ & _ & _ & Hconfirm & Hcancel & _).
  split.
  - apply Hconfirm. exact roomy_120_24.
  - apply Hcancel; [ exact roomy_120_24 | lia ].
Defined.

(** C5, as stated, fails three times in its own scenario.  On Unix the
    escape byte after DOWN, DOWN, SPACE does not cancel: it is read
    together with the next byte as an unknown key, and the ENTER after
    it returns [2].  With the header left out the call raises
    AttributeError.  And at 80 columns with truncation off every pass
    stops at the width check, whose notice uses up the four keys: the
    call is still running when they are gone. *)
Lemma confirm_cancel_counterexample :
  fst (tui_checklist Unix abc (Some "h") 0 false (repeat (120, 24) 5)
         (raw_DOWN Unix ++ raw_DOWN Unix ++ SPACE_BYTE ++ ESC_BYTE
          ++ ENTER_BYTE ++ ENTER_BYTE))
  = Returned (Some [PyInt 2]) /\
  fst (tui_checklist Win32 abc None 0 false (repeat (120, 24) 4)
         (raw_DOWN Win32 ++ raw_DOWN Win32 ++ SPACE_BYTE ++ ENTER_BYTE))
  = Raised AttributeError /\
  fst (tui_checklist Win32 abc (Some "h") 0 false (repeat (80, 24) 5)
         (raw_DOWN Win32 ++ raw_DOWN Win32 ++ SPACE_BYTE ++ ENTER_BYTE))
  = Running.
Proof.
  repeat split; vm_compute; reflexivity.
Qed.

(** * Further properties *)

Lemma win_frames input d rest :
  win_get_key input = Some (d, rest) ->
  exists consumed,
    input = consumed ++ rest /\
    (1 <= List.length consumed <= 2)%nat /\
    (forall more, win_get_key (consumed ++ more) = Some (d, more)) /\
    (d = Interrupt <-> consumed = [WIN_CTRL_C]) /\
    d <> Pressed KNone /\
    (forall b, d = Pressed (KBytes b) -> list_ascii_of_string b = consumed) /\
    (forall name, d = Pressed (KStr name) ->
       In name ["UP"; "DOWN"; "PGUP"; "PGDN"; "HOME"; "END"; "SPACE"; "ENTER"; "ESCAPE"]).
Proof.
  destruct input as [ | c input ]; [ discriminate | ].
  unfold win_get_key; cbv beta iota.
  destruct (Ascii.eqb c WIN_CTRL_C) eqn:Ec.
  - intros [= <- <-]. apply Ascii.eqb_eq in Ec. subst c.
    exists [WIN_CTRL_C]. repeat split; simpl; try lia; try discriminate; auto.
  - destruct (existsb (Ascii.eqb c) WIN_ESC_PREFIXES) eqn:Ep.
    + destruct input as [ | c2 input ]; [ discriminate | ].
      destruct (dict_get WIN_ESCAPED_MAPPING (str1 c2)) as [ name | ] eqn:En;
        intros [= <- <-]; exists [c; c2];
        (split; [ reflexivity | ]); (split; [ simpl; lia | ]);
        (split; [ intros more; cbn [app]; rewrite Ec, Ep, En; reflexivity | ]).
      * repeat split; try discriminate.
        intros name' [= <-]. revert En.
        unfold WIN_ESCAPED_MAPPING, dict_get, str1.
        repeat match goal with
               | |- context [String.eqb ?a ?b] => destruct (String.eqb a b)
               end; intros [= <-]; simpl; tauto.
      * repeat split; try discriminate.
        intros b [= <-]. reflexivity.
    + assert (Hne : [c] <> [WIN_CTRL_C]).
      { intros [= ->]. rewrite Ascii.eqb_refl in Ec. discriminate. }
      destruct (dict_get WIN_NORMAL_MAPPING (str1 c)) as [ name | ] eqn:En;
        intros [= <- <-]; exists [c];
        (split; [ reflexivity | ]); (split; [ simpl; lia | ]);
        (split; [ intros more; cbn [app]; rewrite Ec, Ep, En; reflexivity | ]).
      * repeat split; try discriminate; try (intros; contradiction).
        intros name' [= <-]. revert En.
        unfold WIN_NORMAL_MAPPING, dict_get, str1.
        repeat match goal with
               | |- context [String.eqb ?a ?b] => destruct (String.eqb a b)
               end; intros [= <-]; simpl; tauto.
      * repeat split; try discriminate; try (intros; contradiction).
        intros b [= <-]. reflexivity.
Qed.

Lemma win_blocks input :
  win_get_key input = None ->
  input = [] \/ exists c, input = [c] /\ In c WIN_ESC_PREFIXES.
Proof.
  destruct input as [ | c input ]; [ auto | ].
  unfold win_get_key; cbv beta iota.
  destruct (Ascii.eqb c WIN_CTRL_C); [ discriminate | ].
  destruct (existsb (Ascii.eqb c) WIN_ESC_PREFIXES) eqn:Ep; [ | discriminate ].
  destruct input; [ | discriminate ].
  intros _. right. exists c. split; [ reflexivity | ].
  apply existsb_exists in Ep as (x & Hin & Hx).
  apply Ascii.eqb_eq in Hx. subst x. exact Hin.
Qed.

(** X1. The Windows decoder frames its input without looking ahead.  When
    it answers, it has taken one byte, or two when the first is a prefix
    byte (0x00 or 0xE0), and the answer does not depend on what follows;
    it is the interrupt exactly for the single byte 0x03, it is never
    the unknown key, a bytes answer is the bytes taken, and a name is
    one of the nine the key dispatch tests.  It is left waiting only by
    no input or by a prefix byte alone. *)
Theorem win_get_key_frames input :
  match win_get_key input with
  | Some (d, rest) =>
      exists consumed,
        input = consumed ++ rest /\
        (1 <= List.length consumed <= 2)%nat /\
        (forall more, win_get_key (consumed ++ more) = Some (d, more)) /\
        (d = Interrupt <-> consumed = [WIN_CTRL_C]) /\
        d <> Pressed KNone /\
        (forall b, d = Pressed (KBytes b) -> list_ascii_of_string b = consumed) /\
        (forall name, d = Pressed (KStr name) ->
           In name ["UP"; "DOWN"; "PGUP"; "PGDN"; "HOME"; "END"; "SPACE"; "ENTER"; "ESCAPE"])
  | None => input = [] \/ exists c, input = [c] /\ In c WIN_ESC_PREFIXES
  end.
Proof.
  destruct (win_get_key input) as [ [d rest] | ] eqn:E.
  - apply win_frames; exact E.
  - apply win_blocks; exact E.
Qed.

(** *** Unix *)

Lemma UNIX_TERM_MAPPING_is_both :
  UNIX_TERM_MAPPING = UNIX_VT_MAPPING ++ UNIX_XTERM_MAPPING.
Proof. vm_compute; reflexivity. Qed.

Lemma dict_get_In {V : Type} (d : dict V) k v : dict_get d k = Some v -> In (k, v) d.
Proof.
  induction d as [ | [k' v'] d IH ]; simpl; [ discriminate | ].
  destruct (String.eqb k k') eqn:E.
  - apply String.eqb_eq in E. intros [= ->]. left; congruence.
  - intros H; right; auto.
Qed.

Lemma dict_get_default_In {V : Type} (d : dict V) k default v :
  dict_get_default d k default = v -> v <> default -> In (k, v) d.
Proof.
  unfold dict_get_default. destruct (dict_get d k) as [ v' | ] eqn:E.
  - intros <- _. apply dict_get_In; exact E.
  - intros <- H; congruence.
Qed.

Lemma unix_names_not_ESCAPE :
  Forall (fun kv => forall name, snd kv = Some name -> unbound_on_unix name = false)
    (UNIX_VT_MAPPING ++ UNIX_XTERM_MAPPING).
Proof.
  repeat constructor; cbn [snd]; intros name [= <-]; reflexivity.
Qed.

Lemma unix_read_sequence_step n sequence c input :
  unix_read_sequence (S n) sequence (c :: input)
  = match dict_get_default UNIX_TERM_MAPPING (String.append sequence (str1 c)) (Some "") with
    | Some "" => unix_read_sequence n (String.append sequence (str1 c)) input
    | Some name => Some (Pressed (KStr name), input)
    | None => Some (Pressed KNone, input)
    end.
Proof. reflexivity. Qed.

Lemma unix_read_sequence_frames :
  forall (n : nat) (sequence : string) (input : list ascii) d rest,
    unix_read_sequence n sequence input = Some (d, rest) ->
    exists consumed,
      input = consumed ++ rest /\
      (List.length consumed <= n)%nat /\
      (forall more, unix_read_sequence n sequence (consumed ++ more) = Some (d, more)) /\
      (d = Pressed KNone \/
       exists name, d = Pressed (KStr name) /\ unbound_on_unix name = false).
Proof.
  induction n as [ | n IH ]; intros sequence input d rest.
  - intros [= <- <-]. exists []. repeat split; auto.
  - destruct input as [ | c input ]; [ discriminate | ].
    rewrite unix_read_sequence_step.
    destruct (dict_get_default UNIX_TERM_MAPPING (sequence ++ str1 c) (Some ""))
      as [ [ | a name ] | ] eqn:E.
    + intros H. apply IH in H as (consumed & -> & Hlen & Hmore & Hd).
      exists (c :: consumed). split; [ reflexivity | ].
      split; [ simpl; lia | ].
      split; [ | exact Hd ].
      intros more. rewrite <- app_comm_cons, unix_read_sequence_step, E. apply Hmore.
    + intros [= <- <-]. exists [c]. split; [ reflexivity | ].
      split; [ simpl; lia | ].
      split; [ intros more; cbn [app]; rewrite unix_read_sequence_step, E; reflexivity | ].
      right. eexists; split; [ reflexivity | ].
      apply dict_get_default_In in E; [ | discriminate ].
      rewrite UNIX_TERM_MAPPING_is_both in E.
      pose proof unix_names_not_ESCAPE as Hall. rewrite Forall_forall in Hall.
      exact (Hall _ E _ eq_refl).
    + intros [= <- <-]. exists [c]. split; [ reflexivity | ].
      split; [ simpl; lia | ].
      split; [ intros more; cbn [app]; rewrite unix_read_sequence_step, E; reflexivity | ].
      left; reflexivity.
Qed.

Lemma unix_frames input d rest :
  unix_get_key input = Some (d, rest) ->
  exists consumed,
    input = consumed ++ rest /\
    (1 <= List.length consumed <= 5)%nat /\
    (forall more, unix_get_key (consumed ++ more) = Some (d, more)) /\
    (d = Interrupt <-> consumed = [UNIX_CTRL_C]) /\
    (forall b, d <> Pressed (KBytes b)) /\
    (forall name, d = Pressed (KStr name) -> unbound_on_unix name = false) /\
    (forall c, hd_error consumed = Some c -> c <> UNIX_ANSI_ESC -> consumed = [c]).
Proof.
  destruct input as [ | c input ]; [ discriminate | ].
  unfold unix_get_key; cbv beta iota.
  destruct (Ascii.eqb c UNIX_CTRL_C) eqn:Ec.
  - intros [= <- <-]. apply Ascii.eqb_eq in Ec. subst c.
    exists [UNIX_CTRL_C]. repeat split; simpl; try lia; try discriminate; auto.
    intros c [= <-] _; reflexivity.
  - assert (Hne : [c] <> [UNIX_CTRL_C]).
    { intros [= ->]. rewrite Ascii.eqb_refl in Ec. discriminate. }
    destruct (Ascii.eqb c UNIX_ANSI_ESC) eqn:Ee.
    + apply Ascii.eqb_eq in Ee. subst c.
      destruct input as [ | p input ]; [ discriminate | ].
      destruct (Ascii.eqb p UNIX_CSI_PREFIX || Ascii.eqb p UNIX_SS3_PREFIX) eqn:Ep.
      * intros H. apply unix_read_sequence_frames in H
          as (consumed & -> & Hlen & Hmore & Hd).
        exists (UNIX_ANSI_ESC :: p :: consumed).
        split; [ reflexivity | ]. split; [ simpl; lia | ].
        split; [ intros more; cbn [app]; rewrite Ep; apply Hmore | ].
        split; [ split; [ intros ->; destruct Hd as [ | (? & ? & _) ]; discriminate
                        | intros [=] ] | ].
        split; [ intros b ->; destruct Hd as [ | (? & ? & _) ]; discriminate | ].
        split; [ intros name ->; destruct Hd as [ | (? & [= <-] & ?) ];
                 [ discriminate | assumption ] | ].
        intros c [= <-]. congruence.
      * intros [= <- <-]. exists [UNIX_ANSI_ESC; p].
        split; [ reflexivity | ]. split; [ simpl; lia | ].
        split; [ intros more; cbn [app]; rewrite Ep; reflexivity | ].
        repeat split; try discriminate.
        intros c [= <-]. congruence.
    + set (name := dict_get_default UNIX_NORMAL_MAPPING (str1 c) (str1 c)).
      assert (Hname : unbound_on_unix name = false).
      { subst name. unfold dict_get_default, UNIX_NORMAL_MAPPING, dict_get, str1.
        repeat match goal with
               | |- context [String.eqb ?a ?b] => destruct (String.eqb a b) eqn:?
               end; try reflexivity.
        - apply String.eqb_eq in Heqb1. injection Heqb1 as ->.
          rewrite Ascii.eqb_refl in Ee. discriminate.
        - unfold unbound_on_unix. cbn [String.eqb].
          repeat match goal with
                 | |- context [Ascii.eqb c ?x] => destruct (Ascii.eqb c x)
                 end; reflexivity. }
      intros [= <- <-]. exists [c].
      split; [ reflexivity | ]. split; [ simpl; lia | ].
      split; [ intros more; cbn [app]; rewrite Ec, Ee; reflexivity | ].
      repeat split; try discriminate; try (intros; contradiction).
      * intros name0 [= <-]. exact Hname.
      * intros c0 [= <-] _; reflexivity.
Qed.

Lemma unix_read_sequence_blocks :
  forall (n : nat) (sequence : string) (input : list ascii),
    unix_read_sequence n sequence input = None -> (List.length input < n)%nat.
Proof.
  induction n as [ | n IH ]; intros sequence input; [ discriminate | ].
  destruct input as [ | c input ]; [ simpl; lia | ].
  rewrite unix_read_sequence_step.
  destruct (dict_get_default UNIX_TERM_MAPPING (sequence ++ str1 c) (Some ""))
    as [ [ | a name ] | ]; try discriminate.
  intros H. apply IH in H. simpl; lia.
Qed.

Lemma unix_blocks input :
  unix_get_key input = None ->
  input = [] \/
  exists tl, input = UNIX_ANSI_ESC :: tl /\ (List.length tl <= 3)%nat.
Proof.
  destruct input as [ | c input ]; [ auto | ].
  unfold unix_get_key; cbv beta iota.
  destruct (Ascii.eqb c UNIX_CTRL_C); [ discriminate | ].
  destruct (Ascii.eqb c UNIX_ANSI_ESC) eqn:Ee; [ | discriminate ].
  apply Ascii.eqb_eq in Ee. subst c.
  destruct input as [ | p input ].
  - intros _. right. exists []. split; [ reflexivity | simpl; lia ].
  - destruct (_ || _); [ | discriminate ].
    intros H. apply unix_read_sequence_blocks in H.
    right. exists (p :: input). split; [ reflexivity | simpl; lia ].
Qed.

(** X2. The Unix decoder frames its input without looking ahead.  When
    it answers, it has taken between one and five characters, just one
    when the first is not the escape character, and the answer does not
    depend on what follows; it is the interrupt exactly for the single
    character 0x03, it is never a bytes value, and it is never one of
    the names PGUP, PGDN and ESCAPE that the key dispatch tests.  It is
    left waiting only by no input or by an escape followed by at most
    three characters. *)
Theorem unix_get_key_frames input :
  match unix_get_key input with
  | Some (d, rest) =>
      exists consumed,
        input = consumed ++ rest /\
        (1 <= List.length consumed <= 5)%nat /\
        (forall more, unix_get_key (consumed ++ more) = Some (d, more)) /\
        (d = Interrupt <-> consumed = [UNIX_CTRL_C]) /\
        (forall b, d <> Pressed (KBytes b)) /\
        (forall name, d = Pressed (KStr name) -> unbound_on_unix name = false) /\
        (forall c, hd_error consumed = Some c -> c <> UNIX_ANSI_ESC -> consumed = [c])
  | None =>
      input = [] \/
      exists tl, input = UNIX_ANSI_ESC :: tl /\ (List.length tl <= 3)%nat
  end.
Proof.
  destruct (unix_get_key input) as [ [d rest] | ] eqn:E.
  - apply unix_frames; exact E.
  - apply unix_blocks; exact E.
Qed.

(** X3. Every entry of the VT and xterm tables is decoded: escape, then
    the CSI prefix or the SS3 prefix, then the sequence of the entry
    gives the entry's key (the unknown key for an entry mapped to
    [None]) and leaves the rest of the input untouched.  No entry is
    shadowed by a shorter one, and both prefixes select the same
    table. *)
Theorem unix_table_entries_decode :
  forall sequence v prefix rest,
    In (sequence, v) (UNIX_VT_MAPPING ++ UNIX_XTERM_MAPPING) ->
    prefix = UNIX_CSI_PREFIX \/ prefix = UNIX_SS3_PREFIX ->
    unix_get_key (UNIX_ANSI_ESC :: prefix :: list_ascii_of_string sequence ++ rest)
    = Some (Pressed (table_key v), rest).
Proof.
  intros sequence v prefix rest Hin Hp.
  simpl in Hin.
  repeat (destruct Hin as [ Hin | Hin ];
          [ injection Hin as <- <-; destruct Hp as [ -> | -> ]; reflexivity | ]).
  contradiction.
Qed.

Lemma unix_table_entries_decode_witness :
  unix_get_key (UNIX_ANSI_ESC :: UNIX_SS3_PREFIX :: list_ascii_of_string "1Q" ++ ["x"%char])
  = Some (Pressed (table_key (Some "F2")), ["x"%char]).
Proof.
  apply (unix_table_entries_decode "1Q" (Some "F2") UNIX_SS3_PREFIX ["x"%char]).
  - simpl. do 51 right. left. reflexivity.
  - right; reflexivity.
Defined.

(** ** Lines of a label *)

Lemma line_feeds_append a b :
  line_feeds (String.append a b) = line_feeds a + line_feeds b.
Proof.
  induction a as [ | c a IH ]; simpl; [ reflexivity | ].
  rewrite IH; lia.
Qed.

Lemma line_feeds_nonneg s : 0 <= line_feeds s.
Proof.
  induction s as [ | c s IH ]; simpl; [ lia | ].
  destruct (Ascii.eqb c "010"); lia.
Qed.

Lemma append_String_assoc cur c rest :
  String.append (String.append cur (String c "")) rest = String.append cur (String c rest).
Proof.
  induction cur as [ | a cur IH ]; simpl; [ reflexivity | ].
  rewrite IH; reflexivity.
Qed.

Lemma split_from_spec :
  forall s cur,
    line_feeds cur = 0 ->
    String.concat LF (split_from cur s) = String.append cur s /\
    Forall (fun line => line_feeds line = 0) (split_from cur s) /\
    Z.of_nat (List.length (split_from cur s)) = 1 + line_feeds s.
Proof.
  induction s as [ | c s IH ]; intros cur Hcur; cbn [split_from line_feeds].
  - repeat split; [ | constructor; [ exact Hcur | constructor ] ].
    induction cur as [ | a cur IHc ]; simpl; [ reflexivity | ].
    simpl in Hcur. f_equal. apply IHc.
    pose proof (line_feeds_nonneg cur). destruct (Ascii.eqb a "010"); lia.
  - destruct (Ascii.eqb c "010") eqn:Ec.
    + apply Ascii.eqb_eq in Ec. subst c.
      destruct (IH "" eq_refl) as (Hjoin & Hall & Hlen).
      split; [ | split ].
      * cbn [String.concat]. destruct (split_from "" s) eqn:E.
        { exfalso. exact (split_from_not_nil "" s E). }
        rewrite Hjoin. reflexivity.
      * constructor; assumption.
      * cbn [List.length]. lia.
    + destruct (IH (String.append cur (String c ""))) as (Hjoin & Hall & Hlen).
      { rewrite line_feeds_append. simpl. rewrite Ec. lia. }
      split; [ | split ].
      * rewrite Hjoin. apply append_String_assoc.
      * exact Hall.
      * lia.
Qed.

Lemma label_lines_no_feed l c t :
  Forall (fun line => line_feeds line = 0) (label_lines (new_ChecklistItem l c t)).
Proof.
  unfold new_ChecklistItem, py_split_lines; simpl.
  apply (split_from_spec l "" eq_refl).
Qed.

(** X4. The lines of an item are its label cut at the line feeds:
    joined by line feeds they give the label back, none of them holds a
    line feed, and the height of the item, which is also its [len], is
    one more than the number of line feeds of the label (so at least
    one, also for the empty label). *)
Theorem label_lines_round_trip :
  forall l c t,
    String.concat LF (label_lines (new_ChecklistItem l c t)) = l /\
    Forall (fun line => line_feeds line = 0) (label_lines (new_ChecklistItem l c t)) /\
    height (new_ChecklistItem l c t) = 1 + line_feeds l /\
    item_len (new_ChecklistItem l c t) = height (new_ChecklistItem l c t).
Proof.
  intros l c t. unfold new_ChecklistItem, height, item_len, py_split_lines; simpl.
  destruct (split_from_spec l "" eq_refl) as (Hjoin & Hall & Hlen).
  repeat split; assumption.
Qed.

(** ** The two comprehensions *)

Lemma make_all_nth :
  forall raw its,
    make_all raw = inr its ->
    List.length its = List.length raw /\
    forall k obj, nth_error raw k = Some obj ->
      exists item, _make_checklist_item obj = inr item /\ nth_error its k = Some item.
Proof.
  induction raw as [ | o raw IH ]; intros its; simpl.
  - intros [= <-]. split; [ reflexivity | ]. intros [ | k ]; discriminate.
  - destruct (_make_checklist_item o) as [ e | item ] eqn:E; [ discriminate | ].
    destruct (make_all raw) as [ e | rest ]; [ discriminate | ].
    intros [= <-]. destruct (IH rest eq_refl) as (Hlen & Hnth).
    split; [ simpl; congruence | ].
    intros [ | k ] obj; simpl.
    + intros [= <-]. eauto.
    + apply Hnth.
Qed.

Lemma default_tags_nth :
  forall its i k item,
    nth_error its k = Some item ->
    nth_error (default_tags i its) k
    = Some (new_ChecklistItem (label item) (checked item)
              match tag item with
              | PyNone => PyInt (i + Z.of_nat k)
              | t => t
              end).
Proof.
  induction its as [ | a its IH ]; intros i [ | k ] item; simpl; try discriminate.
  - intros [= <-]. replace (i + 0) with i by lia. reflexivity.
  - intros H. rewrite (IH (i + 1) k item H).
    replace (i + 1 + Z.of_nat k) with (i + Z.pos (Pos.of_succ_nat k)) by lia.
    reflexivity.
Qed.

Lemma default_tags_length : forall its i, List.length (default_tags i its) = List.length its.
Proof.
  induction its as [ | a its IH ]; intros i; simpl; [ reflexivity | ].
  rewrite IH; reflexivity.
Qed.

Lemma default_tags_tagged :
  forall its i, Forall (fun item => tag item <> PyNone) (default_tags i its).
Proof.
  induction its as [ | a its IH ]; intros i; simpl; constructor.
  - simpl. destruct (tag a); discriminate.
  - apply IH.
Qed.

(** X5. When every raw item converts, the prepared list has the length
    of the raw one and its [k]-th item is the conversion of the [k]-th
    raw item: the same label and checked flag, and as tag the tag given
    or, when none is given, the index [k].  No prepared item is left
    without a tag. *)
Theorem items_are_prepared_in_order :
  forall raw its,
    make_all raw = inr its ->
    List.length (default_tags 0 its) = List.length raw /\
    (forall k obj,
        nth_error raw k = Some obj ->
        exists l c t,
          recognized obj l c t /\
          nth_error (default_tags 0 its) k = Some (new_ChecklistItem l c (tag_at k t))) /\
    Forall (fun item => tag item <> PyNone) (default_tags 0 its).
Proof.
  intros raw its H.
  destruct (make_all_nth raw its H) as (Hlen & Hnth).
  split; [ rewrite default_tags_length; exact Hlen | ].
  split; [ | apply default_tags_tagged ].
  intros k obj Hk.
  destruct (Hnth k obj Hk) as (item & Hmake & Hitem).
  destruct (makes_recognized obj item Hmake) as (l & c & t & Hrec).
  exists l, c, t. split; [ exact Hrec | ].
  rewrite (recognized_makes obj l c t Hrec) in Hmake. injection Hmake as <-.
  rewrite (default_tags_nth its 0 k _ Hitem). simpl.
  destruct t; reflexivity.
Qed.

Lemma items_are_prepared_in_order_witness :
  List.length
    (default_tags 0
       [new_ChecklistItem "A" false PyNone; new_ChecklistItem "B" true (PyStr "b")])
  = List.length [PyStr "A"; PyTuple [PyStr "B"; PyBool true; PyStr "b"]] /\
  (forall k obj,
      nth_error [PyStr "A"; PyTuple [PyStr "B"; PyBool true; PyStr "b"]] k = Some obj ->
      exists l c t,
        recognized obj l c t /\
        nth_error
          (default_tags 0
             [new_ChecklistItem "A" false PyNone; new_ChecklistItem "B" true (PyStr "b")]) k
        = Some (new_ChecklistItem l c (tag_at k t))) /\
  Forall (fun item => tag item <> PyNone)
    (default_tags 0
       [new_ChecklistItem "A" false PyNone; new_ChecklistItem "B" true (PyStr "b")]).
Proof.
  apply (items_are_prepared_in_order
           [PyStr "A"; PyTuple [PyStr "B"; PyBool true; PyStr "b"]]).
  reflexivity.
Defined.

(** ** Truncation *)

Lemma strlen_append a b :
  py_strlen (String.append a b) = py_strlen a + py_strlen b.
Proof.
  unfold py_strlen. induction a as [ | c a IH ]; simpl String.length.
  - simpl. lia.
  - rewrite !Nat2Z.inj_succ. simpl String.append in IH. lia.
Qed.

Lemma strlen_prefix :
  forall (s : string) (n : nat),
    (n <= String.length s)%nat -> String.length (substring 0 n s) = n.
Proof.
  induction s as [ | c s IH ]; intros [ | n ] H; simpl in *; try reflexivity; try lia.
  rewrite IH by lia. reflexivity.
Qed.

Lemma strlen_slice_to line k :
  py_strlen (py_slice_to line k)
  = if k <? 0 then Z.max 0 (py_strlen line + k) else Z.min k (py_strlen line).
Proof.
  unfold py_slice_to, py_strlen.
  set (n := Z.of_nat (String.length line)).
  assert (Hn : 0 <= n) by (subst n; lia).
  destruct (k <? 0) eqn:Ek.
  - rewrite strlen_prefix by (subst n; lia). lia.
  - rewrite strlen_prefix by (subst n; lia). lia.
Qed.

(** X6. [truncate] changes nothing but the text.  It returns the line
    itself when truncation is off or when the line fits the width after
    the offset.  Otherwise it returns the line cut by the slice
    [line[:width - offset - 3]] followed by three dots, which ends
    exactly at the width when the width leaves room for the dots
    ([offset + 3 <= width]) and runs past the width when it does
    not. *)
Theorem truncate_fits_or_overflows :
  forall tr line offset s,
    exists text,
      truncate tr line offset s = Ok text s /\
      (tr = false \/ offset + py_strlen line <= terminal_width s -> text = line) /\
      (tr = true -> terminal_width s < offset + py_strlen line ->
       text = String.append (py_slice_to line (terminal_width s - offset - 3)) "..." /\
       (offset + 3 <= terminal_width s -> offset + py_strlen text = terminal_width s) /\
       (terminal_width s < offset + 3 -> terminal_width s < offset + py_strlen text)).
Proof.
  intros tr line offset s. unfold truncate, bind, gets, ret.
  eexists; split; [ reflexivity | ].
  destruct (offset + py_strlen line >? terminal_width s) eqn:E.
  - destruct tr; cbn [andb].
    + split; [ intros [ | ]; [ discriminate | lia ] | ].
      intros _ _. split; [ reflexivity | ].
      rewrite strlen_append, strlen_slice_to.
      change (py_strlen "...") with 3.
      destruct (terminal_width s - offset - 3 <? 0) eqn:Ek; split; intros; lia.
    + split; [ reflexivity | discriminate ].
  - rewrite andb_false_r.
    split; [ reflexivity | intros; lia ].
Qed.

(** ** [scroll_to] *)

Lemma visible_range_of_forward_total its m usable p :
  0 <= p ->
  exists r,
    visible_range_of its m usable p false = inr r /\
    forall r', r = Some r' -> first r' <= last r'.
Proof.
  intros Hp.
  destruct (Z_lt_le_dec p (Z.of_nat (List.length its))) as [Hlt | Hge].
  - destruct (py_getitem_Some its p) as [item E]; [ lia | ].
    destruct (visible_range_of_forward its m usable p item Hp E)
      as (j & Hj & Hrun & _).
    rewrite Hrun. eexists; split; [ reflexivity | ].
    destruct (j =? p - 1) eqn:Ej; [ discriminate | ].
    intros r' [= <-]. simpl. lia.
  - rewrite visible_range_of_beyond by lia.
    eexists; split; [ reflexivity | discriminate ].
Qed.

Lemma render_error_raises platform message s e s' :
  render_error platform message s = Raise e s' -> e = KeyboardInterrupt.
Proof.
  unfold render_error, term, modify, bind, read_key; cbn [stdin add_stdout].
  destruct (get_key platform (stdin s)) as [ [ [ key | ] rest ] | ]; try discriminate.
  - destruct (key_is key "ESCAPE"); [ | discriminate ].
    unfold raise. intros [= <- _]. reflexivity.
  - intros [= <- _]. reflexivity.
Qed.

Lemma scroll_to_inside platform m p s :
  0 <= p <= scroll_max s ->
  exists r,
    visible_range_of (items s) m (usable_height s) p false = inr r /\
    scroll_to platform m p s
    = match r with
      | Some _ => Ok tt (set_visible_range r s)
      | None => render_viewport_too_small_error platform (set_visible_range None s)
      end.
Proof.
  intros Hin.
  assert (Hg : (p <? 0) || (scroll_max s <? p) = false).
  { apply orb_false_iff. split; lia. }
  destruct (visible_range_of_forward_total (items s) m (usable_height s) p)
    as (r & Hscan & Hne); [ lia | ].
  exists r. split; [ exact Hscan | ].
  unfold scroll_to, get_visible_range, error_unless, bind, gets, modify.
  rewrite Hg, Hscan. cbn [lift ret].
  destruct r as [ r' | ].
  - rewrite (truthy_shown r' (Hne r' eq_refl)). reflexivity.
  - reflexivity.
Qed.

(** X7. [scroll_to] raises ValueError, changing nothing, exactly for a
    position below 0 or above [scroll_max].  For a position in between
    it stores the forward scan from that position: the range when the
    scan finds one, and otherwise no range, followed by the notice that
    the viewport is too small; the only exception it can then raise is
    the interrupt read by that notice. *)
Theorem scroll_to_guards_its_position :
  forall platform m p s,
    (p < 0 \/ scroll_max s < p -> scroll_to platform m p s = Raise ValueError s) /\
    (0 <= p <= scroll_max s ->
     (exists r,
         visible_range_of (items s) m (usable_height s) p false = inr r /\
         scroll_to platform m p s
         = match r with
           | Some _ => Ok tt (set_visible_range r s)
           | None =>
               render_viewport_too_small_error platform (set_visible_range None s)
           end) /\
     (forall e s', scroll_to platform m p s = Raise e s' -> e = KeyboardInterrupt)).
Proof.
  intros platform m p s. split.
  - intros Hout. unfold scroll_to, bind, gets.
    assert (Hg : (p <? 0) || (scroll_max s <? p) = true).
    { apply orb_true_iff. destruct Hout; [ left | right ]; lia. }
    rewrite Hg. reflexivity.
  - intros Hin.
    destruct (scroll_to_inside platform m p s Hin) as (r & Hscan & Hrun).
    split; [ exists r; split; [ exact Hscan | exact Hrun ] | ].
    intros e s'. rewrite Hrun. destruct r as [ r' | ]; [ discriminate | ].
    apply render_error_raises.
Qed.

(** ** Framing of the input *)

Lemma get_key_consumes platform input d rest :
  get_key platform input = Some (d, rest) -> exists used, input = used ++ rest.
Proof.
  destruct platform; simpl; intros H.
  - apply win_frames in H as (consumed & Hin & _). eauto.
  - apply unix_frames in H as (consumed & Hin & _). eauto.
Qed.

Lemma py_getitem_nth {A : Type} (l : list A) (i : Z) (a : A) :
  py_getitem l i = Some a ->
  nth_error l (Z.to_nat (if i <? 0 then i + Z.of_nat (List.length l) else i)) = Some a.
Proof.
  unfold py_getitem. destruct (_ && _); [ auto | discriminate ].
Qed.

(** ** Steps of the session *)

Create HintDb steps.

Section Steps.

(** A relation between sessions that the primitive updates of the
    closures respect. *)
Variable R : Session -> Session -> Prop.
Hypothesis R_refl : forall s, R s s.
Hypothesis R_trans : forall s1 s2 s3, R s1 s2 -> R s2 s3 -> R s1 s3.
Hypothesis R_term : forall c s, keeps_mode c -> R s (add_stdout c s).
Hypothesis R_stdin :
  forall s used rest, stdin s = used ++ rest -> R s (set_stdin rest s).
Hypothesis R_visible_range : forall r s, R s (set_visible_range r s).
Hypothesis R_current_position : forall n s, R s (set_current_position n s).
Hypothesis R_toggle :
  forall s k item,
    nth_error (items s) k = Some item ->
    R s (set_items (replace_nth k (toggle item None) (items s)) s).

Lemma steps_ret {A : Type} (a : A) : steps R (ret a).
Proof. intros s; apply R_refl. Qed.

Lemma steps_raise {A : Type} (e : PyExc) : steps R (@raise A e).
Proof. intros s; apply R_refl. Qed.

Lemma steps_gets {A : Type} (f : Session -> A) : steps R (gets f).
Proof. intros s; apply R_refl. Qed.

Lemma steps_lift {A : Type} (r : PyExc + A) : steps R (lift r).
Proof. destruct r; intros s; apply R_refl. Qed.

Lemma steps_getitem {A : Type} (l : list A) (i : Z) : steps R (getitem l i).
Proof. unfold getitem. destruct (py_getitem l i); intros s; apply R_refl. Qed.

Lemma steps_the_value r : steps R (the_value r).
Proof. destruct r; intros s; apply R_refl. Qed.

Lemma steps_bind {A B : Type} (c : M A) (k : A -> M B) :
  steps R c -> (forall a, steps R (k a)) -> steps R (bind c k).
Proof.
  intros Hc Hk s. unfold bind. specialize (Hc s).
  destruct (c s) as [ a s1 | e s1 | s1 ]; simpl in *; try exact Hc.
  eapply R_trans; [ exact Hc | apply Hk ].
Qed.

Lemma steps_term c : keeps_mode c -> steps R (term c).
Proof. intros Hc s. apply R_term; exact Hc. Qed.

Lemma steps_for_each {A : Type} (body : A -> M unit) :
  (forall x, steps R (body x)) -> forall xs, steps R (for_each xs body).
Proof.
  intros Hbody; induction xs as [ | x xs IH ]; simpl.
  - apply steps_ret.
  - apply steps_bind; [ apply Hbody | intros _; exact IH ].
Qed.

Lemma steps_read_key platform : steps R (read_key platform).
Proof.
  intros s. unfold read_key.
  destruct (get_key platform (stdin s)) as [ [ [ key | ] rest ] | ] eqn:E;
    try apply R_refl;
    apply get_key_consumes in E as (used & E); simpl;
    eapply R_stdin; exact E.
Qed.

Lemma steps_set_visible_range r : steps R (modify (set_visible_range r)).
Proof. intros s. apply R_visible_range. Qed.

Lemma steps_set_current_position n : steps R (modify (set_current_position n)).
Proof. intros s. apply R_current_position. Qed.

#[local] Hint Resolve steps_ret steps_raise steps_gets steps_lift steps_getitem
  steps_the_value steps_read_key steps_set_visible_range
  steps_set_current_position : steps.

Ltac step :=
  lazymatch goal with
  | |- steps _ (bind _ _) => apply steps_bind; [ | intro; cbv beta ]
  | |- steps _ (for_each _ _) => apply steps_for_each; intro; cbv beta
  | |- steps _ (term _) => apply steps_term; split; discriminate
  | |- steps _ (if ?b then _ else _) => destruct b
  | |- steps _ (match ?x with _ => _ end) => destruct x
  | |- steps _ _ => solve [ auto with steps ]
  end.

Ltac steps_auto := repeat step.

Lemma truncate_steps tr line offset : steps R (truncate tr line offset).
Proof. unfold truncate. steps_auto. Qed.

#[local] Hint Resolve truncate_steps : steps.

Lemma render_error_steps platform message : steps R (render_error platform message).
Proof. unfold render_error. steps_auto. Qed.

Lemma too_small_steps platform : steps R (render_viewport_too_small_error platform).
Proof. apply render_error_steps. Qed.

#[local] Hint Resolve render_error_steps too_small_steps : steps.

Lemma get_visible_range_steps m p to : steps R (get_visible_range m p to).
Proof. unfold get_visible_range. steps_auto. Qed.

#[local] Hint Resolve get_visible_range_steps : steps.

Lemma error_unless_steps platform r : steps R (error_unless platform r).
Proof. unfold error_unless. steps_auto. Qed.

#[local] Hint Resolve error_unless_steps : steps.

Lemma scroll_to_steps platform m p : steps R (scroll_to platform m p).
Proof. unfold scroll_to. steps_auto. Qed.

#[local] Hint Resolve scroll_to_steps : steps.

Lemma the_visible_range_steps : steps R the_visible_range.
Proof. unfold the_visible_range. steps_auto. Qed.

#[local] Hint Resolve the_visible_range_steps : steps.

Lemma scroll_up_steps platform m : steps R (scroll_up platform m).
Proof. unfold scroll_up. steps_auto. Qed.

Lemma scroll_down_steps platform m : steps R (scroll_down platform m).
Proof. unfold scroll_down. steps_auto. Qed.

#[local] Hint Resolve scroll_up_steps scroll_down_steps : steps.

Lemma render_item_steps tr i max_lines : steps R (render_item tr i max_lines).
Proof. unfold render_item. steps_auto. Qed.

Lemma render_item_margin_steps m : steps R (render_item_margin m).
Proof. unfold render_item_margin. steps_auto. Qed.

#[local] Hint Resolve render_item_steps render_item_margin_steps : steps.

Lemma page_steps platform m key : steps R (page platform m key).
Proof. unfold page. steps_auto. Qed.

Lemma render_steps m tr hl : steps R (render m tr hl).
Proof. unfold render. steps_auto. Qed.

#[local] Hint Resolve page_steps render_steps : steps.

Lemma py_mod_steps a b : steps R (py_mod a b).
Proof. unfold py_mod. steps_auto. Qed.

#[local] Hint Resolve py_mod_steps : steps.

Lemma toggle_steps :
  steps R (its <- gets items ;;
           cur <- gets current_position ;;
           item <- getitem its cur ;;
           let n := Z.of_nat (List.length its) in
           let i := if cur <? 0 then cur + n else cur in
           modify (set_items (replace_nth (Z.to_nat i) (toggle item None) its)) ;;
           ret Continue).
Proof.
  intros s. unfold bind, gets, getitem, modify, ret.
  destruct (py_getitem (items s) (current_position s)) as [ item | ] eqn:E;
    [ | apply R_refl ].
  simpl. apply R_toggle. apply py_getitem_nth; exact E.
Qed.

Lemma apply_key_steps platform m key : steps R (apply_key platform m key).
Proof.
  unfold apply_key.
  destruct (key_is key "UP"); [ steps_auto | ].
  destruct (key_is key "DOWN"); [ steps_auto | ].
  destruct (key_is key "HOME"); [ steps_auto | ].
  destruct (key_is key "END"); [ steps_auto | ].
  destruct (key_is key "PGUP" || key_is key "PGDN"); [ steps_auto | ].
  destruct (key_is key "SPACE"); [ apply toggle_steps | ].
  steps_auto.
Qed.

#[local] Hint Resolve apply_key_steps : steps.

Lemma after_measure_steps platform m tr hl : steps R (after_measure platform m tr hl).
Proof. unfold after_measure. steps_auto. Qed.

#[local] Hint Resolve after_measure_steps : steps.

(** The measurement is the one place that updates the cached geometry. *)
Hypothesis R_terminal_size : forall w h s, R s (set_terminal_size w h s).
Hypothesis R_usable_height : forall u s, R s (set_usable_height u s).
Hypothesis R_scroll_max : forall n s, R s (set_scroll_max n s).

Lemma measure_steps platform m tr hl size : steps R (measure platform m tr hl size).
Proof.
  assert (H1 : forall w h, steps R (modify (set_terminal_size w h)))
    by (intros w h s; apply R_terminal_size).
  assert (H2 : forall u, steps R (modify (set_usable_height u)))
    by (intros u s; apply R_usable_height).
  assert (H3 : forall n, steps R (modify (set_scroll_max n)))
    by (intros n s; apply R_scroll_max).
  unfold measure. destruct size. steps_auto.
Qed.

#[local] Hint Resolve measure_steps : steps.

Lemma loop_body_steps platform m tr hl size : steps R (loop_body platform m tr hl size).
Proof. unfold loop_body. steps_auto. Qed.

Lemma main_loop_steps platform m tr hl :
  forall sizes, steps R (main_loop platform m tr hl sizes).
Proof.
  induction sizes as [ | size sizes IH ]; simpl.
  - intros s. apply R_refl.
  - apply steps_bind; [ apply loop_body_steps | ].
    intros [ | ]; [ exact IH | apply steps_ret ].
Qed.

End Steps.

(** *** Terminal calls, input and items *)

Lemma same_item_refl a : same_item a a.
Proof. repeat split. Qed.

Lemma same_items_refl its : Forall2 same_item its its.
Proof. induction its; constructor; auto using same_item_refl. Qed.

Lemma same_items_trans xs ys zs :
  Forall2 same_item xs ys -> Forall2 same_item ys zs -> Forall2 same_item xs zs.
Proof.
  intros H; revert zs; induction H as [ | x y xs ys Hxy H IH ]; intros zs Hz;
    inversion Hz; subst; constructor.
  - destruct Hxy as (A & B & C). destruct H2 as (A' & B' & C').
    repeat split; congruence.
  - apply IH; assumption.
Qed.

Lemma evolves_refl s : evolves s s.
Proof.
  split; [ | split ].
  - exists []. rewrite app_nil_r. split; [ reflexivity | constructor ].
  - exists []. reflexivity.
  - apply same_items_refl.
Qed.

Lemma evolves_trans s1 s2 s3 : evolves s1 s2 -> evolves s2 s3 -> evolves s1 s3.
Proof.
  intros ((o1 & Ho1 & Hk1) & (u1 & Hu1) & Hi1) ((o2 & Ho2 & Hk2) & (u2 & Hu2) & Hi2).
  split; [ | split ].
  - exists (o1 ++ o2). rewrite Ho2, Ho1, app_assoc. split; [ reflexivity | ].
    apply Forall_app; split; assumption.
  - exists (u1 ++ u2). rewrite Hu1, Hu2, app_assoc. reflexivity.
  - eapply same_items_trans; eassumption.
Qed.

Lemma evolves_quietly s s' :
  stdout s' = stdout s -> stdin s' = stdin s -> items s' = items s -> evolves s s'.
Proof.
  intros Ho Hi Hit. split; [ | split ].
  - exists []. rewrite app_nil_r. split; [ exact Ho | constructor ].
  - exists []. rewrite Hi. reflexivity.
  - rewrite Hit. apply same_items_refl.
Qed.

Lemma replace_nth_same :
  forall (its : list ChecklistItem) (k : nat) item item',
    nth_error its k = Some item -> same_item item item' ->
    Forall2 same_item its (replace_nth k item' its).
Proof.
  induction its as [ | a its IH ]; intros [ | k ] item item'; simpl; try discriminate.
  - intros [= ->] H. constructor; [ exact H | apply same_items_refl ].
  - intros E H. constructor; [ apply same_item_refl | eapply IH; eassumption ].
Qed.

Lemma evolves_term c s : keeps_mode c -> evolves s (add_stdout c s).
Proof.
  intros Hc. split; [ | split ].
  - exists [c]. split; [ reflexivity | constructor; [ exact Hc | constructor ] ].
  - exists []. reflexivity.
  - apply same_items_refl.
Qed.

Lemma evolves_stdin s used rest : stdin s = used ++ rest -> evolves s (set_stdin rest s).
Proof.
  intros E. split; [ | split ].
  - exists []. rewrite app_nil_r. split; [ reflexivity | constructor ].
  - exists used. exact E.
  - apply same_items_refl.
Qed.

Lemma evolves_toggle s k item :
  nth_error (items s) k = Some item ->
  evolves s (set_items (replace_nth k (toggle item None) (items s)) s).
Proof.
  intros E. split; [ | split ].
  - exists []. rewrite app_nil_r. split; [ reflexivity | constructor ].
  - exists []. reflexivity.
  - eapply replace_nth_same; [ exact E | repeat split ].
Qed.

Lemma loop_body_evolves platform m tr hl size :
  steps evolves (loop_body platform m tr hl size).
Proof.
  apply (loop_body_steps evolves evolves_refl evolves_trans evolves_term evolves_stdin);
    try exact evolves_toggle; intros; apply evolves_quietly; reflexivity.
Qed.

Lemma main_loop_evolves platform m tr hl sizes :
  steps evolves (main_loop platform m tr hl sizes).
Proof.
  apply (main_loop_steps evolves evolves_refl evolves_trans evolves_term evolves_stdin);
    try exact evolves_toggle; intros; apply evolves_quietly; reflexivity.
Qed.

(** *** The cached geometry *)

Lemma same_geometry_refl s : same_geometry s s.
Proof. repeat split. Qed.

Lemma same_geometry_trans s1 s2 s3 :
  same_geometry s1 s2 -> same_geometry s2 s3 -> same_geometry s1 s3.
Proof.
  intros (A & B & C & D & E) (A' & B' & C' & D' & E').
  repeat split; congruence.
Qed.

Lemma after_measure_same_geometry platform m tr hl :
  steps same_geometry (after_measure platform m tr hl).
Proof.
  apply after_measure_steps.
  - apply same_geometry_refl.
  - apply same_geometry_trans.
  - intros; repeat split.
  - intros; repeat split.
  - intros; repeat split.
  - intros; repeat split.
  - intros s k item E. repeat split. simpl.
    eapply replace_nth_map; [ exact E | reflexivity ].
Qed.

(** ** The terminal is restored *)

Lemma concat_empty_cons x xs :
  String.concat "" (x :: xs) = String.append x (String.concat "" xs).
Proof.
  destruct xs as [ | y ys ]; simpl; [ | reflexivity ].
  induction x as [ | c x IH ]; simpl; [ reflexivity | ].
  f_equal; exact IH.
Qed.

Lemma append_assoc a b c :
  String.append (String.append a b) c = String.append a (String.append b c).
Proof.
  induction a as [ | x a IH ]; simpl; [ reflexivity | ].
  rewrite IH; reflexivity.
Qed.

Lemma concat_empty_app xs ys :
  String.concat "" (xs ++ ys)
  = String.append (String.concat "" xs) (String.concat "" ys).
Proof.
  induction xs as [ | x xs IH ].
  - reflexivity.
  - rewrite <- app_comm_cons, !concat_empty_cons, IH, append_assoc. reflexivity.
Qed.

Lemma screen_bytes_app xs ys :
  screen_bytes (xs ++ ys) = String.append (screen_bytes xs) (screen_bytes ys).
Proof.
  unfold screen_bytes. rewrite map_app. apply concat_empty_app.
Qed.

Lemma finish_trace (r : Res unit) :
  snd (finish r)
  = stdout (final_state r)
    ++ match fst (finish r) with
       | Running => []
       | _ => [exit_app_mode]
       end.
Proof.
  destruct r as [ [] s | e s | s ]; simpl.
  - reflexivity.
  - destruct e; reflexivity.
  - rewrite app_nil_r. reflexivity.
Qed.

(** X8. The terminal is entered once and left once.  When an item does
    not convert, the call raises before anything is written.  Otherwise
    the trace starts with [enter_app_mode], no call in between enters
    or leaves the application mode, and, however the call ends (a list,
    [None] or an exception), the trace ends with [exit_app_mode]: the
    bytes written start by switching to the alternate screen, hiding the
    cursor and homing it, and end by showing the cursor and switching
    back. *)
Theorem terminal_is_restored :
  forall platform raw header m tr sizes input,
    match make_all raw with
    | inl e => tui_checklist platform raw header m tr sizes input = (Raised e, [])
    | inr _ =>
        exists out,
          Forall keeps_mode out /\
          snd (tui_checklist platform raw header m tr sizes input)
          = enter_app_mode :: out
            ++ match fst (tui_checklist platform raw header m tr sizes input) with
               | Running => []
               | _ => [exit_app_mode]
               end /\
          (fst (tui_checklist platform raw header m tr sizes input) <> Running ->
           screen_bytes (snd (tui_checklist platform raw header m tr sizes input))
           = String.concat ""
               [ALT_SCREEN_ON; HIDE_CURSOR; HOME_CURSOR; screen_bytes out;
                SHOW_CURSOR; ALT_SCREEN_OFF])
    end.
Proof.
  intros platform raw header m tr sizes input. unfold tui_checklist.
  destruct (make_all raw) as [ e | its ]; [ reflexivity | ].
  set (s0 := add_stdout enter_app_mode (initial_session (default_tags 0 its) input)).
  match goal with
  | |- context [finish ?r] => set (res := r)
  end.
  assert (Hev : evolves s0 (final_state res)).
  { subst res. destruct header as [ h | ]; [ | apply evolves_refl ].
    apply main_loop_evolves. }
  destruct Hev as ((out & Hout & Hkeep) & _ & _).
  exists out. split; [ exact Hkeep | ].
  assert (Htrace : snd (finish res)
                   = enter_app_mode :: out
                     ++ match fst (finish res) with
                        | Running => []
                        | _ => [exit_app_mode]
                        end).
  { rewrite finish_trace, Hout. reflexivity. }
  split; [ exact Htrace | ].
  intros Hrun. rewrite Htrace.
  destruct (fst (finish res)); try congruence;
    change (enter_app_mode :: out ++ [exit_app_mode])
      with ([enter_app_mode] ++ out ++ [exit_app_mode]);
    rewrite !screen_bytes_app; reflexivity.
Qed.

(** ** The tags returned *)

Lemma checked_tags_subsequence xs ys :
  Forall2 same_item xs ys ->
  subsequence (checked_tags ys) (map tag xs).
Proof.
  unfold checked_tags.
  induction 1 as [ | x y xs ys (_ & Ht & _) H IH ]; simpl; [ constructor | ].
  rewrite Ht. destruct (checked y); simpl; constructor; exact IH.
Qed.

Lemma returned_tags platform raw header m tr sizes input tags :
  fst (tui_checklist platform raw header m tr sizes input) = Returned (Some tags) ->
  subsequence tags (map tag (prepared raw)).
Proof.
  unfold tui_checklist, prepared.
  destruct (make_all raw) as [ e | its ]; [ discriminate | ].
  destruct header as [ h | ]; [ | discriminate ].
  set (s0 := add_stdout enter_app_mode (initial_session (default_tags 0 its) input)).
  pose proof (main_loop_evolves platform m tr (py_split_lines h ++ [instructions]) sizes s0)
    as (_ & _ & Hitems).
  destruct (main_loop platform m tr (py_split_lines h ++ [instructions]) sizes s0)
    as [ [] s | e s | s ]; simpl in *.
  - intros [= <-]. apply checked_tags_subsequence. exact Hitems.
  - destruct e; discriminate.
  - discriminate.
Qed.

Lemma make_all_untagged :
  forall raw its,
    Forall untagged raw -> make_all raw = inr its ->
    Forall (fun item => tag item = PyNone) its.
Proof.
  induction raw as [ | o raw IH ]; intros its Hall; simpl.
  - intros [= <-]. constructor.
  - inversion Hall as [ | ? ? (l & c & Hrec) Hrest ]; subst.
    rewrite (recognized_makes o l c PyNone Hrec).
    destruct (make_all raw) as [ e | rest ]; [ discriminate | ].
    intros [= <-]. constructor; [ reflexivity | apply IH; auto ].
Qed.

Lemma default_tags_indices :
  forall its i,
    Forall (fun item => tag item = PyNone) its ->
    map tag (default_tags i its)
    = map (fun k => PyInt (i + Z.of_nat k)) (seq 0 (List.length its)).
Proof.
  induction its as [ | a its IH ]; intros i Hall; simpl; [ reflexivity | ].
  inversion Hall as [ | ? ? Ha Hrest ]; subst. rewrite Ha.
  f_equal; [ f_equal; lia | ].
  rewrite (IH (i + 1) Hrest), <- seq_shift, map_map.
  apply map_ext. intros k. f_equal. lia.
Qed.

Lemma subsequence_map {A B : Type} (f : A -> B) :
  forall ys xs, subsequence xs (map f ys) ->
                exists ks, xs = map f ks /\ subsequence ks ys.
Proof.
  induction ys as [ | y ys IH ]; intros xs H; simpl in H; inversion H; subst.
  - exists []. split; [ reflexivity | constructor ].
  - destruct (IH _ H2) as (ks & -> & Hks).
    exists ks. split; [ reflexivity | constructor; exact Hks ].
  - destruct (IH _ H2) as (ks & -> & Hks).
    exists (y :: ks). split; [ reflexivity | constructor; exact Hks ].
Qed.

Lemma subsequence_In {A : Type} (xs ys : list A) :
  subsequence xs ys -> forall x, In x xs -> In x ys.
Proof.
  induction 1; simpl; intros z Hz; auto.
  destruct Hz as [ -> | Hz ]; auto.
Qed.

Lemma subsequence_seq :
  forall n start ks,
    subsequence ks (seq start n) ->
    StronglySorted lt ks /\ Forall (fun k => (start <= k < start + n)%nat) ks.
Proof.
  induction n as [ | n IH ]; intros start ks H; simpl in H; inversion H; subst.
  - split; constructor.
  - destruct (IH _ _ H2) as (Hs & Hb). split; [ exact Hs | ].
    eapply Forall_impl; [ | exact Hb ]. simpl. intros; lia.
  - destruct (IH _ _ H2) as (Hs & Hb). split.
    + constructor; [ exact Hs | ].
      eapply Forall_impl; [ | exact Hb ]. simpl. intros; lia.
    + constructor; [ lia | ].
      eapply Forall_impl; [ | exact Hb ]. simpl. intros; lia.
Qed.

(** X9. The list a call returns is a subsequence of the tags of the
    prepared items: tags come in list order, each item gives at most
    one.  When no raw item carries a tag, the list is a strictly
    increasing list of indices of the raw list. *)
Theorem returned_tags_follow_list_order :
  forall platform raw header m tr sizes input tags,
    fst (tui_checklist platform raw header m tr sizes input) = Returned (Some tags) ->
    subsequence tags (map tag (prepared raw)) /\
    (Forall untagged raw ->
     exists ks,
       tags = map (fun k => PyInt (Z.of_nat k)) ks /\
       StronglySorted lt ks /\
       Forall (fun k => (k < List.length raw)%nat) ks).
Proof.
  intros platform raw header m tr sizes input tags H.
  pose proof (returned_tags _ _ _ _ _ _ _ _ H) as Hsub.
  split; [ exact Hsub | ].
  intros Hun. unfold prepared in Hsub.
  destruct (make_all raw) as [ e | its ] eqn:E.
  { unfold tui_checklist in H. rewrite E in H. discriminate. }
  rewrite (default_tags_indices its 0 (make_all_untagged raw its Hun E)) in Hsub.
  apply subsequence_map in Hsub as (ks & -> & Hks).
  apply subsequence_seq in Hks as (Hs & Hb).
  exists ks. split; [ reflexivity | ]. split; [ exact Hs | ].
  destruct (make_all_nth raw its E) as (Hlen & _).
  eapply Forall_impl; [ | exact Hb ]. simpl. intros; lia.
Qed.

Lemma returned_tags_follow_list_order_witness :
  subsequence [PyInt 2] (map tag (prepared abc)) /\
  (Forall untagged abc ->
   exists ks,
     [PyInt 2] = map (fun k => PyInt (Z.of_nat k)) ks /\
     StronglySorted lt ks /\
     Forall (fun k => (k < List.length abc)%nat) ks).
Proof.
  apply (returned_tags_follow_list_order Unix abc (Some "h") 0 false
           (repeat (120, 24) 4)
           (raw_DOWN Unix ++ raw_DOWN Unix ++ SPACE_BYTE ++ ENTER_BYTE)).
  vm_compute. reflexivity.
Defined.

(** ** The first pass *)

Lemma prepared_made raw :
  prepared raw <> [] ->
  exists its0, make_all raw = inr its0 /\ prepared raw = default_tags 0 its0.
Proof.
  unfold prepared. destruct (make_all raw) as [ e | its0 ]; [ congruence | eauto ].
Qed.

Lemma py_max_Some xs : xs <> [] -> exists mx, py_max xs = Some mx.
Proof. destruct xs; [ congruence | simpl; eauto ]. Qed.

Lemma last_item (its : list ChecklistItem) :
  its <> [] ->
  exists item, py_getitem its (Z.of_nat (List.length its) - 1) = Some item /\ In item its.
Proof.
  intros Hne.
  destruct (py_getitem_Some its (Z.of_nat (List.length its) - 1)) as [item E].
  { destruct its; [ congruence | cbn [List.length]; lia ]. }
  exists item. split; [ exact E | ].
  unfold py_getitem in E. destruct (_ && _) in E; [ | discriminate ].
  eapply nth_error_In; exact E.
Qed.

Lemma first_item (its : list ChecklistItem) :
  its <> [] -> exists item, py_getitem its 0 = Some item /\ In item its.
Proof.
  destruct its as [ | a its ]; [ congruence | ].
  intros _. exists a. split; [ reflexivity | left; reflexivity ].
Qed.

Lemma first_pass platform m tr hl w h its input d rest :
  heights_ok its -> hl <> [] ->
  first_screen_fits its hl tr w h ->
  get_key platform input = Some (d, rest) ->
  exists s1,
    items s1 = its /\ stdin s1 = rest /\
    loop_body platform m tr hl (w, h)
      (add_stdout enter_app_mode (initial_session its input))
    = match d with
      | Pressed key => apply_key platform m key s1
      | Interrupt => Raise KeyboardInterrupt s1
      end.
Proof.
  intros Hh Hhl0 (Hne & Hfit & Hwide) Hkey.
  set (s0 := add_stdout enter_app_mode (initial_session its input)).
  set (u := h - Z.of_nat (List.length hl) - 3) in *.
  rewrite Forall_forall in Hfit.
  destruct (last_item its Hne) as (z & Ez & Hz).
  destruct (first_item its Hne) as (a & Ea & Ha).
  pose proof (height_at_least_one its _ a Hh Ea) as Ha1.
  pose proof (Hfit a Ha) as Hau. pose proof (Hfit z Hz) as Hzu.
  assert (Hn : 1 <= Z.of_nat (List.length its)).
  { destruct its; [ congruence | cbn [List.length]; lia ]. }
  destruct (proj2 (visible_range_of_spec its m u (Z.of_nat (List.length its) - 1) true z
                     ltac:(lia) Ez) Hzu)
    as (rmax & Hmax & _ & _ & Hin & _).
  destruct (proj2 (visible_range_of_spec its m u 0 false a ltac:(lia) Ea) Hau)
    as (r0 & Hscan & Hf0 & _ & Hin0 & Hl0 & _).
  simpl in Hf0.
  destruct (measure_first platform m tr hl w h s0 rmax (Some r0))
    as (sm & Hm & Hvm & Him).
  - simpl. intros [= _ Hh0]. subst u. lia.
  - intros Htr. destruct (Hwide Htr) as (Hhl & Hits).
    destruct (py_max (map py_strlen hl)) as [ mh | ] eqn:Emh.
    + destruct (py_max_Some (map item_len its)) as (mi & Emi).
      { destruct its; [ congruence | discriminate ]. }
      exists mh, mi. split; [ reflexivity | ]. split; [ exact Emi | ].
      assert (mh <= w).
      { eapply py_max_bound; [ exact Emh | ].
        apply (proj2 (Forall_map py_strlen (fun z => z <= w) hl)). exact Hhl. }
      assert (mi <= w).
      { eapply py_max_bound; [ exact Emi | ].
        apply (proj2 (Forall_map item_len (fun z => z <= w) its)). exact Hits. }
      lia.
    + exfalso. destruct hl as [ | line hl ]; [ congruence | discriminate ].
  - exact Hmax.
  - lia.
  - exact Hscan.
  - unfold vars in Hvm. subst s0.
    cbn [items current_position add_stdout initial_session] in Hvm.
    assert (Eit : items sm = its) by congruence.
    assert (Evr : visible_range sm = Some r0) by congruence.
    assert (Ecp : current_position sm = 0) by congruence.
    destruct (pass_runs platform m tr hl (w, h) _ sm r0 d rest Hm)
      as (s1 & Hv1 & Hi1 & Hbody).
    + rewrite Eit; exact Hh.
    + exact Evr.
    + lia.
    + rewrite Eit; lia.
    + rewrite Ecp; lia.
    + rewrite Him; exact Hkey.
    + exists s1. split; [ unfold vars in Hv1; congruence | ].
      split; [ exact Hi1 | exact Hbody ].
Qed.

(** X10. On a terminal in which the first screen fits (there are items,
    each fits under the header and, with truncation off, the width
    check passes), for every item list, header, margin and platform:
    ENTER as first key returns the tags of the items that were given
    checked, and the interrupt character as first key returns
    [None]. *)
Theorem first_key_confirms_or_cancels :
  forall platform raw header m tr w h more rest,
    first_screen_fits (prepared raw) (header_lines_of header) tr w h ->
    fst (tui_checklist platform raw (Some header) m tr ((w, h) :: more)
           (ENTER_BYTE ++ rest))
    = Returned (Some (checked_tags (prepared raw))) /\
    fst (tui_checklist platform raw (Some header) m tr ((w, h) :: more)
           (ASCII_ETX :: rest))
    = Returned None.
Proof.
  intros platform raw header m tr w h more rest Hfit.
  destruct (prepared_made raw (proj1 Hfit)) as (its0 & Hmake & Hprep).
  assert (Hh : heights_ok (prepared raw)) by apply prepared_heights_ok.
  assert (Hhl : header_lines_of header <> []).
  { unfold header_lines_of. destruct (py_split_lines header); discriminate. }
  unfold tui_checklist. rewrite Hmake, <- Hprep.
  change (py_split_lines header ++ [instructions]) with (header_lines_of header).
  split.
  - destruct (first_pass platform m tr (header_lines_of header) w h (prepared raw)
                (ENTER_BYTE ++ rest) (Pressed (KStr "ENTER")) rest Hh Hhl Hfit)
      as (s1 & Hit & _ & Hbody).
    { apply get_key_ENTER. }
    rewrite main_loop_cons, Hbody. simpl. rewrite Hit. reflexivity.
  - destruct (first_pass platform m tr (header_lines_of header) w h (prepared raw)
                (ASCII_ETX :: rest) Interrupt rest Hh Hhl Hfit)
      as (s1 & _ & _ & Hbody).
    { apply get_key_interrupt. }
    rewrite main_loop_cons, Hbody. reflexivity.
Qed.

Lemma first_key_confirms_or_cancels_witness :
  fst (tui_checklist Unix [PyStr "A"; PyTuple [PyStr "B"; PyBool true]] (Some "h") 1 false
         ((120, 24) :: []) (ENTER_BYTE ++ []))
  = Returned (Some (checked_tags (prepared [PyStr "A"; PyTuple [PyStr "B"; PyBool true]])))
  /\
  fst (tui_checklist Unix [PyStr "A"; PyTuple [PyStr "B"; PyBool true]] (Some "h") 1 false
         ((120, 24) :: []) (ASCII_ETX :: []))
  = Returned None.
Proof.
  apply (first_key_confirms_or_cancels Unix
           [PyStr "A"; PyTuple [PyStr "B"; PyBool true]] "h" 1 false 120 24 [] []).
  split; [ discriminate | ].
  split; [ repeat constructor; vm_compute; discriminate | ].
  intros _. split; repeat constructor; vm_compute; discriminate.
Defined.

(** ** The scan reads the heights only *)

Lemma py_getitem_map {A B : Type} (f : A -> B) (l : list A) (i : Z) :
  py_getitem (map f l) i = option_map f (py_getitem l i).
Proof.
  unfold py_getitem. rewrite length_map.
  destruct (_ && _); [ apply nth_error_map | reflexivity ].
Qed.

Lemma py_getitem_height its its' i :
  map height its = map height its' ->
  option_map height (py_getitem its i) = option_map height (py_getitem its' i).
Proof.
  intros E. rewrite <- !py_getitem_map, E. reflexivity.
Qed.

Lemma fit_loop_heights its its' m usable :
  map height its = map height its' ->
  forall check_range vl vh,
    fit_loop its m usable check_range vl vh = fit_loop its' m usable check_range vl vh.
Proof.
  intros E. induction check_range as [ | i rest IH ]; intros vl vh; simpl;
    [ reflexivity | ].
  pose proof (py_getitem_height its its' i E) as Hi.
  destruct (py_getitem its i) as [ a | ]; destruct (py_getitem its' i) as [ b | ];
    simpl in Hi; try discriminate; [ | reflexivity ].
  injection Hi as ->.
  destruct (_ >? usable); [ reflexivity | apply IH ].
Qed.

Lemma visible_range_of_heights its its' m usable p to :
  map height its = map height its' ->
  visible_range_of its m usable p to = visible_range_of its' m usable p to.
Proof.
  intros E. unfold visible_range_of.
  assert (Hlen : List.length its = List.length its').
  { rewrite <- (length_map height its), E, length_map. reflexivity. }
  rewrite Hlen, (fit_loop_heights its its' m usable E). reflexivity.
Qed.

(** ** What the measurement leaves *)

Lemma measured_geometry m hl s s' :
  same_geometry s s' -> measured m hl s -> measured m hl s'.
Proof.
  intros (Ew & Eh & Eu & Es & Eit) H. unfold measured in *.
  rewrite Ew, Eh, Eu, Es.
  assert (Hlen : List.length (items s') = List.length (items s)).
  { rewrite <- (length_map height (items s')), Eit, length_map. reflexivity. }
  rewrite Hlen, (visible_range_of_heights (items s') (items s) _ _ _ _ Eit).
  exact H.
Qed.

Lemma measured_vars m hl s s' : vars s' = vars s -> measured m hl s -> measured m hl s'.
Proof.
  intros Hv. apply measured_geometry.
  unfold vars in Hv. injection Hv as A B C D E F G.
  repeat split; congruence.
Qed.

Lemma measure_measured platform m tr hl size s again s' :
  measured m hl s ->
  measure platform m tr hl size s = Ok again s' ->
  measured m hl s'.
Proof.
  intros Hok H. destruct size as [w h].
  unfold measure in H. mred H.
  destruct (negb (terminal_width s =? w) || negb (terminal_height s =? h)).
  2:{ injection H as <- <-. exact Hok. }
  mcase H E0.
  assert (s0 = s); [ | subst s0 ].
  { destruct (negb tr); [ | congruence ].
    destruct (py_max (map py_strlen hl)); [ | discriminate ].
    destruct (py_max (map item_len (items s))); [ | discriminate ].
    congruence. }
  clear E0. destruct a.
  - mcase H E1. injection H as <- <-. apply too_small_vars in E1.
    apply (measured_vars _ _ _ _ E1), Hok.
  - mcase H E1.
    assert (Hv1 : vars s0 = vars (set_terminal_size w h s)).
    { eapply for_each_vars in E1; [ exact E1 | ].
      intros line s1 u1 s2. unfold truncate, bind, gets, ret.
      intros [= _ <-]; reflexivity. }
    clear E1.
    assert (Eit : items s0 = items s) by (vars_rw Hv1; reflexivity).
    assert (Eth : terminal_height s0 = h) by (vars_rw Hv1; reflexivity).
    rewrite Eit in H.
    set (u' := h - Z.of_nat (Datatypes.length hl) - 3) in *.
    destruct (visible_range_of (items s) m u' (Z.of_nat (Datatypes.length (items s)) - 1) true)
      as [ e | smax_vr ] eqn:Emax; [ discriminate | ].
    destruct (truthy smax_vr) as [ e | [ | ] ] eqn:Et; [ discriminate | | ].
    + destruct smax_vr as [ smax_r | ]; [ | discriminate ].
      mred H.
      match type of H with
      | context [visible_range_of ?a ?b ?c ?d false] =>
          destruct (visible_range_of a b c d false) as [ e | r' ]; [ discriminate | ]
      end.
      injection H as <- <-.
      intros _. cbn. rewrite Eit, Eth. split; [ reflexivity | ].
      exists smax_r. split; [ exact Emax | reflexivity ].
    + mred H. mcase H E2. injection H as <- <-.
      intros Hsize. exfalso. apply Hsize. reflexivity.
Qed.

Lemma loop_body_measured platform m tr hl size s c s' :
  measured m hl s ->
  loop_body platform m tr hl size s = Ok c s' ->
  measured m hl s'.
Proof.
  intros Hok H.
  change (loop_body platform m tr hl size)
    with (again <- measure platform m tr hl size ;;
          if (again : bool) then ret Continue else after_measure platform m tr hl) in H.
  apply bind_Ok in H as (again & s1 & E & H).
  apply (measure_measured _ _ _ _ _ _ _ _ Hok) in E.
  destruct again; [ injection H as _ <-; exact E | ].
  pose proof (after_measure_same_geometry platform m tr hl s1) as Hg.
  rewrite H in Hg. simpl in Hg.
  eapply measured_geometry; eassumption.
Qed.

Lemma after_passes_measured platform m tr hl :
  forall sizes s s',
    measured m hl s ->
    after_passes platform m tr hl sizes s = Some s' ->
    measured m hl s'.
Proof.
  induction sizes as [ | size sizes IH ]; intros s s' Hok H; simpl in H.
  - injection H as <-; exact Hok.
  - destruct (loop_body platform m tr hl size s) as [ [ | ] s1 | | ] eqn:E;
      try discriminate.
    eapply IH; [ | exact H ].
    eapply loop_body_measured; eassumption.
Qed.

Lemma backward_scan_facts its m usable rmax :
  visible_range_of its m usable (Z.of_nat (List.length its) - 1) true = inr (Some rmax) ->
  1 <= Z.of_nat (List.length its) /\
  last rmax = Z.of_nat (List.length its) - 1 /\
  0 <= first rmax <= last rmax /\
  range_height rmax = occupied_rows its m (first rmax) (last rmax) /\
  (forall j, first rmax <= j <= last rmax ->
             occupied_rows its m j (last rmax) <= usable) /\
  (first rmax = 0 \/ usable < occupied_rows its m (first rmax - 1) (last rmax)).
Proof.
  intros H.
  assert (Hn : 1 <= Z.of_nat (List.length its)).
  { destruct its as [ | a its ]; [ discriminate | cbn [List.length]; lia ]. }
  destruct (py_getitem_Some its (Z.of_nat (List.length its) - 1)) as [item E]; [ lia | ].
  destruct (visible_range_of_backward its m usable (Z.of_nat (List.length its) - 1)
              item ltac:(lia) E)
    as (j & Hj & Hrun & Hstop & Hfit).
  rewrite Hrun in H.
  destruct (j =? Z.of_nat (List.length its) - 1 + 1) eqn:Ej; [ discriminate | ].
  injection H as <-. simpl.
  repeat split; try lia; auto.
Qed.

(** X11. In every session the loop body can leave behind, while the
    cached terminal size stands: the usable height is the terminal
    height less the header lines less three, and [scroll_max] is the
    first item of the last screen, that is, the items from
    [scroll_max] to the last one fit the usable height and those from
    [scroll_max - 1] on do not.  Toggling items and scrolling never
    make the cached value stale. *)
Theorem scroll_max_is_the_last_screen :
  forall platform m tr hl raw sizes input s,
    after_passes platform m tr hl sizes (initial_session (prepared raw) input) = Some s ->
    (terminal_width s, terminal_height s) <> (0, 0) ->
    usable_height s = terminal_height s - Z.of_nat (List.length hl) - 3 /\
    0 <= scroll_max s < Z.of_nat (List.length (items s)) /\
    visible_range_of (items s) m (usable_height s)
      (Z.of_nat (List.length (items s)) - 1) true
    = inr (Some (mkItemRange (scroll_max s) (Z.of_nat (List.length (items s)) - 1)
                   (occupied_rows (items s) m (scroll_max s)
                      (Z.of_nat (List.length (items s)) - 1)))) /\
    occupied_rows (items s) m (scroll_max s) (Z.of_nat (List.length (items s)) - 1)
    <= usable_height s /\
    (scroll_max s = 0 \/
     usable_height s
     < occupied_rows (items s) m (scroll_max s - 1) (Z.of_nat (List.length (items s)) - 1)).
Proof.
  intros platform m tr hl raw sizes input s Hrun Hsize.
  assert (Hm : measured m hl s).
  { eapply after_passes_measured; [ | exact Hrun ].
    intros H. exfalso. apply H. reflexivity. }
  destruct (Hm Hsize) as (Hu & rmax & Hscan & Hsmax).
  destruct (backward_scan_facts _ _ _ _ Hscan) as (Hn & Hl & Hf & Hh & Hfit & Hstop).
  split; [ exact Hu | ].
  split; [ lia | ].
  split.
  - rewrite Hscan, Hsmax, <- Hl, <- Hh. destruct rmax; reflexivity.
  - rewrite Hsmax, <- Hl. split; [ apply Hfit; lia | exact Hstop ].
Qed.

Lemma scroll_max_is_the_last_screen_witness :
  exists s,
    after_passes Win32 0 false short_header [(120, 8)]
      (initial_session (prepared (one_line_items 10)) (raw_END Win32)) = Some s /\
    usable_height s = terminal_height s - Z.of_nat (List.length short_header) - 3 /\
    0 <= scroll_max s < Z.of_nat (List.length (items s)) /\
    visible_range_of (items s) 0 (usable_height s)
      (Z.of_nat (List.length (items s)) - 1) true
    = inr (Some (mkItemRange (scroll_max s) (Z.of_nat (List.length (items s)) - 1)
                   (occupied_rows (items s) 0 (scroll_max s)
                      (Z.of_nat (List.length (items s)) - 1)))) /\
    occupied_rows (items s) 0 (scroll_max s) (Z.of_nat (List.length (items s)) - 1)
    <= usable_height s /\
    (scroll_max s = 0 \/
     usable_height s
     < occupied_rows (items s) 0 (scroll_max s - 1) (Z.of_nat (List.length (items s)) - 1)).
Proof.
  eexists. split; [ vm_compute; reflexivity | ].
  apply (scroll_max_is_the_last_screen Win32 0 false short_header (one_line_items 10)
           [(120, 8)] (raw_END Win32)).
  - vm_compute; reflexivity.
  - vm_compute; discriminate.
Defined.

(** ** END, and UP on the first item *)

Lemma occupied_rows_mono its m f :
  0 <= m -> heights_ok its -> 0 <= f ->
  forall (k : nat) l,
    f - 1 <= l -> l + Z.of_nat k < Z.of_nat (List.length its) ->
    occupied_rows its m f l <= occupied_rows its m f (l + Z.of_nat k).
Proof.
  intros Hm Hh Hf. induction k as [ | k IH ]; intros l Hl Hn.
  - replace (l + Z.of_nat 0) with l by lia. lia.
  - destruct (py_getitem_Some its (l + Z.of_nat k + 1)) as [item E]; [ lia | ].
    pose proof (occupied_rows_snoc its m f (l + Z.of_nat k) item ltac:(lia) E) as Hs.
    pose proof (height_at_least_one its _ item Hh E).
    specialize (IH l Hl ltac:(lia)).
    replace (l + Z.of_nat (S k)) with (l + Z.of_nat k + 1) by lia. lia.
Qed.

Lemma last_screen_forward its m usable rmax :
  0 <= m -> heights_ok its ->
  visible_range_of its m usable (Z.of_nat (List.length its) - 1) true = inr (Some rmax) ->
  visible_range_of its m usable (first rmax) false = inr (Some rmax).
Proof.
  intros Hm Hh H.
  destruct (backward_scan_facts _ _ _ _ H) as (Hn & Hl & Hf & Hrows & Hfit & _).
  destruct (py_getitem_Some its (first rmax)) as [item E]; [ lia | ].
  destruct (visible_range_of_forward its m usable (first rmax) item ltac:(lia) E)
    as (j & Hj & Hrun & Hstop & _).
  rewrite Hrun.
  assert (Ej : j = last rmax).
  { destruct Hstop as [ Hend | Hover ]; [ lia | ].
    destruct (Z.eq_dec j (last rmax)) as [ | Hne ]; [ assumption | exfalso ].
    pose proof (occupied_rows_mono its m (first rmax) Hm Hh ltac:(lia)
                  (Z.to_nat (last rmax - (j + 1))) (j + 1) ltac:(lia) ltac:(lia)) as Hmono.
    replace (j + 1 + Z.of_nat (Z.to_nat (last rmax - (j + 1)))) with (last rmax)
      in Hmono by lia.
    pose proof (Hfit (first rmax) ltac:(lia)). lia. }
  subst j.
  destruct (last rmax =? first rmax - 1) eqn:Ee; [ lia | ].
  rewrite <- Hrows. destruct rmax; reflexivity.
Qed.

Lemma scroll_to_scroll_max platform m s rmax :
  0 <= m -> heights_ok (items s) ->
  visible_range_of (items s) m (usable_height s)
    (Z.of_nat (List.length (items s)) - 1) true = inr (Some rmax) ->
  scroll_max s = first rmax ->
  scroll_to platform m (scroll_max s) s = Ok tt (set_visible_range (Some rmax) s).
Proof.
  intros Hm Hh Hscan Hsmax.
  destruct (backward_scan_facts _ _ _ _ Hscan) as (Hn & Hl & Hf & _).
  destruct (scroll_to_inside platform m (scroll_max s) s ltac:(lia))
    as (r & Hr & Hrun).
  rewrite Hsmax, (last_screen_forward _ _ _ _ Hm Hh Hscan) in Hr.
  injection Hr as <-. exact Hrun.
Qed.

Lemma minus_one_mod n : 1 <= n -> (0 - 1) mod n = n - 1.
Proof.
  intros H. replace (0 - 1) with (n - 1 + (-1) * n) by lia.
  rewrite Z_mod_plus_full. apply Z.mod_small. lia.
Qed.

(** X12. When [scroll_max] is the first item of the last screen, END
    shows the last screen (from [scroll_max] to the last item, within
    the usable height) with the cursor on the last item, and UP with
    the cursor on item 0 at the top of the window wraps around to the
    very same state. *)
Theorem end_and_up_wrap_to_the_last_screen :
  forall platform m s rmax,
    0 <= m -> heights_ok (items s) ->
    visible_range_of (items s) m (usable_height s)
      (Z.of_nat (List.length (items s)) - 1) true = inr (Some rmax) ->
    scroll_max s = first rmax ->
    apply_key platform m (KStr "END") s
    = Ok Continue
        (set_current_position (Z.of_nat (List.length (items s)) - 1)
           (set_visible_range (Some rmax) s)) /\
    last rmax = Z.of_nat (List.length (items s)) - 1 /\
    range_height rmax <= usable_height s /\
    (forall r,
        visible_range s = Some r -> first r = 0 -> current_position s = 0 ->
        apply_key platform m (KStr "UP") s
        = Ok Continue
            (set_current_position (Z.of_nat (List.length (items s)) - 1)
               (set_visible_range (Some rmax) s))).
Proof.
  intros platform m s rmax Hm Hh Hscan Hsmax.
  pose proof (scroll_to_scroll_max platform m s rmax Hm Hh Hscan Hsmax) as Hto.
  destruct (backward_scan_facts _ _ _ _ Hscan) as (Hn & Hl & Hf & Hrows & Hfit & _).
  split; [ | split; [ exact Hl | split ] ].
  - unfold apply_key. cbn [key_is String.eqb Ascii.eqb Bool.eqb].
    mred_goal. rewrite Hto. reflexivity.
  - rewrite Hrows. apply Hfit. lia.
  - intros r Hvr Hfirst Hcp.
    unfold apply_key. cbn [key_is String.eqb Ascii.eqb Bool.eqb].
    mred_goal. rewrite Hvr, Hcp, Hfirst. cbn [Z.eqb].
    unfold scroll_up. mred_goal. rewrite Hvr, Hfirst. cbn [Z.eqb].
    rewrite Hto. mred_goal. rewrite Hcp.
    destruct (Z.of_nat (Datatypes.length (items s)) =? 0) eqn:E0; [ lia | ].
    rewrite minus_one_mod by lia. reflexivity.
Qed.

Lemma end_and_up_wrap_to_the_last_screen_witness :
  apply_key Unix 0 (KStr "END") ten_items_session
  = Ok Continue
      (set_current_position (Z.of_nat (List.length (items ten_items_session)) - 1)
         (set_visible_range (Some (mkItemRange 7 9 3)) ten_items_session)) /\
  last (mkItemRange 7 9 3) = Z.of_nat (List.length (items ten_items_session)) - 1 /\
  range_height (mkItemRange 7 9 3) <= usable_height ten_items_session /\
  (forall r,
      visible_range ten_items_session = Some r -> first r = 0 ->
      current_position ten_items_session = 0 ->
      apply_key Unix 0 (KStr "UP") ten_items_session
      = Ok Continue
          (set_current_position (Z.of_nat (List.length (items ten_items_session)) - 1)
             (set_visible_range (Some (mkItemRange 7 9 3)) ten_items_session))).
Proof.
  apply (end_and_up_wrap_to_the_last_screen Unix 0 ten_items_session (mkItemRange 7 9 3)).
  - lia.
  - apply prepared_heights_ok.
  - vm_compute; reflexivity.
  - reflexivity.
Defined.

(** ** A terminal narrower than the instruction line *)

Lemma fold_max_bounds :
  forall rest a,
    a <= fold_left Z.max rest a /\
    forall x, In x rest -> x <= fold_left Z.max rest a.
Proof.
  induction rest as [ | y rest IH ]; intros a; simpl.
  - split; [ lia | tauto ].
  - destruct (IH (Z.max a y)) as (Ha & Hx). split; [ lia | ].
    intros x [ <- | Hin ]; [ lia | auto ].
Qed.

Lemma py_max_In xs mx x : py_max xs = Some mx -> In x xs -> x <= mx.
Proof.
  destruct xs as [ | a rest ]; simpl; [ discriminate | ].
  intros [= <-]. destruct (fold_max_bounds rest a) as (Ha & Hx).
  intros [ <- | Hin ]; auto.
Qed.

(** X13. The instruction line is 95 characters long and is always the
    last header line.  With truncation off, a terminal narrower than
    that, whatever the header and the items (there is at least one),
    makes a pass that sees a new size do nothing but show the notice
    that the viewport is too small: if the pass goes on, no session
    variable has changed. *)
Theorem narrow_terminal_is_refused :
  forall platform m header w h s,
    w < py_strlen instructions -> items s <> [] ->
    (terminal_width s, terminal_height s) <> (w, h) ->
    py_strlen instructions = 95 /\
    loop_body platform m false (header_lines_of header) (w, h) s
    = (render_viewport_too_small_error platform ;; ret Continue) s /\
    (forall s',
        loop_body platform m false (header_lines_of header) (w, h) s = Ok Continue s' ->
        vars s' = vars s).
Proof.
  intros platform m header w h s Hw Hne Hsize.
  split; [ reflexivity | ].
  assert (Hbody : loop_body platform m false (header_lines_of header) (w, h) s
                  = (render_viewport_too_small_error platform ;; ret Continue) s).
  { unfold loop_body, measure. mred_goal.
    assert (Ec : negb (terminal_width s =? w) || negb (terminal_height s =? h) = true).
    { destruct (terminal_width s =? w) eqn:Ew; destruct (terminal_height s =? h) eqn:Eh;
        try reflexivity.
      exfalso; apply Hsize; f_equal; lia. }
    rewrite Ec.
    destruct (py_max_Some (map py_strlen (header_lines_of header))) as (mh & Emh).
    { unfold header_lines_of. destruct (py_split_lines header); discriminate. }
    destruct (py_max_Some (map item_len (items s))) as (mi & Emi).
    { destruct (items s); [ congruence | discriminate ]. }
    rewrite Emh, Emi.
    assert (Hmh : py_strlen instructions <= mh).
    { apply (py_max_In _ _ _ Emh). apply in_map. unfold header_lines_of.
      apply in_or_app. right. left. reflexivity. }
    assert (Elt : (w <? Z.max mh mi) = true) by lia.
    rewrite Elt.
    destruct (render_viewport_too_small_error platform s); reflexivity. }
  split; [ exact Hbody | ].
  intros s'. rewrite Hbody. unfold bind.
  destruct (render_viewport_too_small_error platform s) as [ [] s1 | | ] eqn:E;
    try discriminate.
  intros [= <-]. eapply too_small_vars; exact E.
Qed.

Lemma narrow_terminal_is_refused_witness :
  py_strlen instructions = 95 /\
  loop_body Unix 0 false (header_lines_of "h") (80, 24) ten_items_session
  = (render_viewport_too_small_error Unix ;; ret Continue) ten_items_session /\
  (forall s',
      loop_body Unix 0 false (header_lines_of "h") (80, 24) ten_items_session
      = Ok Continue s' ->
      vars s' = vars ten_items_session).
Proof.
  apply (narrow_terminal_is_refused Unix 0 "h" 80 24 ten_items_session).
  - vm_compute; reflexivity.
  - discriminate.
  - discriminate.
Defined.

(** ** The cursor beyond [scroll_max] *)

(** X14. After a measurement that went through, a cursor that lies below
    the window and beyond [scroll_max] makes the pass raise ValueError:
    the scroll that should bring the cursor into view refuses the
    position.  This is what happens when the terminal grows taller
    while the cursor is on one of the last items. *)
Theorem cursor_beyond_scroll_max_raises :
  forall platform m tr hl size s sm r,
    measure platform m tr hl size s = Ok false sm ->
    visible_range sm = Some r -> first r <= last r ->
    last r < current_position sm ->
    scroll_max sm < current_position sm ->
    loop_body platform m tr hl size s = Raise ValueError sm.
Proof.
  intros platform m tr hl size s sm r Hmeasure Hvr Hne Hlast Hsmax.
  unfold loop_body. unfold bind at 1. rewrite Hmeasure.
  mred_goal. rewrite Hvr, (truthy_shown r Hne). mred_goal.
  assert (Eout : (current_position sm <? first r) || (last r <? current_position sm) = true).
  { apply orb_true_iff. right. lia. }
  rewrite Eout. unfold scroll_to. mred_goal.
  assert (Eg : (current_position sm <? 0) || (scroll_max sm <? current_position sm) = true).
  { apply orb_true_iff. right. lia. }
  rewrite Eg. reflexivity.
Qed.

Lemma cursor_beyond_scroll_max_raises_witness :
  exists s sm,
    after_passes Win32 0 false short_header [(120, 10)]
      (initial_session (prepared (one_line_items 10)) (raw_END Win32)) = Some s /\
    loop_body Win32 0 false short_header (120, 8) s = Raise ValueError sm.
Proof.
  eexists. eexists. split; [ vm_compute; reflexivity | ].
  eapply (cursor_beyond_scroll_max_raises Win32 0 false short_header (120, 8) _ _
            (mkItemRange 5 7 3)).
  - vm_compute; reflexivity.
  - reflexivity.
  - simpl; lia.
  - simpl; lia.
  - simpl; lia.
Defined.

(** ** Scrolling by one item *)

Lemma trim_last_exact its m usable :
  forall (fuel : nat) (vf vl : Z),
    0 <= vf <= vl + 1 -> vl < Z.of_nat (List.length its) ->
    vl - vf + 1 <= Z.of_nat fuel ->
    exists vl',
      trim_last its m usable fuel vf vl (occupied_rows its m vf vl)
      = inr (vl', occupied_rows its m vf vl') /\
      vf - 1 <= vl' <= vl /\
      (occupied_rows its m vf vl' <= usable \/ vl' = vf - 1) /\
      (forall j, vl' < j <= vl -> usable < occupied_rows its m vf j).
Proof.
  induction fuel as [ | fuel IH ]; intros vf vl Hvf Hvl Hfuel.
  - exists vl. assert (vl = vf - 1) by lia; subst vl.
    simpl. destruct ((vf <=? vf - 1) && _); repeat split; intros; lia.
  - simpl.
    destruct ((vf <=? vl) && (occupied_rows its m vf vl >? usable)) eqn:Hc.
    + apply andb_prop in Hc as [Hle Hgt].
      destruct (py_getitem_Some its vl) as [item E]; [ lia | ].
      rewrite E.
      pose proof (occupied_rows_snoc its m vf (vl - 1) item) as Hs.
      replace (vl - 1 + 1) with vl in Hs by lia.
      rewrite Hs by (try lia; exact E).
      replace (occupied_rows its m vf (vl - 1) + m + height item - (m + height item))
        with (occupied_rows its m vf (vl - 1)) by lia.
      destruct (IH vf (vl - 1)) as (vl' & Hrun & Hb & Hfit & Hmax); try lia.
      exists vl'; repeat split; try lia; try assumption.
      intros j Hj. destruct (Z.eq_dec j vl) as [ -> | Hne ].
      * apply Z.gtb_lt in Hgt. exact Hgt.
      * apply Hmax. lia.
    + exists vl. apply andb_false_iff in Hc.
      repeat split; intros; lia.
Qed.

Lemma trim_first_exact its m usable :
  forall (fuel : nat) (vf vl : Z),
    0 <= vf <= vl + 1 -> vl < Z.of_nat (List.length its) ->
    vl - vf + 1 <= Z.of_nat fuel ->
    exists vf',
      trim_first its m usable fuel vf vl (occupied_rows its m vf vl)
      = inr (vf', occupied_rows its m vf' vl) /\
      vf <= vf' <= vl + 1 /\
      (occupied_rows its m vf' vl <= usable \/ vf' = vl + 1) /\
      (forall j, vf <= j < vf' -> usable < occupied_rows its m j vl).
Proof.
  induction fuel as [ | fuel IH ]; intros vf vl Hvf Hvl Hfuel.
  - exists vf. assert (vl = vf - 1) by lia; subst vl.
    simpl. destruct ((vf <=? vf - 1) && _); repeat split; intros; lia.
  - simpl.
    destruct ((vf <=? vl) && (occupied_rows its m vf vl >? usable)) eqn:Hc.
    + apply andb_prop in Hc as [Hle Hgt].
      destruct (py_getitem_Some its vf) as [item E]; [ lia | ].
      rewrite E.
      pose proof (occupied_rows_cons its m (vf + 1) vl item) as Hs.
      replace (vf + 1 - 1) with vf in Hs by lia.
      rewrite Hs by (try lia; exact E).
      replace (occupied_rows its m (vf + 1) vl + m + height item - (m + height item))
        with (occupied_rows its m (vf + 1) vl) by lia.
      destruct (IH (vf + 1) vl) as (vf' & Hrun & Hb & Hfit & Hmin); try lia.
      exists vf'; repeat split; try lia; try assumption.
      intros j Hj. destruct (Z.eq_dec j vf) as [ -> | Hne ].
      * apply Z.gtb_lt in Hgt. exact Hgt.
      * apply Hmin. lia.
    + exists vf. apply andb_false_iff in Hc.
      repeat split; intros; lia.
Qed.

(** X15. [scroll_up] away from the top, when the item before the window
    fits the usable height by itself: the new window starts at that
    item, fits the usable height, and ends at the last of the old items
    that still fits; every old item after it would not have fitted. *)
Theorem scroll_up_brings_the_previous_item :
  forall platform m s r item,
    window_ok m s ->
    visible_range s = Some r -> first r <= last r -> first r <> 0 ->
    py_getitem (items s) (first r - 1) = Some item ->
    height item <= usable_height s ->
    exists l',
      scroll_up platform m s
      = Ok tt (set_visible_range
                 (Some (mkItemRange (first r - 1) l'
                          (occupied_rows (items s) m (first r - 1) l'))) s) /\
      first r - 1 <= l' <= last r /\
      occupied_rows (items s) m (first r - 1) l' <= usable_height s /\
      (forall j, l' < j <= last r ->
                 usable_height s < occupied_rows (items s) m (first r - 1) j).
Proof.
  intros platform m s r item [Hh Hr] Hvr Hne H0 E Hfit.
  destruct (Hr r Hvr) as (Hf0 & _ & Hn & Hexact & _ & _).
  destruct (trim_last_exact (items s) m (usable_height s)
              (Z.to_nat (last r - (first r - 1) + 1)) (first r - 1) (last r))
    as (l' & Hrun & Hb & Hle & Hmax); try lia.
  assert (Hl' : first r - 1 <= l').
  { destruct (Z_le_gt_dec (first r - 1) l') as [ | Hgt ]; [ assumption | exfalso ].
    specialize (Hmax (first r - 1) ltac:(lia)).
    rewrite (occupied_rows_single (items s) m (first r - 1) item ltac:(lia) E) in Hmax.
    lia. }
  assert (Hrows : occupied_rows (items s) m (first r - 1) l' <= usable_height s).
  { destruct Hle as [ | -> ]; [ assumption | lia ]. }
  exists l'. split; [ | repeat split; try lia; assumption ].
  unfold scroll_up. mred_goal. rewrite Hvr.
  destruct (first r =? 0) eqn:Ef; [ lia | ].
  rewrite E.
  pose proof (occupied_rows_cons (items s) m (first r) (last r) item ltac:(lia) E) as Hc.
  rewrite Hexact, <- Hc, Hrun. mred_goal.
  destruct (occupied_rows (items s) m (first r - 1) l' >? usable_height s) eqn:Eo;
    [ lia | ].
  unfold error_unless. mred_goal.
  rewrite truthy_shown by (simpl; lia). reflexivity.
Qed.

Lemma scroll_up_brings_the_previous_item_witness :
  exists l',
    scroll_up Unix 0
      (set_visible_range (Some (mkItemRange 3 5 3)) ten_items_session)
    = Ok tt (set_visible_range
               (Some (mkItemRange (3 - 1) l'
                        (occupied_rows (prepared (one_line_items 10)) 0 (3 - 1) l')))
               (set_visible_range (Some (mkItemRange 3 5 3)) ten_items_session)) /\
    3 - 1 <= l' <= 5 /\
    occupied_rows (prepared (one_line_items 10)) 0 (3 - 1) l' <= 3 /\
    (forall j, l' < j <= 5 ->
               3 < occupied_rows (prepared (one_line_items 10)) 0 (3 - 1) j).
Proof.
  apply (scroll_up_brings_the_previous_item Unix 0
           (set_visible_range (Some (mkItemRange 3 5 3)) ten_items_session)
           (mkItemRange 3 5 3) (new_ChecklistItem "item" false (PyInt 2))).
  - split; [ apply prepared_heights_ok | ].
    intros r [= <-]. repeat split; simpl; try lia; vm_compute; congruence.
  - reflexivity.
  - simpl; lia.
  - simpl; lia.
  - reflexivity.
  - vm_compute; discriminate.
Defined.

(** X16. [scroll_down] away from [scroll_max], when the item after the
    window fits the usable height by itself: the new window holds that
    item, fits the usable height, starts at the first old item from
    which it fits (every earlier start would not have), and then takes
    every further item that still fits. *)
Theorem scroll_down_brings_the_next_item :
  forall platform m s r item,
    window_ok m s ->
    visible_range s = Some r -> first r <= last r -> first r <> scroll_max s ->
    py_getitem (items s) (last r + 1) = Some item ->
    height item <= usable_height s ->
    exists f' l',
      scroll_down platform m s
      = Ok tt (set_visible_range
                 (Some (mkItemRange f' l' (occupied_rows (items s) m f' l'))) s) /\
      first r <= f' <= last r + 1 /\
      last r + 1 <= l' < Z.of_nat (List.length (items s)) /\
      occupied_rows (items s) m f' l' <= usable_height s /\
      (forall j, first r <= j < f' ->
                 usable_height s < occupied_rows (items s) m j (last r + 1)) /\
      (l' = Z.of_nat (List.length (items s)) - 1 \/
       usable_height s < occupied_rows (items s) m f' (l' + 1)).
Proof.
  intros platform m s r item [Hh Hr] Hvr Hne Hsmax E Hfit.
  destruct (Hr r Hvr) as (Hf0 & _ & Hn & Hexact & _ & _).
  pose proof (py_getitem_bound (items s) (last r + 1) item ltac:(lia) E) as Hlast.
  destruct (trim_first_exact (items s) m (usable_height s)
              (Z.to_nat (last r + 1 - first r + 1)) (first r) (last r + 1))
    as (f' & Hrun & Hb & Hle & Hmin); try lia.
  assert (Hf' : f' <= last r + 1).
  { destruct (Z_le_gt_dec f' (last r + 1)) as [ | Hgt ]; [ assumption | exfalso ].
    specialize (Hmin (last r + 1) ltac:(lia)).
    rewrite (occupied_rows_single (items s) m (last r + 1) item ltac:(lia) E) in Hmin.
    lia. }
  assert (Hrows : occupied_rows (items s) m f' (last r + 1) <= usable_height s).
  { destruct Hle as [ | -> ]; [ assumption | lia ]. }
  destruct (fit_loop_forward (items s) m (usable_height s) f'
              (Z.to_nat (Z.of_nat (List.length (items s)) - (last r + 1 + 1)))
              (last r + 1 + 1) (last r + 1))
    as (j & Hj & Hext & Hstop & Hall); try lia.
  replace (last r + 1 + 1 - 1) with (last r + 1) in * by lia.
  assert (Hj' : (if j =? last r + 1 then last r + 1 else j) = j).
  { destruct (j =? last r + 1) eqn:Ej; lia. }
  rewrite Hj' in Hext.
  exists f', j. split; [ | repeat split; try lia; try assumption ].
  - unfold scroll_down. mred_goal. rewrite Hvr.
    destruct (first r =? scroll_max s) eqn:Ef; [ lia | ].
    rewrite E.
    pose proof (occupied_rows_snoc (items s) m (first r) (last r) item ltac:(lia) E) as Hc.
    rewrite Hexact, <- Hc, Hrun. mred_goal.
    destruct (occupied_rows (items s) m f' (last r + 1) >? usable_height s) eqn:Eo;
      [ lia | ].
    rewrite Hext. mred_goal.
    unfold error_unless. mred_goal.
    rewrite truthy_shown by (simpl; lia). reflexivity.
  - destruct (Z.eq_dec j (last r + 1)) as [ -> | Hne' ]; [ exact Hrows | ].
    apply Hall. lia.
Qed.

Lemma scroll_down_brings_the_next_item_witness :
  exists f' l',
    scroll_down Unix 0 ten_items_session
    = Ok tt (set_visible_range
               (Some (mkItemRange f' l'
                        (occupied_rows (items ten_items_session) 0 f' l')))
               ten_items_session) /\
    0 <= f' <= 2 + 1 /\
    2 + 1 <= l' < Z.of_nat (List.length (items ten_items_session)) /\
    occupied_rows (items ten_items_session) 0 f' l' <= usable_height ten_items_session /\
    (forall j, 0 <= j < f' ->
               usable_height ten_items_session
               < occupied_rows (items ten_items_session) 0 j (2 + 1)) /\
    (l' = Z.of_nat (List.length (items ten_items_session)) - 1 \/
     usable_height ten_items_session
     < occupied_rows (items ten_items_session) 0 f' (l' + 1)).
Proof.
  apply (scroll_down_brings_the_next_item Unix 0 ten_items_session
           (mkItemRange 0 2 3) (new_ChecklistItem "item" false (PyInt 3))).
  - split; [ apply prepared_heights_ok | ].
    intros r [= <-]. repeat split; simpl; try lia; vm_compute; congruence.
  - reflexivity.
  - simpl; lia.
  - simpl; lia.
  - reflexivity.
  - vm_compute; discriminate.
Defined.

(** ** Line feeds of the terminal calls *)

Lemma line_feeds_concat xs :
  line_feeds (String.concat "" xs) = fold_right Z.add 0 (map line_feeds xs).
Proof.
  induction xs as [ | x xs IH ]; [ reflexivity | ].
  rewrite concat_empty_cons, line_feeds_append, IH. reflexivity.
Qed.

Lemma line_feeds_uint d : line_feeds (NilEmpty.string_of_uint d) = 0.
Proof. induction d; simpl; lia. Qed.

Lemma line_feeds_int z : line_feeds (py_str_of_int z) = 0.
Proof.
  unfold py_str_of_int, NilZero.string_of_int, NilZero.string_of_uint.
  destruct (Z.to_int z) as [ d | d ]; destruct d; 
    try reflexivity;
    match goal with
    | |- line_feeds (NilEmpty.string_of_uint ?d) = 0 => apply line_feeds_uint
    | |- line_feeds (String "-" (NilEmpty.string_of_uint ?d)) = 0 =>
        change (0 + line_feeds (NilEmpty.string_of_uint d) = 0);
        rewrite line_feeds_uint; reflexivity
    end.
Qed.

Lemma line_feeds_move_to row column : line_feeds (move_to_bytes row column) = 0.
Proof.
  unfold move_to_bytes, CSI.
  change (line_feeds (String ASCII_ESC ?s)) with (0 + line_feeds s).
  rewrite line_feeds_append, line_feeds_concat. simpl.
  rewrite !line_feeds_int. reflexivity.
Qed.

Lemma line_feeds_write text bold color :
  line_feeds (write_bytes text bold color) = line_feeds text.
Proof.
  unfold write_bytes.
  destruct (negb bold && is_DEFAULT color); [ reflexivity | ].
  rewrite line_feeds_concat. cbn [map fold_right].
  assert (Hb : line_feeds (if bold then BOLD else "") = 0) by (destruct bold; reflexivity).
  assert (Hc : line_feeds (Color_value color) = 0) by (destruct color; reflexivity).
  rewrite Hb, Hc. change (line_feeds RESET) with 0. lia.
Qed.

Lemma line_feeds_LF text : line_feeds (String.append text LF) = line_feeds text + 1.
Proof. rewrite line_feeds_append. reflexivity. Qed.

Lemma fed_add c s : fed (add_stdout c s) = fed s + line_feeds (bytes_of_call c).
Proof.
  unfold fed. cbn [stdout add_stdout].
  rewrite screen_bytes_app, line_feeds_append.
  unfold screen_bytes at 2. cbn [map]. rewrite line_feeds_concat.
  cbn [map fold_right]. lia.
Qed.

Lemma fed_overwrite_line text (newline bold : bool) color s :
  fed (add_stdout (overwrite_line text newline bold color) s)
  = fed s + line_feeds text + (if newline then 1 else 0).
Proof.
  rewrite fed_add. cbn [bytes_of_call]. rewrite line_feeds_concat.
  cbn [map fold_right]. rewrite line_feeds_write.
  change (line_feeds CLEAR_LINE) with 0. destruct newline; simpl; lia.
Qed.

Lemma fed_write text bold color s :
  fed (add_stdout (write text bold color) s) = fed s + line_feeds text.
Proof. rewrite fed_add. cbn [bytes_of_call]. rewrite line_feeds_write. reflexivity. Qed.

Lemma fed_write_line text bold color s :
  fed (add_stdout (write_line text bold color) s) = fed s + line_feeds text + 1.
Proof.
  rewrite fed_add. cbn [bytes_of_call]. rewrite line_feeds_write, line_feeds_LF. lia.
Qed.

Lemma fed_move_to row column s : fed (add_stdout (move_to row column) s) = fed s.
Proof. rewrite fed_add. cbn [bytes_of_call]. rewrite line_feeds_move_to. lia. Qed.

Lemma fed_clear s : fed (add_stdout (clear_lines_after None) s) = fed s.
Proof. rewrite fed_add. simpl. lia. Qed.

Lemma fed_flush s : fed (add_stdout flush s) = fed s.
Proof. rewrite fed_add. simpl. lia. Qed.

Lemma line_feeds_prefix :
  forall (s : string) (n : nat), 0 <= line_feeds (substring 0 n s) <= line_feeds s.
Proof.
  induction s as [ | c s IH ]; intros [ | n ]; simpl; try lia.
  - pose proof (line_feeds_nonneg s). destruct (Ascii.eqb c "010"); lia.
  - specialize (IH n). destruct (Ascii.eqb c "010"); lia.
Qed.

Lemma truncated_feeds (tr : bool) line offset width :
  line_feeds line = 0 ->
  line_feeds (if tr && (offset + py_strlen line >? width)
              then String.append (py_slice_to line (width - offset - 3)) "..."
              else line) = 0.
Proof.
  intros H. destruct (tr && _); [ | exact H ].
  rewrite line_feeds_append. unfold py_slice_to.
  pose proof (line_feeds_prefix line
                (Z.to_nat (if width - offset - 3 <? 0
                           then Z.max 0 (py_strlen line + (width - offset - 3))
                           else Z.min (width - offset - 3) (py_strlen line)))).
  simpl. lia.
Qed.

(** ** The rows an item takes *)

Lemma for_each_fed {A : Type} (body : A -> M unit) (g : A -> Z) (s0 : Session) :
  forall xs,
    (forall x s1, In x xs -> vars s1 = vars s0 ->
                  exists s2, body x s1 = Ok tt s2 /\ vars s2 = vars s1 /\
                             stdin s2 = stdin s1 /\ fed s2 = fed s1 + g x) ->
    forall s1, vars s1 = vars s0 ->
               exists s2, for_each xs body s1 = Ok tt s2 /\ vars s2 = vars s1 /\
                          stdin s2 = stdin s1 /\
                          fed s2 = fed s1 + fold_right Z.add 0 (map g xs).
Proof.
  induction xs as [ | x xs IH ]; intros Hbody s1 Hv; simpl.
  - exists s1. repeat split; lia.
  - destruct (Hbody x s1 (or_introl eq_refl) Hv) as (s2 & E & Hv2 & Hi2 & Hf2).
    destruct (IH (fun y s Hy => Hbody y s (or_intror Hy)) s2 ltac:(congruence))
      as (s3 & E3 & Hv3 & Hi3 & Hf3).
    exists s3. unfold bind. rewrite E, E3. repeat split; try congruence. lia.
Qed.

Lemma sum_of_ones {A : Type} (xs : list A) :
  fold_right Z.add 0 (map (fun _ => 1) xs) = Z.of_nat (List.length xs).
Proof.
  induction xs as [ | x xs IH ]; [ reflexivity | ].
  cbn [map fold_right List.length]. rewrite IH. lia.
Qed.

Lemma py_slice_rest_length {A : Type} (l : list A) (stop : Z) :
  (1 <= List.length l)%nat -> 0 <= stop ->
  Z.of_nat (List.length (py_slice l 1 stop))
  = Z.max 0 (Z.min (Z.of_nat (List.length l)) stop - 1).
Proof.
  intros Hn Hstop. unfold py_slice.
  rewrite length_firstn, length_skipn.
  destruct (stop <? 0) eqn:E; [ lia | ].
  change (1 <? 0) with false. cbv beta iota. lia.
Qed.

Lemma py_slice_In {A : Type} (l : list A) lo hi x : In x (py_slice l lo hi) -> In x l.
Proof.
  unfold py_slice. intros H.
  match type of H with
  | In _ (firstn ?n (skipn ?k _)) =>
      rewrite <- (firstn_skipn k l); apply in_or_app; right;
      rewrite <- (firstn_skipn n (skipn k l)); apply in_or_app; left; exact H
  end.
Qed.

Lemma render_item_fed tr i max_lines s item :
  py_getitem (items s) i = Some item ->
  1 <= height item ->
  Forall (fun line => line_feeds line = 0) (label_lines item) ->
  (forall n, max_lines = Some n -> 1 <= n) ->
  exists s', render_item tr i max_lines s = Ok tt s' /\
             vars s' = vars s /\ stdin s' = stdin s /\
             fed s' = fed s + rows_drawn (height item) max_lines.
Proof.
  intros E Hh Hlines Hmax. unfold render_item.
  assert (Hguard : match max_lines with Some n => n <? 1 | None => false end = false).
  { destruct max_lines as [ n | ]; [ | reflexivity ].
    specialize (Hmax n eq_refl). lia. }
  rewrite Hguard. mred_goal. rewrite E.
  assert (Hline : exists line0, py_getitem (label_lines item) 0 = Some line0).
  { apply py_getitem_Some. unfold height in Hh. lia. }
  destruct Hline as (line0 & E0).
  assert (Hline0 : line_feeds line0 = 0).
  { rewrite Forall_forall in Hlines. apply Hlines.
    unfold py_getitem in E0. destruct (_ && _) in E0; [ | discriminate ].
    eapply nth_error_In; exact E0. }
  set (stop := match max_lines with
               | Some n => n - 1
               | None => item_len item
               end).
  assert (Hstop : 0 <= stop).
  { subst stop. destruct max_lines as [ n | ]; [ specialize (Hmax n eq_refl); lia | ].
    unfold item_len; lia. }
  assert (Hrows : 1 + Z.of_nat (List.length (py_slice (label_lines item) 1 stop))
                  = rows_drawn (height item) max_lines).
  { rewrite py_slice_rest_length by (unfold height in Hh; lia || exact Hstop).
    subst stop. unfold rows_drawn, height, item_len in *.
    destruct max_lines as [ n | ]; lia. }
  assert (Hbody :
            forall line s3,
              In line (py_slice (label_lines item) 1 stop) ->
              exists s4,
                (text <- truncate tr (String.append OTHER_LINES_INDENTATION line) 0 ;;
                 term (overwrite_line text true false DEFAULT)) s3 = Ok tt s4 /\
                vars s4 = vars s3 /\ stdin s4 = stdin s3 /\ fed s4 = fed s3 + 1).
  { intros line s3 Hin. unfold truncate; mred_goal.
    eexists; split; [ reflexivity | ]. split; [ reflexivity | ].
    split; [ reflexivity | ].
    rewrite fed_overwrite_line, truncated_feeds; [ lia | ].
    rewrite line_feeds_append. apply py_slice_In in Hin.
    rewrite Forall_forall in Hlines. rewrite (Hlines line Hin). reflexivity. }
  destruct (checked item); mred_goal; rewrite E0; unfold truncate at 1; mred_goal.
  - match goal with
    | |- context [for_each ?xs ?body ?st] =>
        assert (Hfe : exists s2,
                   for_each xs body st = Ok tt s2 /\ vars s2 = vars st /\
                   stdin s2 = stdin st /\
                   fed s2 = fed st + fold_right Z.add 0 (map (fun _ => 1) xs))
          by (apply (for_each_fed body (fun _ => 1) st xs); [ | reflexivity ];
              intros line s3 Hin _; apply Hbody; exact Hin)
    end.
    destruct Hfe as (s2 & E2 & Hv & Hi & Hf).
    exists s2. rewrite E2. split; [ reflexivity | ].
    split; [ rewrite Hv; reflexivity | ]. split; [ rewrite Hi; reflexivity | ].
    rewrite Hf, sum_of_ones, fed_write_line, fed_write, fed_overwrite_line.
    rewrite truncated_feeds by exact Hline0.
    rewrite <- Hrows.
    match goal with
    | |- context [line_feeds (if ?b then ?x else ?y)] =>
        replace (line_feeds (if b then x else y)) with 0 by (destruct b; reflexivity)
    end.
    match goal with
    | |- context [line_feeds (String.append ?x CHECKBOX_SEPARATOR)] =>
        change (line_feeds (String.append x CHECKBOX_SEPARATOR)) with 0
    end.
    lia.
  - match goal with
    | |- context [for_each ?xs ?body ?st] =>
        assert (Hfe : exists s2,
                   for_each xs body st = Ok tt s2 /\ vars s2 = vars st /\
                   stdin s2 = stdin st /\
                   fed s2 = fed st + fold_right Z.add 0 (map (fun _ => 1) xs))
          by (apply (for_each_fed body (fun _ => 1) st xs); [ | reflexivity ];
              intros line s3 Hin _; apply Hbody; exact Hin)
    end.
    destruct Hfe as (s2 & E2 & Hv & Hi & Hf).
    exists s2. rewrite E2. split; [ reflexivity | ].
    split; [ rewrite Hv; reflexivity | ]. split; [ rewrite Hi; reflexivity | ].
    rewrite Hf, sum_of_ones, fed_write_line, fed_write, fed_overwrite_line.
    rewrite truncated_feeds by exact Hline0.
    rewrite <- Hrows.
    match goal with
    | |- context [line_feeds (if ?b then ?x else ?y)] =>
        replace (line_feeds (if b then x else y)) with 0 by (destruct b; reflexivity)
    end.
    match goal with
    | |- context [line_feeds (String.append ?x CHECKBOX_SEPARATOR)] =>
        change (line_feeds (String.append x CHECKBOX_SEPARATOR)) with 0
    end.
    lia.
Qed.

(** X17. [render_item] on an item of the list raises ValueError for a
    line limit below one.  Otherwise it changes no session variable and
    moves the terminal down by as many rows as it draws: every line of
    the item without a limit, and with the limit [n] the first
    [max 1 (min height (n - 1))] lines, never more than [n]. *)
Theorem render_item_draws_its_rows :
  forall tr i max_lines s item,
    py_getitem (items s) i = Some item ->
    1 <= height item ->
    Forall (fun line => line_feeds line = 0) (label_lines item) ->
    (forall n, max_lines = Some n -> n < 1 ->
               render_item tr i max_lines s = Raise ValueError s) /\
    ((forall n, max_lines = Some n -> 1 <= n) ->
     exists s',
       render_item tr i max_lines s = Ok tt s' /\
       vars s' = vars s /\ stdin s' = stdin s /\
       fed s' = fed s + rows_drawn (height item) max_lines /\
       1 <= rows_drawn (height item) max_lines <= height item /\
       (forall n, max_lines = Some n -> rows_drawn (height item) max_lines <= n)).
Proof.
  intros tr i max_lines s item E Hh Hlines. split.
  - intros n -> Hn. unfold render_item.
    destruct (n <? 1) eqn:En; [ reflexivity | lia ].
  - intros Hmax.
    destruct (render_item_fed tr i max_lines s item E Hh Hlines Hmax)
      as (s' & Hrun & Hv & Hi & Hf).
    exists s'. repeat split; try assumption.
    + unfold rows_drawn. destruct max_lines; lia.
    + unfold rows_drawn. destruct max_lines; lia.
    + intros n ->. specialize (Hmax n eq_refl). unfold rows_drawn. lia.
Qed.

Lemma render_item_draws_its_rows_witness :
  (forall n, Some 2 = Some n -> n < 1 ->
             render_item false 3 (Some 2) ten_items_session
             = Raise ValueError ten_items_session) /\
  ((forall n, Some 2 = Some n -> 1 <= n) ->
   exists s',
     render_item false 3 (Some 2) ten_items_session = Ok tt s' /\
     vars s' = vars ten_items_session /\ stdin s' = stdin ten_items_session /\
     fed s' = fed ten_items_session
              + rows_drawn (height (new_ChecklistItem "item" false (PyInt 3))) (Some 2) /\
     1 <= rows_drawn (height (new_ChecklistItem "item" false (PyInt 3))) (Some 2)
     <= height (new_ChecklistItem "item" false (PyInt 3)) /\
     (forall n, Some 2 = Some n ->
                rows_drawn (height (new_ChecklistItem "item" false (PyInt 3))) (Some 2)
                <= n)).
Proof.
  apply (render_item_draws_its_rows false 3 (Some 2) ten_items_session
           (new_ChecklistItem "item" false (PyInt 3))).
  - reflexivity.
  - vm_compute; discriminate.
  - repeat constructor.
Defined.

(** ** The line feeds a window takes *)

Lemma render_item_margin_fed m s :
  0 <= m ->
  exists s', render_item_margin m s = Ok tt s' /\
             vars s' = vars s /\ stdin s' = stdin s /\ fed s' = fed s + m.
Proof.
  intros Hm. unfold render_item_margin.
  destruct (for_each_fed
              (fun _ : Z => term (overwrite_line "" true false DEFAULT))
              (fun _ => 1) s (py_range 0 m)) with (s1 := s)
    as (s' & E & Hv & Hi & Hf).
  - intros x s1 _ _. unfold term, modify. eexists. split; [ reflexivity | ].
    split; [ reflexivity | ]. split; [ reflexivity | ].
    rewrite fed_overwrite_line. simpl. lia.
  - reflexivity.
  - exists s'. repeat split; try assumption.
    rewrite Hf, sum_of_ones. unfold py_range. rewrite length_map, length_seq. lia.
Qed.

Lemma rows_sum its m :
  forall (k : nat) (f : Z) item,
    0 <= f -> f + Z.of_nat k < Z.of_nat (List.length its) ->
    py_getitem its f = Some item ->
    occupied_rows its m f (f + Z.of_nat k)
    = height item
      + fold_right Z.add 0
          (map (fun i => m + match py_getitem its i with
                             | Some it => height it
                             | None => 0
                             end)
             (py_range (f + 1) (f + Z.of_nat k + 1))).
Proof.
  induction k as [ | k IH ]; intros f item Hf Hn E.
  - replace (f + Z.of_nat 0) with f by lia.
    rewrite py_range_nil by lia.
    rewrite (occupied_rows_single its m f item Hf E). simpl. lia.
  - destruct (py_getitem_Some its (f + 1)) as [next En]; [ lia | ].
    pose proof (occupied_rows_cons its m (f + 1) (f + Z.of_nat (S k)) item) as Hc.
    replace (f + 1 - 1) with f in Hc by lia.
    rewrite Hc by (try lia; exact E).
    specialize (IH (f + 1) next ltac:(lia) ltac:(lia) En).
    replace (f + 1 + Z.of_nat k) with (f + Z.of_nat (S k)) in IH by lia.
    rewrite IH.
    rewrite (py_range_cons (f + 1)) by lia.
    cbn [map fold_right]. rewrite En. lia.
Qed.

Lemma render_fed m tr hl s r :
  0 <= m ->
  heights_ok (items s) -> lines_ok (items s) ->
  visible_range s = Some r ->
  0 <= first r -> first r <= last r -> last r < Z.of_nat (List.length (items s)) ->
  exists s' extra,
    render m tr hl s = Ok tt s' /\
    fed s' = fed s + occupied_rows (items s) m (first r) (last r) + extra /\
    0 <= extra /\
    (extra = 0 \/ extra <= usable_height s - range_height r).
Proof.
  intros Hm Hh Hlines Hvr H0 Hne Hn.
  assert (Hitem : forall i s1, 0 <= i < Z.of_nat (List.length (items s)) ->
                               vars s1 = vars s ->
                               forall ml, (forall n, ml = Some n -> 1 <= n) ->
                               exists s2 item,
                                 py_getitem (items s) i = Some item /\
                                 render_item tr i ml s1 = Ok tt s2 /\
                                 vars s2 = vars s1 /\ stdin s2 = stdin s1 /\
                                 fed s2 = fed s1 + rows_drawn (height item) ml).
  { intros i s1 Hi Hv ml Hml.
    assert (Eit : items s1 = items s) by (vars_rw Hv; reflexivity).
    destruct (py_getitem_Some (items s) i Hi) as (item & E).
    destruct (render_item_fed tr i ml s1 item) as (s2 & E2 & Hv2 & Hi2 & Hf2).
    - rewrite Eit; exact E.
    - eapply height_at_least_one; eassumption.
    - unfold lines_ok in Hlines. rewrite Forall_forall in Hlines. apply Hlines.
      unfold py_getitem in E. destruct (_ && _) in E; [ | discriminate ].
      eapply nth_error_In; exact E.
    - exact Hml.
    - exists s2, item. auto. }
  unfold render. mred_goal. rewrite Hvr.
  destruct (Hitem (first r) (add_stdout (move_to (Z.of_nat (Datatypes.length hl) + 1) 0) s)
              ltac:(lia) eq_refl None ltac:(discriminate))
    as (s1 & item0 & E0 & E1 & Hv1 & Hi1 & Hf1).
  change (vars s1 = vars s) in Hv1.
  rewrite fed_move_to in Hf1. cbn [rows_drawn] in Hf1.
  rewrite E1.
  match goal with
  | |- context [for_each ?xs ?body s1] =>
      assert (Hfe : exists s2,
                 for_each xs body s1 = Ok tt s2 /\ vars s2 = vars s1 /\
                 stdin s2 = stdin s1 /\
                 fed s2 = fed s1
                          + fold_right Z.add 0
                              (map (fun i => m + match py_getitem (items s) i with
                                                 | Some it => height it
                                                 | None => 0
                                                 end) xs))
  end.
  { apply (for_each_fed _ _ s); [ | exact Hv1 ].
    intros i s3 Hin Hv3. apply in_py_range in Hin.
    destruct (render_item_margin_fed m s3 Hm) as (s4 & E4 & Hv4 & Hi4 & Hf4).
    destruct (Hitem i s4 ltac:(lia) ltac:(congruence) None ltac:(discriminate))
      as (s5 & item & Ei & E5 & Hv5 & Hi5 & Hf5).
    exists s5. unfold bind. rewrite E4, E5, Ei.
    cbn [rows_drawn] in Hf5.
    repeat split; try congruence. lia. }
  destruct Hfe as (s2 & E2 & Hv2 & Hi2 & Hf2).
  rewrite E2.
  assert (Hrows : fed s2 = fed s + occupied_rows (items s) m (first r) (last r)).
  { pose proof (rows_sum (items s) m (Z.to_nat (last r - first r)) (first r) item0
                  H0 ltac:(lia) E0) as Hsum.
    replace (first r + Z.of_nat (Z.to_nat (last r - first r))) with (last r)
      in Hsum by lia.
    rewrite Hf2, Hf1, Hsum. lia. }
  match goal with
  | |- context [match ?part with Ok _ _ => _ | Raise _ _ => _ | Wait _ => _ end] =>
      assert (Hpart : exists s3 extra,
                 part = Ok tt s3 /\ vars s3 = vars s2 /\ stdin s3 = stdin s2 /\
                 fed s3 = fed s2 + extra /\ 0 <= extra /\
                 (extra = 0 \/ extra <= usable_height s - range_height r))
  end.
  { destruct (_ && _) eqn:Ec.
    2:{ exists s2, 0. repeat split; lia. }
    apply andb_prop in Ec as [Ea Eb].
    destruct (render_item_margin_fed m s2 Hm) as (s4 & E4 & Hv4 & Hi4 & Hf4).
    destruct (Hitem (last r + 1) s4 ltac:(lia) ltac:(congruence)
                (Some (usable_height s - range_height r - m)))
      as (s5 & item & Ei & E5 & Hv5 & Hi5 & Hf5).
    { intros n [= <-]. lia. }
    exists s5, (m + rows_drawn (height item) (Some (usable_height s - range_height r - m))).
    rewrite E4, E5.
    pose proof (height_at_least_one (items s) _ item Hh Ei).
    unfold rows_drawn in *.
    repeat split; try congruence; try lia. }
  destruct Hpart as (s3 & extra & E3 & Hv3 & Hi3 & Hf3 & Hextra & Hbound).
  rewrite E3. unfold truncate. mred_goal.
  eexists. exists extra. split; [ reflexivity | ].
  split; [ | split; assumption ].
  rewrite fed_flush, fed_overwrite_line, fed_move_to, fed_clear.
  rewrite truncated_feeds.
  - rewrite Hf3, Hrows. lia.
  - rewrite line_feeds_concat. cbn [map fold_right].
    rewrite !line_feeds_int. reflexivity.
Qed.

(** X18. Drawing a window that is in order and not empty, while the
    cached terminal size stands, succeeds, and the number of line feeds
    it writes, from the move to the first row of the list to the flush
    after the footer, is at least the height of the window and at most
    the usable height.  This counts line feeds, not rows of the screen:
    what a line wider than the terminal does to the rows below it is
    not part of the statement. *)
Theorem render_feeds_within_the_usable_height :
  forall m tr hl s r,
    0 <= m ->
    window_ok m s -> lines_ok (items s) ->
    visible_range s = Some r -> first r <= last r ->
    (terminal_width s, terminal_height s) <> (0, 0) ->
    exists s',
      render m tr hl s = Ok tt s' /\
      range_height r <= fed s' - fed s <= usable_height s.
Proof.
  intros m tr hl s r Hm [Hh Hr] Hlines Hvr Hne Hsize.
  destruct (Hr r Hvr) as (H0 & _ & Hn & Hexact & _ & Hfit).
  specialize (Hfit Hsize).
  destruct (render_fed m tr hl s r Hm Hh Hlines Hvr H0 Hne Hn)
    as (s' & extra & Hrun & Hf & Hextra & Hbound).
  exists s'. split; [ exact Hrun | ].
  rewrite Hf, <- Hexact. lia.
Qed.

Lemma default_tags_lines_ok its : forall i, lines_ok (default_tags i its).
Proof.
  induction its as [ | item its IH ]; intros i; simpl; constructor.
  - apply label_lines_no_feed.
  - apply IH.
Qed.

Lemma prepared_lines_ok raw : lines_ok (prepared raw).
Proof.
  unfold prepared. destruct (make_all raw); [ constructor | ].
  apply default_tags_lines_ok.
Qed.

Lemma render_feeds_within_the_usable_height_witness :
  exists s',
    render 0 false short_header ten_items_session = Ok tt s' /\
    range_height (mkItemRange 0 2 3) <= fed s' - fed ten_items_session
    <= usable_height ten_items_session.
Proof.
  apply (render_feeds_within_the_usable_height 0 false short_header ten_items_session
           (mkItemRange 0 2 3)).
  - lia.
  - split; [ apply prepared_heights_ok | ].
    intros r [= <-]. repeat split; simpl; try lia; vm_compute; congruence.
  - apply prepared_lines_ok.
  - reflexivity.
  - simpl; lia.
  - discriminate.
Defined.

(** ** SPACE *)

Lemma replace_nth_twice {A : Type} (l : list A) k x y :
  replace_nth k x (replace_nth k y l) = replace_nth k x l.
Proof.
  revert k; induction l as [ | a l IH ]; intros [ | k ]; simpl; try reflexivity.
  rewrite IH. reflexivity.
Qed.

Lemma replace_nth_same_element {A : Type} (l : list A) k x :
  nth_error l k = Some x -> replace_nth k x l = l.
Proof.
  revert k; induction l as [ | a l IH ]; intros [ | k ]; simpl; try discriminate.
  - intros [= ->]. reflexivity.
  - intros H. rewrite (IH k H). reflexivity.
Qed.

Lemma nth_error_replace_nth {A : Type} (l : list A) k x y :
  nth_error l k = Some y -> nth_error (replace_nth k x l) k = Some x.
Proof.
  revert k; induction l as [ | a l IH ]; intros [ | k ]; simpl; try discriminate.
  - reflexivity.
  - apply IH.
Qed.

Lemma nth_error_replace_other {A : Type} (l : list A) k j x :
  k <> j -> nth_error (replace_nth k x l) j = nth_error l j.
Proof.
  revert k j; induction l as [ | a l IH ]; intros [ | k ] [ | j ] H; simpl;
    try reflexivity; try congruence.
  apply IH. congruence.
Qed.

Lemma toggle_twice item : toggle (toggle item None) None = item.
Proof. destruct item; unfold toggle; simpl. rewrite negb_involutive. reflexivity. Qed.

(** X19. SPACE flips the checked flag of the item under the cursor and
    nothing else: label, lines and tag of that item, every other item,
    the window and the cursor stay as they are, and a second SPACE
    restores the session exactly. *)
Theorem space_toggles_the_item_under_the_cursor :
  forall platform m s item,
    0 <= current_position s ->
    py_getitem (items s) (current_position s) = Some item ->
    exists s1,
      apply_key platform m (KStr "SPACE") s = Ok Continue s1 /\
      nth_error (items s1) (Z.to_nat (current_position s)) = Some (toggle item None) /\
      checked (toggle item None) = negb (checked item) /\
      same_item item (toggle item None) /\
      (forall k, k <> Z.to_nat (current_position s) ->
                 nth_error (items s1) k = nth_error (items s) k) /\
      window s1 = window s /\
      apply_key platform m (KStr "SPACE") s1 = Ok Continue s.
Proof.
  intros platform m s item Hcp E.
  pose proof E as En. rewrite py_getitem_nth_error in En by exact Hcp.
  eexists. split; [ apply apply_key_SPACE; eassumption | ].
  cbn [items set_items].
  split; [ eapply nth_error_replace_nth; exact En | ].
  split; [ reflexivity | ].
  split; [ repeat split | ].
  split; [ intros k Hk; apply nth_error_replace_other; congruence | ].
  split; [ reflexivity | ].
  rewrite (apply_key_SPACE platform m _ (toggle item None)).
  - cbn [items set_items current_position].
    rewrite toggle_twice, replace_nth_twice, (replace_nth_same_element _ _ _ En).
    destruct s; reflexivity.
  - exact Hcp.
  - cbn [items set_items current_position].
    rewrite py_getitem_nth_error by exact Hcp.
    eapply nth_error_replace_nth; exact En.
Qed.

Lemma space_toggles_the_item_under_the_cursor_witness :
  exists s1,
    apply_key Unix 0 (KStr "SPACE") ten_items_session = Ok Continue s1 /\
    nth_error (items s1) (Z.to_nat (current_position ten_items_session))
    = Some (toggle (new_ChecklistItem "item" false (PyInt 0)) None) /\
    checked (toggle (new_ChecklistItem "item" false (PyInt 0)) None)
    = negb (checked (new_ChecklistItem "item" false (PyInt 0))) /\
    same_item (new_ChecklistItem "item" false (PyInt 0))
      (toggle (new_ChecklistItem "item" false (PyInt 0)) None) /\
    (forall k, k <> Z.to_nat (current_position ten_items_session) ->
               nth_error (items s1) k = nth_error (items ten_items_session) k) /\
    window s1 = window ten_items_session /\
    apply_key Unix 0 (KStr "SPACE") s1 = Ok Continue ten_items_session.
Proof.
  apply (space_toggles_the_item_under_the_cursor Unix 0 ten_items_session
           (new_ChecklistItem "item" false (PyInt 0))).
  - simpl; lia.
  - reflexivity.
Defined.

(** ** A taller viewport *)

(** X20. The scan is monotone in the usable height: a window found from
    an item of the list, in either direction, is contained in the
    window found from the same item with any greater usable
    height. *)
Theorem taller_viewport_shows_no_less :
  forall its m usable usable' p to item r,
    0 <= p -> py_getitem its p = Some item ->
    usable <= usable' ->
    visible_range_of its m usable p to = inr (Some r) ->
    exists r',
      visible_range_of its m usable' p to = inr (Some r') /\
      first r' <= first r /\ last r <= last r'.
Proof.
  intros its m usable usable' p to item r Hp E Hu H.
  destruct to.
  - destruct (visible_range_of_backward its m usable p item Hp E)
      as (j & Hj & Hrun & _ & Hfit).
    destruct (visible_range_of_backward its m usable' p item Hp E)
      as (j' & Hj' & Hrun' & Hstop' & _).
    rewrite Hrun in H. rewrite Hrun'.
    destruct (j =? p + 1) eqn:Ej; [ discriminate | ]. injection H as <-.
    assert (Hle : j' <= j).
    { destruct (Z_le_gt_dec j' j) as [ | Hgt ]; [ assumption | exfalso ].
      destruct Hstop' as [ -> | Hover ]; [ lia | ].
      specialize (Hfit (j' - 1) ltac:(lia)). lia. }
    destruct (j' =? p + 1) eqn:Ej'; [ lia | ].
    eexists. split; [ reflexivity | ]. simpl. lia.
  - destruct (visible_range_of_forward its m usable p item Hp E)
      as (j & Hj & Hrun & _ & Hfit).
    destruct (visible_range_of_forward its m usable' p item Hp E)
      as (j' & Hj' & Hrun' & Hstop' & _).
    rewrite Hrun in H. rewrite Hrun'.
    destruct (j =? p - 1) eqn:Ej; [ discriminate | ]. injection H as <-.
    assert (Hle : j <= j').
    { destruct (Z_le_gt_dec j j') as [ | Hgt ]; [ assumption | exfalso ].
      destruct Hstop' as [ -> | Hover ]; [ lia | ].
      specialize (Hfit (j' + 1) ltac:(lia)). lia. }
    destruct (j' =? p - 1) eqn:Ej'; [ lia | ].
    eexists. split; [ reflexivity | ]. simpl. lia.
Qed.

Lemma taller_viewport_shows_no_less_witness :
  exists r',
    visible_range_of (prepared tall_items) 1 9 1 false = inr (Some r') /\
    first r' <= first (mkItemRange 1 1 5) /\ last (mkItemRange 1 1 5) <= last r'.
Proof.
  apply (taller_viewport_shows_no_less (prepared tall_items) 1 5 9 1 false
           (new_ChecklistItem five_lines false (PyInt 1)) (mkItemRange 1 1 5)).
  - lia.
  - reflexivity.
  - lia.
  - vm_compute; reflexivity.
Defined.

(** ** What the loop leaves of the items *)

Lemma same_items_heights xs ys :
  Forall2 same_item xs ys -> heights_ok xs -> heights_ok ys.
Proof.
  unfold heights_ok.
  induction 1 as [ | x y xs ys (_ & _ & Hl) H IH ]; intros Hh; constructor;
    inversion Hh; subst.
  - unfold height in *. rewrite <- Hl. assumption.
  - apply IH; assumption.
Qed.

Lemma same_items_lines xs ys :
  Forall2 same_item xs ys -> lines_ok xs -> lines_ok ys.
Proof.
  unfold lines_ok.
  induction 1 as [ | x y xs ys (_ & _ & Hl) H IH ]; intros Hh; constructor;
    inversion Hh; subst.
  - rewrite <- Hl. assumption.
  - apply IH; assumption.
Qed.

Lemma after_passes_evolves platform m tr hl :
  forall sizes s s',
    after_passes platform m tr hl sizes s = Some s' -> evolves s s'.
Proof.
  induction sizes as [ | size sizes IH ]; intros s s' H; simpl in H.
  - injection H as <-. apply evolves_refl.
  - pose proof (loop_body_evolves platform m tr hl size s) as Hstep.
    destruct (loop_body platform m tr hl size s) as [ [ | ] s1 | | ];
      try discriminate.
    eapply evolves_trans; [ exact Hstep | apply IH; exact H ].
Qed.

(** X21. In every session the loop body can leave behind, the items are
    the prepared ones up to their checked flags, in the same number and
    order, each with at least one line and no line feed inside a line;
    the input still to be read is a suffix of the input given; and the
    passes have neither entered nor left the application mode. *)
Theorem loop_only_flips_checked_flags :
  forall platform m tr hl raw sizes input s,
    after_passes platform m tr hl sizes (initial_session (prepared raw) input) = Some s ->
    Forall2 same_item (prepared raw) (items s) /\
    heights_ok (items s) /\
    lines_ok (items s) /\
    (exists used, input = used ++ stdin s) /\
    Forall keeps_mode (stdout s).
Proof.
  intros platform m tr hl raw sizes input s H.
  apply after_passes_evolves in H as ((out & Hout & Hkeep) & Hin & Hitems).
  simpl in *.
  split; [ exact Hitems | ].
  split; [ eapply same_items_heights; [ exact Hitems | apply prepared_heights_ok ] | ].
  split; [ eapply same_items_lines; [ exact Hitems | apply prepared_lines_ok ] | ].
  split; [ exact Hin | ].
  rewrite Hout. exact Hkeep.
Qed.

Lemma loop_only_flips_checked_flags_witness :
  exists s,
    after_passes Unix 0 false short_header [(120, 24)]
      (initial_session (prepared abc) (SPACE_BYTE ++ ["x"%char])) = Some s /\
    Forall2 same_item (prepared abc) (items s) /\
    heights_ok (items s) /\
    lines_ok (items s) /\
    (exists used, SPACE_BYTE ++ ["x"%char] = used ++ stdin s) /\
    Forall keeps_mode (stdout s).
Proof.
  eexists. split; [ vm_compute; reflexivity | ].
  apply (loop_only_flips_checked_flags Unix 0 false short_header abc [(120, 24)]
           (SPACE_BYTE ++ ["x"%char])).
  vm_compute; reflexivity.
Defined.

(** ** The keys of both platforms *)

(** X22. The names both decoders can return are exactly UP, DOWN, HOME,
    END, SPACE and ENTER: these six are decoded on Windows and on
    Unix, and no other name is. *)
Theorem keys_decoded_on_both_platforms :
  forall name,
    decodable win_get_key name /\ decodable unix_get_key name <->
    In name ["UP"; "DOWN"; "HOME"; "END"; "SPACE"; "ENTER"].
Proof.
  intros name. split.
  - intros ((wi & wr & Hw) & (ui & ur & Hu)).
    apply win_frames in Hw as (_ & _ & _ & _ & _ & _ & _ & Hnine).
    apply unix_frames in Hu as (_ & _ & _ & _ & _ & _ & Hunbound & _).
    specialize (Hnine name eq_refl). specialize (Hunbound name eq_refl).
    simpl in Hnine.
    repeat (destruct Hnine as [ <- | Hnine ];
            [ first [ discriminate Hunbound | simpl; tauto ] | ]).
    contradiction.
  - intros Hin. simpl in Hin.
    repeat (destruct Hin as [ <- | Hin ];
            [ split;
              [ first [ exists (raw_DOWN Win32), []; reflexivity
                      | exists ["224"%char; "H"%char], []; reflexivity
                      | exists ["224"%char; "G"%char], []; reflexivity
                      | exists (raw_END Win32), []; reflexivity
                      | exists SPACE_BYTE, []; reflexivity
                      | exists ENTER_BYTE, []; reflexivity ]
              | first [ exists (raw_DOWN Unix), []; reflexivity
                      | exists [ASCII_ESC; "["%char; "A"%char], []; reflexivity
                      | exists [ASCII_ESC; "["%char; "H"%char], []; reflexivity
                      | exists (raw_END Unix), []; reflexivity
                      | exists SPACE_BYTE, []; reflexivity
                      | exists ENTER_BYTE, []; reflexivity ] ]
            | ]).
    contradiction.
Qed.

(** ** A resize *)

(** X23. A measurement that sees a new size and goes through stores that
    size, makes the usable height the terminal height less the header
    lines less three, and replaces the window by the forward scan from
    the first item of the window there was (from the cursor when there
    was none): a window that is then stored starts at that item, is not
    empty and fits the new usable height.  Cursor and items are left
    alone. *)
Theorem resize_keeps_the_first_visible_item :
  forall platform m tr hl w h s s',
    (terminal_width s, terminal_height s) <> (w, h) ->
    0 <= anchor s ->
    measure platform m tr hl (w, h) s = Ok false s' ->
    (terminal_width s', terminal_height s') = (w, h) /\
    usable_height s' = h - Z.of_nat (List.length hl) - 3 /\
    visible_range_of (items s) m (usable_height s') (anchor s) false
    = inr (visible_range s') /\
    (forall r', visible_range s' = Some r' ->
                first r' = anchor s /\ first r' <= last r' /\
                range_height r' <= usable_height s') /\
    current_position s' = current_position s /\ items s' = items s.
Proof.
  intros platform m tr hl w h s s' Hsize Hanchor H.
  unfold measure in H. mred H.
  assert (Ec : negb (terminal_width s =? w) || negb (terminal_height s =? h) = true).
  { destruct (terminal_width s =? w) eqn:Ew; destruct (terminal_height s =? h) eqn:Eh;
      try reflexivity.
    exfalso; apply Hsize; f_equal; lia. }
  rewrite Ec in H.
  mcase H E0.
  assert (s0 = s); [ | subst s0 ].
  { destruct (negb tr); [ | congruence ].
    destruct (py_max (map py_strlen hl)); [ | discriminate ].
    destruct (py_max (map item_len (items s))); [ | discriminate ].
    congruence. }
  clear E0. destruct a.
  { mcase H E1. discriminate. }
  mcase H E1.
  assert (Hv1 : vars s0 = vars (set_terminal_size w h s)).
  { eapply for_each_vars in E1; [ exact E1 | ].
    intros line s1 u1 s2. unfold truncate, bind, gets, ret.
    intros [= _ <-]; reflexivity. }
  clear E1.
  assert (Eit : items s0 = items s) by (vars_rw Hv1; reflexivity).
  assert (Etw : terminal_width s0 = w) by (vars_rw Hv1; reflexivity).
  assert (Eth : terminal_height s0 = h) by (vars_rw Hv1; reflexivity).
  assert (Evr : visible_range s0 = visible_range s) by (vars_rw Hv1; reflexivity).
  assert (Ecp : current_position s0 = current_position s) by (vars_rw Hv1; reflexivity).
  rewrite Eit in H.
  set (u' := h - Z.of_nat (Datatypes.length hl) - 3) in *.
  destruct (visible_range_of (items s) m u' (Z.of_nat (Datatypes.length (items s)) - 1) true)
    as [ e | smax_vr ]; [ discriminate | ].
  destruct (truthy smax_vr) as [ e | [ | ] ] eqn:Et; [ discriminate | | ].
  2:{ mred H. mcase H E2. discriminate. }
  destruct smax_vr as [ smax_r | ]; [ | discriminate ].
  mred H. rewrite Evr, Ecp, Eit in H.
  fold (anchor s) in H.
  destruct (visible_range_of (items s) m u' (anchor s) false) as [ e | r' ] eqn:Escan;
    [ discriminate | ].
  injection H as <-. cbn.
  rewrite Etw, Eth, Ecp, Eit.
  split; [ reflexivity | ]. split; [ reflexivity | ].
  split; [ exact Escan | ]. split; [ | split; reflexivity ].
  intros r0 ->.
  destruct (visible_range_of_forward_ok _ _ _ _ _ Hanchor Escan)
    as (Hf & Hl & _ & _ & Hu).
  repeat split; assumption.
Qed.

Lemma resize_keeps_the_first_visible_item_witness :
  exists s',
    measure Unix 0 false short_header (120, 10)
      (set_visible_range (Some (mkItemRange 3 5 3)) ten_items_session) = Ok false s' /\
    (terminal_width s', terminal_height s') = (120, 10) /\
    usable_height s' = 10 - Z.of_nat (List.length short_header) - 3 /\
    visible_range_of
      (items (set_visible_range (Some (mkItemRange 3 5 3)) ten_items_session)) 0
      (usable_height s')
      (anchor (set_visible_range (Some (mkItemRange 3 5 3)) ten_items_session)) false
    = inr (visible_range s') /\
    (forall r', visible_range s' = Some r' ->
                first r'
                = anchor (set_visible_range (Some (mkItemRange 3 5 3)) ten_items_session) /\
                first r' <= last r' /\
                range_height r' <= usable_height s') /\
    current_position s'
    = current_position (set_visible_range (Some (mkItemRange 3 5 3)) ten_items_session) /\
    items s' = items (set_visible_range (Some (mkItemRange 3 5 3)) ten_items_session).
Proof.
  eexists. split; [ vm_compute; reflexivity | ].
  apply (resize_keeps_the_first_visible_item Unix 0 false short_header 120 10
           (set_visible_range (Some (mkItemRange 3 5 3)) ten_items_session)).
  - discriminate.
  - unfold anchor; simpl; lia.
  - vm_compute; reflexivity.
Defined.

(** ** The window is full *)

Lemma window_full_vars m s s' : vars s' = vars s -> window_full m s -> window_full m s'.
Proof.
  unfold window_full, full_or_reset, full_range. intros H; vars_rw H; auto.
Qed.

Lemma window_full_intro m s s' vr cp :
  vars s' = vars (set_current_position cp (set_visible_range vr s)) ->
  full_or_reset m s vr -> window_full m s'.
Proof.
  intros Hv Hvr. apply (window_full_vars _ _ _ Hv). exact Hvr.
Qed.

Lemma scan_full m s p r :
  0 <= p ->
  visible_range_of (items s) m (usable_height s) p false = inr (Some r) ->
  full_range m s r.
Proof.
  intros Hp Hscan.
  destruct (Z_lt_le_dec p (Z.of_nat (List.length (items s)))) as [Hlt | Hge].
  - destruct (py_getitem_Some (items s) p) as [item E]; [ lia | ].
    destruct (visible_range_of_forward (items s) m (usable_height s) p item Hp E)
      as (j & Hj & Hrun & Hstop & _).
    rewrite Hrun in Hscan. destruct (j =? p - 1); [ discriminate | ].
    injection Hscan as <-. exact Hstop.
  - rewrite visible_range_of_beyond in Hscan by lia. discriminate.
Qed.

Lemma scroll_to_full platform m p s u s' :
  scroll_to platform m p s = Ok u s' ->
  exists vr, vars s' = vars (set_visible_range vr s) /\ full_or_reset m s vr.
Proof.
  intros H. apply scroll_to_Ok in H as (Hp & vr & Hscan & Hvars).
  exists vr; split; [ exact Hvars | ].
  intros _ r ->. eapply scan_full; [ | exact Hscan ]. lia.
Qed.

Lemma trim_last_max its m usable :
  forall (fuel : nat) (vf vl : Z),
    0 <= vf <= vl + 1 -> vl < Z.of_nat (List.length its) ->
    vl - vf + 1 <= Z.of_nat fuel ->
    exists vl',
      trim_last its m usable fuel vf vl (occupied_rows its m vf vl)
      = inr (vl', occupied_rows its m vf vl') /\
      vf - 1 <= vl' <= vl /\
      (vl' = vl \/ usable < occupied_rows its m vf (vl' + 1)).
Proof.
  induction fuel as [ | fuel IH ]; intros vf vl Hvf Hvl Hfuel.
  - exists vl. assert (vl = vf - 1) by lia; subst vl.
    simpl. destruct ((vf <=? vf - 1) && _); repeat split; lia.
  - simpl.
    destruct ((vf <=? vl) && (occupied_rows its m vf vl >? usable)) eqn:Hc.
    + apply andb_prop in Hc as [Hle Hgt].
      destruct (py_getitem_Some its vl) as [item E]; [ lia | ].
      rewrite E.
      pose proof (occupied_rows_snoc its m vf (vl - 1) item) as Hs.
      replace (vl - 1 + 1) with vl in Hs by lia.
      rewrite Hs by (try lia; exact E).
      replace (occupied_rows its m vf (vl - 1) + m + height item - (m + height item))
        with (occupied_rows its m vf (vl - 1)) by lia.
      destruct (IH vf (vl - 1)) as (vl' & Hrun & Hb & Hmax); try lia.
      exists vl'; repeat split; try lia; try assumption.
      destruct Hmax as [ -> | Hmax ]; [ | right; exact Hmax ].
      right. replace (vl - 1 + 1) with vl by lia. lia.
    + exists vl. repeat split; lia.
Qed.

Lemma scroll_up_full platform m s u s' :
  0 <= m -> window_ok m s -> shown s -> window_full m s ->
  scroll_up platform m s = Ok u s' ->
  exists vr, vars s' = vars (set_visible_range vr s) /\ full_or_reset m s vr.
Proof.
  intros Hm [Hh Hr] (r & Hvr & Hne) Hfull H.
  destruct (Hr r Hvr) as (H0 & _ & Hn & Hexact & _ & Hfit).
  unfold scroll_up in H. mred H. rewrite Hvr in H.
  destruct (first r =? 0) eqn:Ef.
  - eapply scroll_to_full; exact H.
  - destruct (py_getitem (items s) (first r - 1)) as [ item | ] eqn:E; [ | discriminate ].
    destruct (trim_last_max (items s) m (usable_height s)
                (Z.to_nat (last r - (first r - 1) + 1)) (first r - 1) (last r))
      as (vl' & Hrun & Hb & Hmax); try lia.
    pose proof (occupied_rows_cons (items s) m (first r) (last r) item) as Hc.
    rewrite Hc in Hrun by (try lia; assumption).
    rewrite <- Hexact in Hrun.
    rewrite Hrun in H. mred H.
    set (r' := mkItemRange (first r - 1) vl' (occupied_rows (items s) m (first r - 1) vl')) in *.
    assert (Hr' : full_or_reset m s (Some r')).
    { intros Hsize r0 [= <-]. unfold full_range; subst r'; simpl.
      destruct Hmax as [ -> | Hmax ]; [ | right; exact Hmax ].
      destruct (Hfull Hsize r Hvr) as [ Hend | Hover ]; [ left; exact Hend | ].
      right.
      pose proof (occupied_rows_cons (items s) m (first r) (last r + 1) item
                    ltac:(lia) E) as Hc'.
      pose proof (height_at_least_one (items s) _ item Hh E). lia. }
    exists (Some r'); split; [ | exact Hr' ].
    destruct (occupied_rows (items s) m (first r - 1) vl' >? usable_height s).
    + destruct (render_viewport_too_small_error platform (set_visible_range None s))
        as [ [] s1 | | ] eqn:E1; try discriminate.
      apply too_small_vars in E1.
      apply error_unless_vars in H. rewrite H.
      rewrite (vars_set_visible_range _ _ _ E1). reflexivity.
    + apply error_unless_vars in H. exact H.
Qed.

Lemma scroll_down_full platform m s u s' :
  window_ok m s -> shown s ->
  scroll_down platform m s = Ok u s' ->
  exists vr, vars s' = vars (set_visible_range vr s) /\ full_or_reset m s vr.
Proof.
  intros [Hh Hr] (r & Hvr & Hne) H.
  destruct (Hr r Hvr) as (H0 & _ & Hn & Hexact & _ & Hfit).
  unfold scroll_down in H. mred H. rewrite Hvr in H.
  destruct (first r =? scroll_max s) eqn:Ef.
  - eapply scroll_to_full; exact H.
  - destruct (py_getitem (items s) (last r + 1)) as [ item | ] eqn:E; [ | discriminate ].
    pose proof (py_getitem_bound (items s) (last r + 1) item ltac:(lia) E) as Hlast.
    destruct (trim_first_spec (items s) m (usable_height s)
                (Z.to_nat (last r + 1 - first r + 1)) (first r) (last r + 1))
      as (vf' & Hrun & Hb & Hfit'); try lia.
    pose proof (occupied_rows_snoc (items s) m (first r) (last r) item) as Hc.
    rewrite Hc in Hrun by (try lia; assumption).
    rewrite <- Hexact in Hrun.
    rewrite Hrun in H. mred H.
    destruct (fit_loop_forward (items s) m (usable_height s) vf'
                (Z.to_nat (Z.of_nat (List.length (items s)) - (last r + 1 + 1)))
                (last r + 1 + 1) (last r + 1))
      as (j & Hj & Hext & Hstop & Hall); try lia.
    replace (last r + 1 + 1 - 1) with (last r + 1) in Hext by lia.
    assert (Hj' : (if j =? last r + 1 then last r + 1 else j) = j).
    { destruct (j =? last r + 1) eqn:Ej; lia. }
    rewrite Hj' in Hext.
    set (r' := mkItemRange vf' j (occupied_rows (items s) m vf' j)) in *.
    assert (Hr' : full_or_reset m s (Some r')).
    { intros _ r0 [= <-]. exact Hstop. }
    exists (Some r'); split; [ | exact Hr' ].
    destruct (occupied_rows (items s) m vf' (last r + 1) >? usable_height s).
    + destruct (render_viewport_too_small_error platform (set_visible_range None s))
        as [ [] s1 | | ] eqn:E1; try discriminate.
      pose proof (too_small_vars _ _ _ _ E1) as Hv1.
      rewrite Hext in H. mred H.
      apply error_unless_vars in H. rewrite H.
      rewrite (vars_set_visible_range _ _ _ Hv1). reflexivity.
    + rewrite Hext in H. mred H.
      apply error_unless_vars in H. exact H.
Qed.

Lemma measure_full platform m tr hl size s again s' :
  session_ok m s -> window_full m s ->
  measure platform m tr hl size s = Ok again s' ->
  window_full m s'.
Proof.
  intros Hok Hfull H. destruct size as [w h].
  unfold measure in H. mred H.
  destruct (negb (terminal_width s =? w) || negb (terminal_height s =? h)).
  2:{ injection H as <- <-. exact Hfull. }
  mcase H E0.
  assert (s0 = s); [ | subst s0 ].
  { destruct (negb tr); [ | congruence ].
    destruct (py_max (map py_strlen hl)); [ | discriminate ].
    destruct (py_max (map item_len (items s))); [ | discriminate ].
    congruence. }
  clear E0. destruct a.
  - mcase H E1. injection H as <- <-. apply too_small_vars in E1.
    apply (window_full_vars _ _ _ E1), Hfull.
  - mcase H E1.
    assert (Hv1 : vars s0 = vars (set_terminal_size w h s)).
    { eapply for_each_vars in E1; [ exact E1 | ].
      intros line s1 u1 s2. unfold truncate, bind, gets, ret.
      intros [= _ <-]; reflexivity. }
    clear E1. destruct Hok as [[Hh Hr] Hcur].
    assert (Eit : items s0 = items s) by (vars_rw Hv1; reflexivity).
    assert (Ecp : current_position s0 = current_position s) by (vars_rw Hv1; reflexivity).
    assert (Evr : visible_range s0 = visible_range s) by (vars_rw Hv1; reflexivity).
    rewrite Eit in H.
    set (u' := h - Z.of_nat (Datatypes.length hl) - 3) in *.
    destruct (visible_range_of (items s) m u' (Z.of_nat (Datatypes.length (items s)) - 1) true)
      as [ e | smax_vr ]; [ discriminate | ].
    destruct (truthy smax_vr) as [ e | [ | ] ] eqn:Et; [ discriminate | | ].
    + destruct smax_vr as [ smax_r | ]; [ | discriminate ].
      mred H. rewrite Evr, Ecp, ?Eit in H.
      set (p := match visible_range s with
                | Some o => first o
                | None => current_position s
                end) in *.
      assert (Hp : 0 <= p).
      { subst p. destruct (visible_range s) as [ o | ] eqn:Eo.
        - apply (Hr o eq_refl).
        - apply Hcur; reflexivity. }
      destruct (visible_range_of (items s) m u' p false) as [ e | r' ] eqn:Escan;
        [ discriminate | ].
      injection H as <- <-.
      intros _ r Hvr. cbn in Hvr. subst r'.
      pose proof (scan_full m (set_usable_height u' (set_terminal_size w h s)) p r Hp Escan)
        as Hsf.
      unfold full_range in *; cbn in *. rewrite Eit. exact Hsf.
    + mred H. mcase H E2. injection H as <- <-.
      intros Hsize. cbn in Hsize. congruence.
Qed.

Lemma page_full platform m key s c s' :
  window_ok m s -> shown s -> window_full m s ->
  page platform m key s = Ok c s' ->
  window_full m s'.
Proof.
  intros Hw Hs Hfull H.
  destruct Hs as (r & Hvr & Hne).
  unfold page in H. mred H. rewrite Hvr in H.
  rewrite (truthy_shown r Hne) in H. mred H.
  mcase H E0.
  assert (Hpick :
            (a = None /\ window_full m s0) \/
            (exists new_scroll, a = Some new_scroll /\ s0 = s)).
  { destruct (key_is key "PGDN").
    - destruct (first r =? scroll_max s); injection E0 as <- <-.
      + left; split; [ reflexivity | ].
        eapply (window_full_intro m s _ (Some r)); [ | rewrite <- Hvr; exact Hfull ].
        unfold vars; cbn; rewrite Hvr; reflexivity.
      + right; eauto.
    - destruct (first r =? 0).
      + injection E0 as <- <-.
        left; split; [ reflexivity | ].
        eapply (window_full_intro m s _ (Some r)); [ | rewrite <- Hvr; exact Hfull ].
        unfold vars; cbn; rewrite Hvr; reflexivity.
      + destruct (visible_range_of (items s) m (usable_height s) (first r - 1) true)
          as [ e | new_vr ]; [ discriminate | ].
        mred E0.
        destruct (truthy new_vr) as [ e | [ | ] ]; [ discriminate | | ]; mred E0.
        * destruct new_vr as [ nr | ]; [ | discriminate ].
          injection E0 as <- <-. right; eauto.
        * mcase E0 E1. injection E0 as <- <-. apply too_small_vars in E1.
          left; split; [ reflexivity | ].
          apply (window_full_vars _ _ _ E1), Hfull. }
  clear E0. destruct Hpick as [[-> Hs0] | (new_scroll & -> & ->)].
  { injection H as <- <-. exact Hs0. }
  assert (Hlen : py_len r = inr (range_len r)).
  { unfold py_len, range_len. destruct (_ <? 0) eqn:E; [ lia | reflexivity ]. }
  rewrite Hlen in H. mred H.
  mcase H E1.
  assert (s0 = s); [ | subst s0 ].
  { destruct (range_len r >? 1); [ | congruence ].
    destruct (py_truediv _ _); [ discriminate | congruence ]. }
  clear E1. mcase H E2.
  apply (scroll_to_full platform m) in E2 as (vr & Hv & Hvr').
  assert (Evr : visible_range s0 = vr) by (vars_rw Hv; reflexivity).
  rewrite Evr in H.
  destruct (truthy vr) as [ e | [ | ] ] eqn:Et; [ discriminate | | ]; mred H.
  - destruct vr as [ r2 | ]; [ | discriminate ].
    destruct (py_len r2) as [ e | n2 ]; [ discriminate | ].
    destruct (py_int_of_float _) as [ e | offset ]; [ discriminate | ].
    injection H as <- <-.
    eapply (window_full_intro m s _ (Some r2) (first r2 + offset)); [ | exact Hvr' ].
    unfold vars in *; cbn in *; congruence.
  - mcase H E3. injection H as <- <-. apply too_small_vars in E3.
    eapply (window_full_intro m s _ vr new_scroll); [ | exact Hvr' ].
    unfold vars in *; cbn in *; congruence.
Qed.

Lemma window_full_set_items m s its' :
  map height its' = map height (items s) ->
  window_full m s -> window_full m (set_items its' s).
Proof.
  intros E Hfull.
  assert (Hlen : List.length its' = List.length (items s)).
  { rewrite <- (length_map height its'), E, length_map; reflexivity. }
  intros Hsize r Hvr. cbn in *.
  unfold full_range; cbn. rewrite Hlen.
  rewrite (occupied_rows_ext its' (items s) m _ _ E).
  exact (Hfull Hsize r Hvr).
Qed.

Lemma apply_key_full platform m key s c s' :
  0 <= m -> window_ok m s -> shown s -> window_full m s ->
  apply_key platform m key s = Ok c s' ->
  window_full m s'.
Proof.
  intros Hm Hw Hs Hfull H.
  pose proof (shown_nonempty m s Hw Hs) as Hn.
  pose proof Hs as (r & Hvr & Hne).
  unfold apply_key in H.
  destruct (key_is key "UP").
  { mred H. rewrite Hvr in H. mcase H E0.
    assert (Hstep : exists vr, vars s0 = vars (set_visible_range vr s) /\
                               full_or_reset m s vr).
    { destruct (current_position s =? first r).
      - eapply scroll_up_full; eassumption.
      - injection E0 as _ <-. exists (Some r); split.
        + unfold vars; cbn; rewrite Hvr; reflexivity.
        + rewrite <- Hvr; exact Hfull. }
    clear E0. destruct Hstep as (vr & Hv & Hvr').
    assert (Eit : items s0 = items s) by (vars_rw Hv; reflexivity).
    rewrite Eit in H.
    destruct (Z.of_nat (Datatypes.length (items s)) =? 0) eqn:E0; [ discriminate | ].
    injection H as <- <-.
    eapply (window_full_intro m s _ vr
              ((current_position s0 - 1) mod Z.of_nat (Datatypes.length (items s))));
      [ unfold vars in *; cbn in *; congruence | exact Hvr' ]. }
  destruct (key_is key "DOWN").
  { mred H. rewrite Hvr in H. mcase H E0.
    assert (Hstep : exists vr, vars s0 = vars (set_visible_range vr s) /\
                               full_or_reset m s vr).
    { destruct (current_position s =? last r).
      - eapply scroll_down_full; eassumption.
      - injection E0 as _ <-. exists (Some r); split.
        + unfold vars; cbn; rewrite Hvr; reflexivity.
        + rewrite <- Hvr; exact Hfull. }
    clear E0. destruct Hstep as (vr & Hv & Hvr').
    assert (Eit : items s0 = items s) by (vars_rw Hv; reflexivity).
    rewrite Eit in H.
    destruct (Z.of_nat (Datatypes.length (items s)) =? 0) eqn:E0; [ discriminate | ].
    injection H as <- <-.
    eapply (window_full_intro m s _ vr
              ((current_position s0 + 1) mod Z.of_nat (Datatypes.length (items s))));
      [ unfold vars in *; cbn in *; congruence | exact Hvr' ]. }
  destruct (key_is key "HOME").
  { mred H. mcase H E0. injection H as <- <-.
    apply (scroll_to_full platform m) in E0 as (vr & Hv & Hvr').
    eapply (window_full_intro m s _ vr 0);
      [ unfold vars in *; cbn in *; congruence | exact Hvr' ]. }
  destruct (key_is key "END").
  { mred H. mcase H E0. injection H as <- <-.
    apply (scroll_to_full platform m) in E0 as (vr & Hv & Hvr').
    assert (Eit : items s0 = items s) by (vars_rw Hv; reflexivity).
    eapply (window_full_intro m s _ vr (Z.of_nat (Datatypes.length (items s)) - 1));
      [ unfold vars in *; cbn in *; congruence | exact Hvr' ]. }
  destruct (key_is key "PGUP" || key_is key "PGDN").
  { eapply page_full; eassumption. }
  destruct (key_is key "SPACE").
  { mred H.
    destruct (py_getitem (items s) (current_position s)) as [ item | ] eqn:E;
      [ | discriminate ].
    injection H as <- <-.
    apply window_full_set_items; [ | exact Hfull ].
    unfold py_getitem in E.
    destruct (current_position s <? 0) eqn:Eneg.
    + destruct (_ && _) eqn:Eb in E; [ | discriminate ].
      eapply replace_nth_map; [ exact E | reflexivity ].
    + destruct (_ && _) eqn:Eb in E; [ | discriminate ].
      eapply replace_nth_map; [ exact E | reflexivity ]. }
  destruct (key_is key "ENTER").
  { injection H as <- <-. exact Hfull. }
  destruct (key_is key "ESCAPE"); [ discriminate | ].
  injection H as <- <-. exact Hfull.
Qed.

Lemma loop_body_full platform m tr hl size s s' :
  0 <= m -> session_ok m s -> window_full m s ->
  loop_body platform m tr hl size s = Ok Continue s' ->
  window_full m s'.
Proof.
  intros Hm Hok Hfull H. unfold loop_body in H.
  apply bind_Ok in H as (again & s1 & E0 & H).
  pose proof (measure_full _ _ _ _ _ _ _ _ Hok Hfull E0) as Hfull1.
  apply (measure_ok _ _ _ _ _ _ _ _ Hm Hok) in E0 as [Hw1 Hagain].
  destruct again.
  { injection H as <-. exact Hfull1. }
  mred H.
  destruct (truthy (visible_range s1)) as [ e | t ] eqn:Et; [ discriminate | ].
  mred H. mcase H E1. mcase H E2.
  assert (Hmid : window_ok m s2 /\ window_full m s2).
  { assert (Hs0 : s0 = s1).
    { destruct t; cbn in E1.
      - apply truthy_true in Et as (r0 & Hr0 & Hne0). rewrite Hr0 in E1.
        injection E1 as <- <-. reflexivity.
      - injection E1 as <- <-. reflexivity. }
    subst s0. destruct a.
    - pose proof (scroll_to_full _ m _ _ _ _ E2) as (vr0 & Hv0 & Hvr0).
      apply scroll_to_range in E2 as (Hp & vr & Hv & Hvr').
      split.
      + apply (window_ok_vars _ _ _ Hv). destruct Hw1 as [Hh Hr].
        split; cbn; auto; intros r ->; apply Hvr'; reflexivity.
      + apply (window_full_vars _ _ _ Hv0). exact Hvr0.
    - injection E2 as _ <-. split; assumption. }
  clear E1 E2. destruct Hmid as [Hw2 Hfull2].
  destruct (truthy (visible_range s2)) as [ e | t2 ] eqn:Et2; [ discriminate | ].
  mred H. destruct t2; cbn in H.
  - mcase H E3. apply render_vars in E3.
    mcase H E4. apply read_key_vars in E4.
    apply truthy_true in Et2 as (r & Hr & Hne).
    eapply apply_key_full; [ exact Hm | | | | exact H ].
    + apply (window_ok_vars m s2); [ congruence | exact Hw2 ].
    + apply (shown_vars s2); [ congruence | ]. exists r; auto.
    + apply (window_full_vars m s2); [ congruence | exact Hfull2 ].
  - mcase H E3. injection H as <-. apply too_small_vars in E3.
    apply (window_full_vars _ _ _ E3). exact Hfull2.
Qed.

Lemma after_passes_full platform m tr hl :
  0 <= m ->
  forall sizes s s',
    session_ok m s -> window_full m s ->
    after_passes platform m tr hl sizes s = Some s' ->
    window_full m s'.
Proof.
  intros Hm; induction sizes as [ | size sizes IH ]; intros s s' Hok Hfull H; simpl in H.
  - injection H as <-; exact Hfull.
  - destruct (loop_body platform m tr hl size s) as [ [ | ] s1 | | ] eqn:E;
      try discriminate.
    eapply IH; [ | | exact H ].
    + eapply loop_body_ok; eassumption.
    + eapply loop_body_full; eassumption.
Qed.

(** ** The stored range, as the loop keeps it *)

Lemma count_up_to (P : Z -> bool) :
  forall (k : nat) (a b n : Z),
    a + Z.of_nat k = n -> b < n ->
    (forall j, a <= j < n -> (P j = true <-> j <= b)) ->
    Z.of_nat (List.length (filter P (py_range a n))) = Z.max 0 (b - a + 1).
Proof.
  induction k as [ | k IH ]; intros a b n Hk Hb HP.
  - rewrite py_range_nil by lia. simpl. lia.
  - rewrite py_range_cons by lia. cbn [filter].
    specialize (IH (a + 1) b n ltac:(lia) Hb).
    rewrite Nat2Z.inj_succ in Hk.
    destruct (P a) eqn:Ea.
    + apply (HP a ltac:(lia)) in Ea.
      cbn [List.length]. rewrite Nat2Z.inj_succ, IH; [ lia | ].
      intros j Hj. apply HP. lia.
    + assert (b < a).
      { destruct (Z_lt_le_dec b a) as [ Hlt | Hle ]; [ exact Hlt | ].
        apply (HP a ltac:(lia)) in Hle. congruence. }
      rewrite IH; [ lia | ].
      intros j Hj. apply HP. lia.
Qed.

Lemma full_range_exact m s r :
  0 <= m -> heights_ok (items s) ->
  0 <= first r -> first r <= last r + 1 ->
  last r < Z.of_nat (List.length (items s)) ->
  occupied_rows (items s) m (first r) (last r) <= usable_height s ->
  full_range m s r ->
  forall j,
    first r <= j < Z.of_nat (List.length (items s)) ->
    (occupied_rows (items s) m (first r) j <= usable_height s <-> j <= last r).
Proof.
  intros Hm Hh H0 Hl Hn Hfit Hfull j Hj. split.
  - intros Hrows.
    destruct (Z_le_gt_dec j (last r)) as [ Hle | Hgt ]; [ exact Hle | exfalso ].
    destruct Hfull as [ Hend | Hover ]; [ lia | ].
    pose proof (occupied_rows_mono (items s) m (first r) Hm Hh H0
                  (Z.to_nat (j - (last r + 1))) (last r + 1) ltac:(lia) ltac:(lia))
      as Hmono.
    replace (last r + 1 + Z.of_nat (Z.to_nat (j - (last r + 1)))) with j in Hmono by lia.
    lia.
  - intros Hle.
    pose proof (occupied_rows_mono (items s) m (first r) Hm Hh H0
                  (Z.to_nat (last r - j)) j ltac:(lia) ltac:(lia)) as Hmono.
    replace (j + Z.of_nat (Z.to_nat (last r - j))) with (last r) in Hmono by lia.
    lia.
Qed.

(** C2, as the loop keeps it.  In every session the loop body can leave
    behind, for every margin [m >= 0], a stored range lies in the list,
    is at worst empty ([first <= last + 1]), has as height exactly the
    rows of the items [first..last] with one margin per item after the
    first, and holds [last - first + 1] items.  As long as the cached
    terminal size has not been reset by a failed measurement, it is no
    taller than the usable height and its items are exactly the fully
    visible ones: an item [j] of the list from [first] on fits the
    usable height together with the items [first..j-1] if and only if
    [j <= last], so that [last - first + 1] is the number of fully
    visible items (none for the empty range). *)
Theorem stored_range_invariant :
  forall platform m tr hl raw sizes input s,
    0 <= m ->
    after_passes platform m tr hl sizes (initial_session (prepared raw) input) = Some s ->
    forall r,
      visible_range s = Some r ->
      0 <= first r /\
      first r <= last r + 1 /\
      last r < Z.of_nat (List.length (items s)) /\
      range_height r = occupied_rows (items s) m (first r) (last r) /\
      Z.of_nat (List.length (members (items s) (first r) (last r))) = last r - first r + 1 /\
      ((terminal_width s, terminal_height s) <> (0, 0) ->
       range_height r <= usable_height s /\
       (forall j,
           first r <= j < Z.of_nat (List.length (items s)) ->
           (fully_visible (items s) m (usable_height s) (first r) j = true <->
            j <= last r)) /\
       fully_visible_count (items s) m (usable_height s) (first r)
       = last r - first r + 1).
Proof.
  intros platform m tr hl raw sizes input s Hm Hrun r Hr.
  assert (Hok : session_ok m s).
  { eapply after_passes_ok; [ exact Hm | | exact Hrun ].
    apply initial_session_ok, prepared_heights_ok. }
  assert (Hfull : window_full m s).
  { eapply after_passes_full; [ exact Hm | | | exact Hrun ].
    - apply initial_session_ok, prepared_heights_ok.
    - intros _ r0 Hr0. discriminate Hr0. }
  destruct Hok as [[Hh Hrange] _].
  destruct (Hrange r Hr) as (H0 & Hl & Hn & Hrows & Hlen & Hfit).
  do 5 (split; [ assumption | ]).
  intros Hsize. specialize (Hfit Hsize). specialize (Hfull Hsize r Hr).
  assert (Hexact : forall j,
             first r <= j < Z.of_nat (List.length (items s)) ->
             (fully_visible (items s) m (usable_height s) (first r) j = true <->
              j <= last r)).
  { intros j Hj. unfold fully_visible. rewrite Z.leb_le.
    apply (full_range_exact m s r); auto. rewrite <- Hrows. exact Hfit. }
  split; [ exact Hfit | ]. split; [ exact Hexact | ].
  unfold fully_visible_count.
  rewrite (count_up_to _ (Z.to_nat (Z.of_nat (List.length (items s)) - first r))
             (first r) (last r) (Z.of_nat (List.length (items s))));
    [ lia | lia | exact Hn | exact Hexact ].
Qed.

Lemma stored_range_invariant_witness :
  exists s r,
    after_passes Win32 0 false short_header [(120, 8)]
      (initial_session (prepared tall_items) (raw_DOWN Win32 ++ ["x"%char])) = Some s /\
    r = mkItemRange 2 1 0 /\
    visible_range s = Some r /\
    (0 <= first r /\
     first r <= last r + 1 /\
     last r < Z.of_nat (List.length (items s)) /\
     range_height r = occupied_rows (items s) 0 (first r) (last r) /\
     Z.of_nat (List.length (members (items s) (first r) (last r))) = last r - first r + 1 /\
     ((terminal_width s, terminal_height s) <> (0, 0) ->
      range_height r <= usable_height s /\
      (forall j,
          first r <= j < Z.of_nat (List.length (items s)) ->
          (fully_visible (items s) 0 (usable_height s) (first r) j = true <->
           j <= last r)) /\
      fully_visible_count (items s) 0 (usable_height s) (first r)
      = last r - first r + 1)).
Proof.
  eexists. exists (mkItemRange 2 1 0).
  split; [ vm_compute; reflexivity | ].
  split; [ reflexivity | ].
  split; [ reflexivity | ].
  apply (stored_range_invariant Win32 0 false short_header tall_items [(120, 8)]
           (raw_DOWN Win32 ++ ["x"%char])).
  - lia.
  - vm_compute; reflexivity.
  - reflexivity.
Defined.

(** C2, as stated, fails twice.  With items of 1, 5, 5 and 1 lines and
    three usable rows, DOWN from the first item makes [scroll_down] store
    the range 2..1: first > last.  And after a terminal of 24 rows has
    shrunk to 5, the measurement fails and leaves the range 0..3 of
    height 12 next to a usable height of 0, in which none of its four
    items is fully visible. *)
Lemma stored_range_counterexample :
  (option_map visible_range
     (after_passes Win32 0 false short_header [(120, 8)]
        (initial_session (prepared tall_items) (raw_DOWN Win32 ++ ["x"%char])))
   = Some (Some (mkItemRange 2 1 0)) /\
   ~ first (mkItemRange 2 1 0) <= last (mkItemRange 2 1 0)) /\
  (option_map (fun s => (visible_range s, usable_height s))
     (after_passes Win32 0 false short_header [(120, 24); (120, 5)]
        (initial_session (prepared tall_items) ["x"%char; "x"%char]))
   = Some (Some (mkItemRange 0 3 12), 0) /\
   ~ range_height (mkItemRange 0 3 12) <= 0) /\
  (option_map (fun s => fully_visible_count (items s) 0 (usable_height s) 0)
     (after_passes Win32 0 false short_header [(120, 24); (120, 5)]
        (initial_session (prepared tall_items) ["x"%char; "x"%char]))
   = Some 0 /\
   last (mkItemRange 0 3 12) - first (mkItemRange 0 3 12) + 1 <> 0).
Proof.
  split; [ | split ]; split; try (vm_compute; reflexivity); simpl; lia.
Qed.

(** X24. In every session the loop body can leave behind, for every
    margin [m >= 0] and while the cached terminal size stands, a stored
    window that is not empty is full: it ends with the last item of the
    list, or the item after its last one would not fit the usable
    height together with the window. *)
Theorem window_is_full :
  forall platform m tr hl raw sizes input s r,
    0 <= m ->
    after_passes platform m tr hl sizes (initial_session (prepared raw) input) = Some s ->
    (terminal_width s, terminal_height s) <> (0, 0) ->
    visible_range s = Some r ->
    first r <= last r ->
    last r = Z.of_nat (List.length (items s)) - 1 \/
    usable_height s < occupied_rows (items s) m (first r) (last r + 1).
Proof.
  intros platform m tr hl raw sizes input s r Hm Hrun Hsize Hr Hne.
  assert (Hfull : window_full m s).
  { eapply after_passes_full; [ exact Hm | | | exact Hrun ].
    - apply initial_session_ok, prepared_heights_ok.
    - intros _ r0 Hr0. discriminate Hr0. }
  exact (Hfull Hsize r Hr).
Qed.

Lemma window_is_full_witness :
  exists s r,
    after_passes Unix 0 false short_header [(120, 8); (120, 8); (120, 8); (120, 8)]
      (initial_session (prepared (one_line_items 10))
         (raw_DOWN Unix ++ raw_DOWN Unix ++ raw_DOWN Unix ++ raw_DOWN Unix)) = Some s /\
    visible_range s = Some r /\
    r = mkItemRange 2 4 3 /\
    (last r = Z.of_nat (List.length (items s)) - 1 \/
     usable_height s < occupied_rows (items s) 0 (first r) (last r + 1)).
Proof.
  eexists. exists (mkItemRange 2 4 3).
  split; [ vm_compute; reflexivity | ].
  split; [ reflexivity | ].
  split; [ reflexivity | ].
  apply (window_is_full Unix 0 false short_header (one_line_items 10)
           [(120, 8); (120, 8); (120, 8); (120, 8)]
           (raw_DOWN Unix ++ raw_DOWN Unix ++ raw_DOWN Unix ++ raw_DOWN Unix)).
  - lia.
  - vm_compute; reflexivity.
  - discriminate.
  - reflexivity.
  - simpl; lia.
Defined.
